(** * Embedding layers of pytorch-widedeep: a shallow embedding

    The definitions below follow
    [pytorch_widedeep/models/embeddings_layers.py] class by class; every
    Python class becomes a record holding the attributes its [__init__]
    assigns, every [__init__] a function into [result] (a raised exception
    is a value), every [forward] a function on the record.

    What is taken from the numerical engine (torch, numpy) is its documented
    interface behaviour: index and shape checks, the range checks on dropout
    probabilities, [torch.cat] on an empty list, the warning of the
    initialisers on tensors without elements, broadcasting.  The scalar
    arithmetic of the tensors is a parameter of the development. *)

From Stdlib Require Import ZArith List Bool Lia Ascii String.
From Stdlib Require Import Floats.SpecFloat.
From stdpp Require Import base option list gmap strings.

Local Open Scope string_scope.
Local Open Scope list_scope.
Local Open Scope Z_scope.

(** ** Exceptions and results *)

Inductive PyError :=
  | AssertionError
  | AttributeError
  | IndexError
  | KeyError
  | OverflowError
  | RuntimeError
  | TypeError
  | ValueError.

Inductive result (T : Type) : Type :=
  | Ok (v : T)
  | Raise (e : PyError).
Arguments Ok {T} v.
Arguments Raise {T} e.

Definition rbind {T U : Type} (r : result T) (k : T -> result U) : result U :=
  match r with
  | Ok v => k v
  | Raise e => Raise e
  end.

Notation "x <~ r ;; k" := (rbind r (fun x => k))
  (at level 100, r at next level, right associativity).

Definition is_ok {T : Type} (r : result T) : bool :=
  match r with Ok _ => true | Raise _ => false end.

(** Sequencing a fallible action over a list, left to right, stopping at the
    first exception (a Python list comprehension). *)
Fixpoint rmapM {T U : Type} (f : T -> result U) (l : list T) : result (list U) :=
  match l with
  | [] => Ok []
  | x :: l' => y <~ f x ;; ys <~ rmapM f l' ;; Ok (y :: ys)
  end.

(** Construction may also emit warnings: the warnings issued so far are
    kept next to the outcome. *)
Definition warned (T : Type) : Type := (list string * result T)%type.

Definition wret {T : Type} (r : result T) : warned T := ([], r).

Definition warn (msg : string) : warned unit := ([msg], Ok tt).

Definition wbind {T U : Type} (c : warned T) (k : T -> warned U) : warned U :=
  match c with
  | (w, Ok v) => let '(w', r) := k v in (w ++ w', r)
  | (w, Raise e) => (w, Raise e)
  end.

Notation "x <~~ c ;; k" := (wbind c (fun x => k))
  (at level 100, c at next level, right associativity).

(** ** Python floats and integers *)

(** A Python [float] is an IEEE binary64 number. *)
Definition prec64 : Z := 53.
Definition emax64 : Z := 1024.

Definition PyFloat : Type := spec_float.

Definition float_of_int (z : Z) : result PyFloat :=
  match binary_normalize prec64 emax64 z 0 false with
  | S754_infinity _ => Raise OverflowError
  | f => Ok f
  end.

Definition float_zero : PyFloat := S754_zero false.
Definition float_one : PyFloat := S754_finite false 4503599627370496 (-52).

(** [x < y] between two floats; false as soon as one of them is a NaN. *)
Definition float_lt (x y : PyFloat) : bool := SFltb x y.
Definition float_le (x y : PyFloat) : bool := SFleb x y.

(** [int(x)]: truncation towards zero. *)
Definition int_of_float (x : PyFloat) : result Z :=
  match x with
  | S754_zero _ => Ok 0
  | S754_infinity _ => Raise OverflowError
  | S754_nan => Raise ValueError
  | S754_finite s m e =>
      let a := if 0 <=? e then Z.shiftl (Zpos m) e else Z.shiftr (Zpos m) (- e) in
      Ok (if s then - a else a)
  end.

(** [n * x] for an [int] n and a [float] x: the integer is converted first. *)
Definition int_mul_float (n : Z) (x : PyFloat) : result PyFloat :=
  f <~ float_of_int n ;; Ok (SFmul prec64 emax64 f x).

(** The float literals [0.1], [0.25] and [0.5]. *)
Definition float_0_1 : PyFloat := S754_finite false 7205759403792794 (-56).
Definition float_0_25 : PyFloat := S754_finite false 4503599627370496 (-54).
Definition float_0_5 : PyFloat := S754_finite false 4503599627370496 (-53).

(** Reduction of an integer to the signed 64-bit range (numpy's [int64]). *)
Definition wrap64 (z : Z) : Z := (z + 2 ^ 63) mod 2 ^ 64 - 2 ^ 63.

Definition int64_max : Z := 2 ^ 63 - 1.

(** [int(np.sum(l))] for a list of integers that fit [int64]. *)
Definition np_sum_int (l : list Z) : Z := wrap64 (foldr Z.add 0 l).

(** Values an attribute can hold, as far as this development reads them. *)
Inductive PyVal :=
  | VBool (b : bool)
  | VInt (z : Z)
  | VFloat (f : PyFloat)
  | VObject.

(** Lookup of an instance attribute by name. *)
Fixpoint getattr (d : list (string * PyVal)) (name : string) : result PyVal :=
  match d with
  | [] => Raise AttributeError
  | (k, v) :: d' => if String.eqb k name then Ok v else getattr d' name
  end.

Definition as_float (v : PyVal) : result PyFloat :=
  match v with
  | VBool b => Ok (if b then float_one else float_zero)
  | VInt z => float_of_int z
  | VFloat f => Ok f
  | VObject => Raise RuntimeError
  end.

(** ** The numerical engine

    [A] is the element type of the raw input batch, [R] the floating-point
    element type of parameters and outputs.  The engine supplies the scalar
    operations, the random draws, and the layers of torch whose arithmetic is
    not reproduced here (normalisation layers), with the one fact about them
    that matters for layout: they keep the shape of their input.

    [get_activation_fn] stands for the helper of that name imported from
    [pytorch_widedeep.models._get_activation_fn]; the activations the
    package documents (tanh, relu, leaky_relu, gelu) act element by
    element. *)
Class Engine (A R : Type) := {
  to_long : A -> Z;
  to_float : A -> R;
  R0 : R;
  Radd : R -> R -> R;
  Rmul : R -> R -> R;
  clamp_2 : R -> R;
  dropout_noise : PyFloat -> bool -> R;
  bernoulli : nat -> bool;
  rnd : string -> nat -> nat -> R;
  get_activation_fn : string -> result (R -> R);
  layer_norm : list R -> list R;
  batch_norm : bool -> list (list R) -> list (list R);
  layer_norm_length : forall v, length (layer_norm v) = length v;
  batch_norm_shape : forall tr X,
    Forall2 (fun r r' => length r' = length r) X (batch_norm tr X)
}.

(** ** Tensors *)

(** The raw input batch of shape (N, F). *)
Record Batch (A : Type) := {
  n_features : nat;
  rows : list (list A)
}.
Arguments n_features {A} _.
Arguments rows {A} _.

Definition wf_batch {A : Type} (X : Batch A) : Prop :=
  Forall (fun r => length r = n_features X) (rows X).

(** Position [i] along an axis of the given size; negative positions count
    from the end. *)
Definition norm_index (size : nat) (i : Z) : result nat :=
  if (0 <=? i) && (i <? Z.of_nat size) then Ok (Z.to_nat i)
  else if (i <? 0) && (- Z.of_nat size <=? i) then Ok (Z.to_nat (Z.of_nat size + i))
  else Raise IndexError.

Definition row_get {T : Type} (r : list T) (j : nat) : result T :=
  match r !! j with
  | Some a => Ok a
  | None => Raise RuntimeError
  end.

(** [X[:, i]] *)
Definition select_col {A : Type} (X : Batch A) (i : Z) : result (list A) :=
  j <~ norm_index (n_features X) i ;;
  rmapM (fun r => row_get r j) (rows X).

(** [X[:, idx]] for a list of positions. *)
Definition select_cols {A : Type} (X : Batch A) (idx : list Z) : result (list (list A)) :=
  js <~ rmapM (norm_index (n_features X)) idx ;;
  rmapM (fun r => rmapM (row_get r) js) (rows X).

(** [torch.cat(ts, 1)] for tensors of rank at least two.  An empty list of
    tensors is refused with [ValueError], tensors whose other axes differ
    with [RuntimeError]. *)
Fixpoint cat_dim1 {T : Type} (ts : list (list (list T))) : result (list (list T)) :=
  match ts with
  | [] => Raise ValueError
  | [t] => Ok t
  | t :: ts' =>
      r <~ cat_dim1 ts' ;;
      if Nat.eqb (length t) (length r) then Ok (zip_with app t r)
      else Raise RuntimeError
  end.

(** Pairing two axes under the broadcasting rule: equal sizes pair up, an
    axis of size one is repeated along the other. *)
Definition broadcast_zip {T U V : Type} (f : T -> U -> V) (l : list T) (k : list U)
  : result (list V) :=
  if Nat.eqb (length l) (length k) then Ok (zip_with f l k)
  else match l, k with
       | [a], _ => Ok (map (f a) k)
       | _, [b] => Ok (map (fun a => f a b) l)
       | _, _ => Raise RuntimeError
       end.

(** Expansion of the first axis to the size of the second one only (as in
    [expand_as], or an update in place): the second axis is never repeated. *)
Definition expand_zip {T U V : Type} (f : T -> U -> V) (l : list T) (k : list U)
  : result (list V) :=
  if Nat.eqb (length l) (length k) then Ok (zip_with f l k)
  else match l with
       | [a] => Ok (map (f a) k)
       | _ => Raise RuntimeError
       end.

(** [tabulate n f] is [[f 0; ...; f (n-1)]]. *)
Definition tabulate {T : Type} (n : nat) (f : nat -> T) : list T := map f (seq 0 n).

Definition has_width {T : Type} (w : nat) (t : list (list T)) : Prop :=
  Forall (fun r => length r = w) t.

Section Layers.
Context {A R : Type} `{Eng : Engine A R}.

(** ** Dropout *)

(** The range check of [nn.Dropout.__init__] and of [F.dropout], written
    [p < 0 or p > 1] in Python: a NaN passes it. *)
Definition check_p (p : PyFloat) : result unit :=
  if float_lt p float_zero || float_lt float_one p then Raise ValueError
  else Ok tt.

(** [0 <= p <= 1]; false for a NaN. *)
Definition prob_in_range (p : PyFloat) : bool :=
  float_le float_zero p && float_le p float_one.

(** The check of the dropout kernel that [F.dropout] calls once its own
    check has passed, in training and in evaluation mode alike: it asks for
    [p >= 0 && p <= 1] and so refuses the NaN that [check_p] lets through. *)
Definition check_p_native (p : PyFloat) : result unit :=
  if prob_in_range p then Ok tt else Raise RuntimeError.

Definition dropout_vec (p : PyFloat) (off : nat) (v : list R) : list R :=
  imap (fun j x => Rmul x (dropout_noise p (bernoulli (off + j)))) v.

Definition dropout_mat (p : PyFloat) (off : nat) (m : list (list R)) : list (list R) :=
  imap (fun n r => dropout_vec p (off + n * length r) r) m.

Definition numel (m : list (list R)) : nat := foldr (fun r s => (length r + s)%nat) 0%nat m.

Definition dropout_cube (p : PyFloat) (t : list (list (list R))) : list (list (list R)) :=
  imap (fun n m => dropout_mat p (n * numel m) m) t.

(** [F.dropout(x, p, training)] on tensors of rank two and three. *)
Definition F_dropout2 (x : list (list R)) (p : PyFloat) (training : bool)
  : result (list (list R)) :=
  _ <~ check_p p ;;
  _ <~ check_p_native p ;;
  Ok (if training then dropout_mat p 0 x else x).

Definition F_dropout3 (x : list (list (list R))) (p : PyFloat) (training : bool)
  : result (list (list (list R))) :=
  _ <~ check_p p ;;
  _ <~ check_p_native p ;;
  Ok (if training then dropout_cube p x else x).

(** [nn.Dropout] *)
Record Dropout := {
  dp_p : PyFloat;
  dp_training : bool
}.

Definition Dropout_init (p : PyFloat) : result Dropout :=
  _ <~ check_p p ;;
  Ok {| dp_p := p; dp_training := true |}.

Definition Dropout_forward2 (self : Dropout) (x : list (list R)) :=
  F_dropout2 x (dp_p self) (dp_training self).

Definition Dropout_forward3 (self : Dropout) (x : list (list (list R))) :=
  F_dropout3 x (dp_p self) (dp_training self).

Definition Dropout_train (mode : bool) (self : Dropout) : Dropout :=
  {| dp_p := dp_p self; dp_training := mode |}.

(** [FullEmbeddingDropout] *)
Record FullEmbeddingDropout := {
  fed_p : PyFloat;
  fed_training : bool
}.

Definition FullEmbeddingDropout_init (p : PyFloat) : result FullEmbeddingDropout :=
  if float_lt p float_zero || float_lt float_one p then Raise ValueError
  else Ok {| fed_p := p; fed_training := true |}.

(** The attributes of an instance: [training] from [nn.Module], [p] from
    [__init__]. *)
Definition FullEmbeddingDropout_dict (self : FullEmbeddingDropout)
  : list (string * PyVal) :=
  [("training", VBool (fed_training self)); ("p", VFloat (fed_p self))].

(** The mask [X.new().resize_((X.size(1), 1)).bernoulli_(1 - d) / (1 - d)]:
    one draw per position of axis 1. *)
Definition full_mask (d : PyFloat) (size1 : nat) : list R :=
  tabulate size1 (fun i => dropout_noise d (bernoulli i)).

Definition size1 {T : Type} (X : list (list T)) : nat :=
  match X with
  | [] => 0%nat
  | r :: _ => length r
  end.

(** On a tensor of rank two the mask, of shape (X.size(1), 1), is expanded
    to the shape of X: its first axis has to agree with the batch axis. *)
Definition FullEmbeddingDropout_forward2 (self : FullEmbeddingDropout)
    (X : list (list R)) : result (list (list R)) :=
  if fed_training self then
    v <~ getattr (FullEmbeddingDropout_dict self) "dropout" ;;
    d <~ as_float v ;;
    expand_zip (fun mk r => map (Rmul mk) r) (full_mask d (size1 X)) X
  else Ok X.

(** On a tensor of rank three the mask is aligned with the last two axes. *)
Definition FullEmbeddingDropout_forward3 (self : FullEmbeddingDropout)
    (X : list (list (list R))) : result (list (list (list R))) :=
  if fed_training self then
    v <~ getattr (FullEmbeddingDropout_dict self) "dropout" ;;
    d <~ as_float v ;;
    Ok (map (fun m => zip_with (fun mk r => map (Rmul mk) r)
                        (full_mask d (size1 X)) m) X)
  else Ok X.

Definition FullEmbeddingDropout_train (mode : bool) (self : FullEmbeddingDropout)
  : FullEmbeddingDropout :=
  {| fed_p := fed_p self; fed_training := mode |}.

(** [DropoutLayers = Union[nn.Dropout, FullEmbeddingDropout]] *)
Inductive DropoutLayers :=
  | DL_Dropout (d : Dropout)
  | DL_Full (d : FullEmbeddingDropout).

Definition DropoutLayers_init (full_embed_dropout : bool) (p : PyFloat)
  : result DropoutLayers :=
  if full_embed_dropout then d <~ FullEmbeddingDropout_init p ;; Ok (DL_Full d)
  else d <~ Dropout_init p ;; Ok (DL_Dropout d).

Definition DropoutLayers_forward2 (self : DropoutLayers) (x : list (list R)) :=
  match self with
  | DL_Dropout d => Dropout_forward2 d x
  | DL_Full d => FullEmbeddingDropout_forward2 d x
  end.

Definition DropoutLayers_forward3 (self : DropoutLayers) (x : list (list (list R))) :=
  match self with
  | DL_Dropout d => Dropout_forward3 d x
  | DL_Full d => FullEmbeddingDropout_forward3 d x
  end.

Definition DropoutLayers_train (mode : bool) (self : DropoutLayers) : DropoutLayers :=
  match self with
  | DL_Dropout d => DL_Dropout (Dropout_train mode d)
  | DL_Full d => DL_Full (FullEmbeddingDropout_train mode d)
  end.

(** ** [nn.Embedding(num_embeddings, embedding_dim, padding_idx=0)] *)

Record Embedding := {
  embedding_dim : nat;
  emb_weight : list (list R)
}.

(** The table is allocated with the given shape, filled with random draws,
    and its row 0 (the padding row) is then zeroed, which needs the row to
    exist. *)
Definition Embedding_init (name : string) (num_embeddings embedding_dim : Z)
  : result Embedding :=
  if (num_embeddings <? 0) || (embedding_dim <? 0)
     || (int64_max <? num_embeddings) || (int64_max <? embedding_dim)
  then Raise RuntimeError
  else if num_embeddings =? 0 then Raise IndexError
  else Ok {| embedding_dim := Z.to_nat embedding_dim;
             emb_weight :=
               tabulate (Z.to_nat num_embeddings) (fun i =>
                 tabulate (Z.to_nat embedding_dim) (fun j =>
                   match i with
                   | O => R0
                   | _ => rnd name i j
                   end)) |}.

Definition embedding_lookup (self : Embedding) (i : Z) : result (list R) :=
  if i <? 0 then Raise IndexError
  else match emb_weight self !! Z.to_nat i with
       | Some r => Ok r
       | None => Raise IndexError
       end.

(** Lookup of a vector of codes, shape (N,) to (N, D). *)
Definition Embedding_forward1 (self : Embedding) (idx : list Z) : result (list (list R)) :=
  rmapM (embedding_lookup self) idx.

(** Lookup of a matrix of codes, shape (N, C) to (N, C, D). *)
Definition Embedding_forward2 (self : Embedding) (idx : list (list Z))
  : result (list (list (list R))) :=
  rmapM (Embedding_forward1 self) idx.

Definition wf_Embedding (self : Embedding) : Prop :=
  has_width (embedding_dim self) (emb_weight self).

(** ** [ContEmbeddings] *)

Record ContEmbeddings := {
  ce_n_cont_cols : Z;
  ce_embed_dim : Z;
  ce_embed_dropout : PyFloat;
  ce_use_bias : bool;
  ce_activation : option string;
  ce_weight : list (list R);
  ce_bias : option (list (list R));
  ce_act_fn : option (R -> R);
  ce_training : bool
}.

(** [nn.Parameter(torch.Tensor(rows, cols))] followed by its random
    initialisation. *)
Definition new_parameter (name : string) (nrows ncols : Z) : result (list (list R)) :=
  if (nrows <? 0) || (ncols <? 0) || (int64_max <? nrows) || (int64_max <? ncols)
  then Raise RuntimeError
  else Ok (tabulate (Z.to_nat nrows) (fun i =>
             tabulate (Z.to_nat ncols) (fun j => rnd name i j))).

Definition zero_element_warning : string :=
  "Initializing zero-element tensors is a no-op".

(** What [nn.init.kaiming_uniform_] reports on a parameter of the given
    shape: a tensor without elements is left alone, with a warning. *)
Definition kaiming_uniform_warn (nrows ncols : Z) : warned unit :=
  if (nrows =? 0) || (ncols =? 0) then warn zero_element_warning else wret (Ok tt).

Definition truthy (s : option string) : option string :=
  match s with
  | Some "" => None
  | _ => s
  end.

Definition ContEmbeddings_init (n_cont_cols embed_dim : Z) (embed_dropout : PyFloat)
    (use_bias : bool) (activation : option string) : result ContEmbeddings :=
  weight <~ new_parameter "weight" n_cont_cols embed_dim ;;
  bias <~ (if use_bias
           then b <~ new_parameter "bias" n_cont_cols embed_dim ;; Ok (Some b)
           else Ok None) ;;
  act_fn <~ match truthy activation with
            | Some a => f <~ get_activation_fn a ;; Ok (Some f)
            | None => Ok None
            end ;;
  Ok {| ce_n_cont_cols := n_cont_cols;
        ce_embed_dim := embed_dim;
        ce_embed_dropout := embed_dropout;
        ce_use_bias := use_bias;
        ce_activation := activation;
        ce_weight := weight;
        ce_bias := bias;
        ce_act_fn := act_fn;
        ce_training := true |}.

(** The warnings of [ContEmbeddings.__init__]: once the parameters are
    allocated, [_reset_parameters] passes the weight to
    [nn.init.kaiming_uniform_]. *)
Definition ContEmbeddings_warnings (n_cont_cols embed_dim : Z) (use_bias : bool)
  : list string :=
  match new_parameter "weight" n_cont_cols embed_dim,
        (if use_bias then new_parameter "bias" n_cont_cols embed_dim else Ok [])
  with
  | Ok _, Ok _ => (kaiming_uniform_warn n_cont_cols embed_dim).1
  | _, _ => []
  end.

(** [self.weight.unsqueeze(0) * X.unsqueeze(2)]: shapes (1, C, D) and
    (N, C', 1); axis 1 is paired under the broadcasting rule. *)
Definition cont_scale (weight : list (list R)) (X : list (list R))
  : result (list (list (list R))) :=
  rmapM (fun xs => broadcast_zip (fun w x => map (fun wj => Rmul wj x) w) weight xs) X.

(** [x + self.bias.unsqueeze(0)] *)
Definition cont_add_bias (x : list (list (list R))) (bias : list (list R))
  : result (list (list (list R))) :=
  rmapM (fun m =>
           rs <~ broadcast_zip (fun r b => broadcast_zip Radd r b) m bias ;;
           rmapM id rs) x.

Definition ContEmbeddings_forward (self : ContEmbeddings) (X : list (list R))
  : result (list (list (list R))) :=
  x <~ cont_scale (ce_weight self) X ;;
  x <~ match ce_bias self with
       | Some b => cont_add_bias x b
       | None => Ok x
       end ;;
  let x := match ce_act_fn self with
           | Some f => map (map (map f)) x
           | None => x
           end in
  F_dropout3 x (ce_embed_dropout self) (ce_training self).

Definition ContEmbeddings_train (mode : bool) (self : ContEmbeddings) : ContEmbeddings :=
  {| ce_n_cont_cols := ce_n_cont_cols self;
     ce_embed_dim := ce_embed_dim self;
     ce_embed_dropout := ce_embed_dropout self;
     ce_use_bias := ce_use_bias self;
     ce_activation := ce_activation self;
     ce_weight := ce_weight self;
     ce_bias := ce_bias self;
     ce_act_fn := ce_act_fn self;
     ce_training := mode |}.

(** ** [SharedEmbeddings] *)

Record SharedEmbeddings := {
  se_add_shared_embed : bool;
  se_embed : Embedding;
  se_shared_embed : list R;
  se_dropout : DropoutLayers;
  se_training : bool
}.

(** [col_embed_dim]: the width of the shared vector. *)
Definition col_embed_dim (add_shared_embed : bool) (embed_dim : Z)
    (frac_shared_embed : PyFloat) : result Z :=
  if add_shared_embed then Ok embed_dim
  else f <~ int_mul_float embed_dim frac_shared_embed ;; int_of_float f.

(** [torch.empty(1, n).uniform_(-1, 1)] *)
Definition new_shared_vector (name : string) (n : Z) : result (list R) :=
  if (n <? 0) || (int64_max <? n) then Raise RuntimeError
  else Ok (tabulate (Z.to_nat n) (fun j => rnd name 0 j)).

Definition SharedEmbeddings_init (name : string) (n_embed embed_dim : Z)
    (embed_dropout : PyFloat) (full_embed_dropout add_shared_embed : bool)
    (frac_shared_embed : PyFloat) : result SharedEmbeddings :=
  if negb (float_lt frac_shared_embed float_one) then Raise AssertionError
  else
    embed <~ Embedding_init name n_embed embed_dim ;;
    let embed := {| embedding_dim := embedding_dim embed;
                    emb_weight := map (map clamp_2) (emb_weight embed) |} in
    k <~ col_embed_dim add_shared_embed embed_dim frac_shared_embed ;;
    shared <~ new_shared_vector name k ;;
    dropout <~ DropoutLayers_init full_embed_dropout embed_dropout ;;
    Ok {| se_add_shared_embed := add_shared_embed;
          se_embed := embed;
          se_shared_embed := shared;
          se_dropout := dropout;
          se_training := true |}.

(** [out += shared_embed], rows of width D, shared vector of width k. *)
Definition add_shared (D : nat) (shared : list R) (out : list (list R))
  : result (list (list R)) :=
  if Nat.eqb (length shared) D then Ok (map (fun r => zip_with Radd r shared) out)
  else match shared with
       | [s] => Ok (map (map (fun x => Radd x s)) out)
       | _ => Raise RuntimeError
       end.

(** [out[:, : k] = shared_embed]: the slice has width [min k D] and the
    shared vector has to fit it. *)
Definition overwrite_shared (D : nat) (shared : list R) (out : list (list R))
  : result (list (list R)) :=
  let k := length shared in
  if Nat.leb k D then Ok (map (fun r => shared ++ drop k r) out)
  else if Nat.eqb k 1 then Ok out
  else Raise RuntimeError.

Definition SharedEmbeddings_forward (self : SharedEmbeddings) (X : list Z)
  : result (list (list R)) :=
  e <~ Embedding_forward1 (se_embed self) X ;;
  out <~ DropoutLayers_forward2 (se_dropout self) e ;;
  if se_add_shared_embed self
  then add_shared (embedding_dim (se_embed self)) (se_shared_embed self) out
  else overwrite_shared (embedding_dim (se_embed self)) (se_shared_embed self) out.

Definition SharedEmbeddings_train (mode : bool) (self : SharedEmbeddings)
  : SharedEmbeddings :=
  {| se_add_shared_embed := se_add_shared_embed self;
     se_embed := se_embed self;
     se_shared_embed := se_shared_embed self;
     se_dropout := DropoutLayers_train mode (se_dropout self);
     se_training := mode |}.

(** ** [DiffSizeCatEmbeddings] *)

Fixpoint has_dot (s : string) : bool :=
  match s with
  | EmptyString => false
  | String c s' => Ascii.eqb c "."%char || has_dot s'
  end.

(** [nn.ModuleDict({"emb_layer_" + col: mk(...) for ... in spec})]: the
    modules are built in the order of the spec, a key met again replaces
    the module stored under it, and a key with a dot is refused when the
    dictionary is filled. *)
Definition layer_key (col : string) : string := "emb_layer_" +:+ col.

Definition ModuleDict_build {S M : Type} (col_of : S -> string)
    (mk : S -> result M) (spec : list S) : result (gmap string M) :=
  kvs <~ rmapM (fun s => m <~ mk s ;; Ok (layer_key (col_of s), m)) spec ;;
  if existsb (fun kv => has_dot (fst kv)) kvs then Raise KeyError
  else Ok (foldl (fun d kv => <[fst kv := snd kv]> d) ∅ kvs).

Definition ModuleDict_get {M : Type} (d : gmap string M) (key : string) : result M :=
  match d !! key with
  | Some m => Ok m
  | None => Raise KeyError
  end.

(** [column_idx[col]] *)
Definition dict_get (d : gmap string Z) (key : string) : result Z :=
  match d !! key with
  | Some v => Ok v
  | None => Raise KeyError
  end.

Record DiffSizeCatEmbeddings := {
  dce_column_idx : gmap string Z;
  dce_embed_input : list (string * Z * Z);
  dce_embed_layers : gmap string Embedding;
  dce_embedding_dropout : Dropout;
  dce_emb_out_dim : Z;
  dce_training : bool
}.

Definition DiffSizeCatEmbeddings_init (column_idx : gmap string Z)
    (embed_input : list (string * Z * Z)) (embed_dropout : PyFloat)
  : result DiffSizeCatEmbeddings :=
  layers <~ ModuleDict_build (fun e => e.1.1)
              (fun e => Embedding_init (layer_key e.1.1) (e.1.2 + 1) e.2)
              embed_input ;;
  dropout <~ Dropout_init embed_dropout ;;
  Ok {| dce_column_idx := column_idx;
        dce_embed_input := embed_input;
        dce_embed_layers := layers;
        dce_embedding_dropout := dropout;
        dce_emb_out_dim := np_sum_int (map (fun e => e.2) embed_input);
        dce_training := true |}.

Definition DiffSizeCatEmbeddings_forward (self : DiffSizeCatEmbeddings) (X : Batch A)
  : result (list (list R)) :=
  embed <~ rmapM (fun e =>
                    layer <~ ModuleDict_get (dce_embed_layers self) (layer_key e.1.1) ;;
                    i <~ dict_get (dce_column_idx self) e.1.1 ;;
                    codes <~ select_col X i ;;
                    Embedding_forward1 layer (map to_long codes))
                 (dce_embed_input self) ;;
  x <~ cat_dim1 embed ;;
  Dropout_forward2 (dce_embedding_dropout self) x.

Definition DiffSizeCatEmbeddings_train (mode : bool) (self : DiffSizeCatEmbeddings)
  : DiffSizeCatEmbeddings :=
  {| dce_column_idx := dce_column_idx self;
     dce_embed_input := dce_embed_input self;
     dce_embed_layers := dce_embed_layers self;
     dce_embedding_dropout := Dropout_train mode (dce_embedding_dropout self);
     dce_emb_out_dim := dce_emb_out_dim self;
     dce_training := mode |}.

(** ** [SameSizeCatEmbeddings] *)

(** [self.embed: Union[nn.ModuleDict, nn.Embedding]] *)
Inductive SameSizeEmbed :=
  | SSE_Dict (d : gmap string SharedEmbeddings)
  | SSE_Table (e : Embedding).

(** [bias] and [dropout] are assigned on some paths of [__init__] only:
    [None] stands for an attribute that was never assigned. *)
Record SameSizeCatEmbeddings := {
  ssc_column_idx : gmap string Z;
  ssc_embed_input : list (string * Z);
  ssc_embed_dropout : PyFloat;
  ssc_shared_embed : bool;
  ssc_n_tokens : Z;
  ssc_categorical_cols : list string;
  ssc_cat_idx : list Z;
  ssc_bias : option (list (list R));
  ssc_embed : SameSizeEmbed;
  ssc_dropout : option DropoutLayers;
  ssc_training : bool
}.

Definition bias_warning : string :=
  "The current implementation of 'SharedEmbeddings' does not use bias".

(** [use_bias] is tested with [is not None]: it is [None] or a boolean. *)
Definition SameSizeCatEmbeddings_init (embed_dim : Z) (column_idx : gmap string Z)
    (embed_input : list (string * Z)) (embed_dropout : PyFloat)
    (full_embed_dropout shared_embed add_shared_embed : bool)
    (frac_shared_embed : PyFloat) (use_bias : option bool)
  : warned SameSizeCatEmbeddings :=
  let n_tokens := foldr Z.add 0 (map snd embed_input) in
  let categorical_cols := map fst embed_input in
  cat_idx <~~ wret (rmapM (dict_get column_idx) categorical_cols) ;;
  bias <~~ match use_bias with
           | Some _ =>
               b <~~ wret (new_parameter "bias"
                             (Z.of_nat (length categorical_cols)) embed_dim) ;;
               _ <~~ kaiming_uniform_warn (Z.of_nat (length categorical_cols))
                       embed_dim ;;
               _ <~~ (if shared_embed then warn bias_warning else wret (Ok tt)) ;;
               wret (Ok (Some b))
           | None => wret (Ok None)
           end ;;
  embed_dropout_layers <~~
    wret (if shared_embed then
            d <~ ModuleDict_build fst
                   (fun e => SharedEmbeddings_init (layer_key e.1)
                               (if String.eqb e.1 "cls_token" then e.2 else e.2 + 1)
                               embed_dim embed_dropout full_embed_dropout
                               add_shared_embed frac_shared_embed)
                   embed_input ;;
            Ok (SSE_Dict d, None)
          else
            e <~ Embedding_init "embed" (n_tokens + 1) embed_dim ;;
            d <~ DropoutLayers_init full_embed_dropout embed_dropout ;;
            Ok (SSE_Table e, Some d)) ;;
  wret (Ok {| ssc_column_idx := column_idx;
              ssc_embed_input := embed_input;
              ssc_embed_dropout := embed_dropout;
              ssc_shared_embed := shared_embed;
              ssc_n_tokens := n_tokens;
              ssc_categorical_cols := categorical_cols;
              ssc_cat_idx := cat_idx;
              ssc_bias := bias;
              ssc_embed := embed_dropout_layers.1;
              ssc_dropout := embed_dropout_layers.2;
              ssc_training := true |}).

(** Reading an attribute that may be unassigned. *)
Definition read_attr {T : Type} (a : option T) : result T :=
  match a with
  | Some v => Ok v
  | None => Raise AttributeError
  end.

Definition SameSizeCatEmbeddings_forward (self : SameSizeCatEmbeddings) (X : Batch A)
  : result (list (list (list R))) :=
  if ssc_shared_embed self then
    cat_embed <~ rmapM (fun e =>
                   d <~ match ssc_embed self with
                        | SSE_Dict d => Ok d
                        | SSE_Table _ => Raise TypeError
                        end ;;
                   layer <~ ModuleDict_get d (layer_key e.1) ;;
                   i <~ dict_get (ssc_column_idx self) e.1 ;;
                   codes <~ select_col X i ;;
                   out <~ SharedEmbeddings_forward layer (map to_long codes) ;;
                   Ok (map (fun v => [v]) out))
                 (ssc_embed_input self) ;;
    cat_dim1 cat_embed
  else
    table <~ match ssc_embed self with
             | SSE_Table t => Ok t
             | SSE_Dict _ => Raise TypeError
             end ;;
    codes <~ select_cols X (ssc_cat_idx self) ;;
    x <~ Embedding_forward2 table (map (map to_long) codes) ;;
    bias <~ read_attr (ssc_bias self) ;;
    x <~ cont_add_bias x bias ;;
    dropout <~ read_attr (ssc_dropout self) ;;
    DropoutLayers_forward3 dropout x.

Definition SameSizeEmbed_train (mode : bool) (e : SameSizeEmbed) : SameSizeEmbed :=
  match e with
  | SSE_Dict d => SSE_Dict (SharedEmbeddings_train mode <$> d)
  | SSE_Table t => SSE_Table t
  end.

Definition SameSizeCatEmbeddings_train (mode : bool) (self : SameSizeCatEmbeddings)
  : SameSizeCatEmbeddings :=
  {| ssc_column_idx := ssc_column_idx self;
     ssc_embed_input := ssc_embed_input self;
     ssc_embed_dropout := ssc_embed_dropout self;
     ssc_shared_embed := ssc_shared_embed self;
     ssc_n_tokens := ssc_n_tokens self;
     ssc_categorical_cols := ssc_categorical_cols self;
     ssc_cat_idx := ssc_cat_idx self;
     ssc_bias := ssc_bias self;
     ssc_embed := SameSizeEmbed_train mode (ssc_embed self);
     ssc_dropout := DropoutLayers_train mode <$> ssc_dropout self;
     ssc_training := mode |}.

(** ** Normalisation of the continuous columns *)

(** [NormLayers]: [nn.LayerNorm], [nn.BatchNorm1d] or [nn.Identity].  The
    running statistics of batch normalisation are part of the engine and
    are not tracked here. *)
Inductive NormLayers :=
  | LayerNorm (normalized_shape : nat)
  | BatchNorm1d (num_features : nat) (training : bool)
  | Identity.

Definition NormLayers_init (cont_norm_layer : option string) (n : nat) : NormLayers :=
  match cont_norm_layer with
  | Some name =>
      if String.eqb name "layernorm" then LayerNorm n
      else if String.eqb name "batchnorm" then BatchNorm1d n true
      else Identity
  | None => Identity
  end.

Definition all_width (n : nat) (x : list (list R)) : bool :=
  forallb (fun r => Nat.eqb (length r) n) x.

(** Batch normalisation in training mode refuses a batch of one row. *)
Definition NormLayers_forward (self : NormLayers) (x : list (list R))
  : result (list (list R)) :=
  match self with
  | LayerNorm n =>
      if all_width n x then Ok (map layer_norm x) else Raise RuntimeError
  | BatchNorm1d n training =>
      if training && Nat.eqb (length x) 1 then Raise ValueError
      else if all_width n x then Ok (batch_norm training x)
      else Raise RuntimeError
  | Identity => Ok x
  end.

Definition NormLayers_train (mode : bool) (self : NormLayers) : NormLayers :=
  match self with
  | BatchNorm1d n _ => BatchNorm1d n mode
  | other => other
  end.

(** The continuous branch shared by the two composites:
    [self.cont_norm(X[:, self.cont_idx].float())]. *)
Definition cont_branch (cont_idx : option (list Z)) (cont_norm : option NormLayers)
    (X : Batch A) : result (list (list R)) :=
  idx <~ read_attr cont_idx ;;
  norm <~ read_attr cont_norm ;;
  sel <~ select_cols X idx ;;
  NormLayers_forward norm (map (map to_float) sel).

(** ** [DiffSizeCatAndContEmbeddings] *)

Record DiffSizeCatAndContEmbeddings := {
  dcc_cat_embed_input : option (list (string * Z * Z));
  dcc_continuous_cols : option (list string);
  dcc_embed_continuous : bool;
  dcc_cat_embed : option DiffSizeCatEmbeddings;
  dcc_cat_out_dim : Z;
  dcc_cont_idx : option (list Z);
  dcc_cont_norm : option NormLayers;
  dcc_cont_embed : option ContEmbeddings;
  dcc_cont_out_dim : Z;
  dcc_output_dim : Z;
  dcc_training : bool
}.

Definition DiffSizeCatAndContEmbeddings_init (column_idx : gmap string Z)
    (cat_embed_input : option (list (string * Z * Z))) (cat_embed_dropout : PyFloat)
    (continuous_cols : option (list string)) (embed_continuous : bool)
    (cont_embed_dim : Z) (cont_embed_dropout : PyFloat)
    (cont_embed_activation : option string) (use_cont_bias : bool)
    (cont_norm_layer : option string) : result DiffSizeCatAndContEmbeddings :=
  cat <~ match cat_embed_input with
         | Some ei =>
             ce <~ DiffSizeCatEmbeddings_init column_idx ei cat_embed_dropout ;;
             Ok (Some ce, np_sum_int (map (fun e => e.2) ei))
         | None => Ok (None, 0)
         end ;;
  cont <~ match continuous_cols with
          | Some cols =>
              cont_idx <~ rmapM (dict_get column_idx) cols ;;
              let cont_norm := NormLayers_init cont_norm_layer (length cols) in
              if embed_continuous then
                ce <~ ContEmbeddings_init (Z.of_nat (length cols)) cont_embed_dim
                        cont_embed_dropout use_cont_bias cont_embed_activation ;;
                Ok (Some cont_idx, Some cont_norm, Some ce,
                    Z.of_nat (length cols) * cont_embed_dim)
              else
                Ok (Some cont_idx, Some cont_norm, None, Z.of_nat (length cols))
          | None => Ok (None, None, None, 0)
          end ;;
  Ok {| dcc_cat_embed_input := cat_embed_input;
        dcc_continuous_cols := continuous_cols;
        dcc_embed_continuous := embed_continuous;
        dcc_cat_embed := cat.1;
        dcc_cat_out_dim := cat.2;
        dcc_cont_idx := cont.1.1.1;
        dcc_cont_norm := cont.1.1.2;
        dcc_cont_embed := cont.1.2;
        dcc_cont_out_dim := cont.2;
        dcc_output_dim := cat.2 + cont.2;
        dcc_training := true |}.

Definition present {T : Type} (name : string) (a : option T) : list (string * PyVal) :=
  match a with
  | Some _ => [(name, VObject)]
  | None => []
  end.

(** The attributes of an instance, in the order [__init__] assigns them. *)
Definition DiffSizeCatAndContEmbeddings_dict (self : DiffSizeCatAndContEmbeddings)
  : list (string * PyVal) :=
  [("training", VBool (dcc_training self));
   ("cat_embed_input", VObject);
   ("continuous_cols", VObject);
   ("embed_continuous", VBool (dcc_embed_continuous self))]
  ++ present "cat_embed" (dcc_cat_embed self)
  ++ [("cat_out_dim", VInt (dcc_cat_out_dim self))]
  ++ present "cont_idx" (dcc_cont_idx self)
  ++ present "cont_norm" (dcc_cont_norm self)
  ++ present "cont_embed" (dcc_cont_embed self)
  ++ [("cont_out_dim", VInt (dcc_cont_out_dim self));
      ("output_dim", VInt (dcc_output_dim self))].

Definition DiffSizeCatAndContEmbeddings_forward (self : DiffSizeCatAndContEmbeddings)
    (X : Batch A) : result (option (list (list R)) * option (list (list R))) :=
  x_cat <~ match dcc_cat_embed_input self with
           | Some _ =>
               ce <~ read_attr (dcc_cat_embed self) ;;
               x <~ DiffSizeCatEmbeddings_forward ce X ;;
               Ok (Some x)
           | None => Ok None
           end ;;
  x_cont <~ match dcc_continuous_cols self with
            | Some _ =>
                x <~ cont_branch (dcc_cont_idx self) (dcc_cont_norm self) X ;;
                if dcc_embed_continuous self then
                  ce <~ read_attr (dcc_cont_embed self) ;;
                  x3 <~ ContEmbeddings_forward ce x ;;
                  Ok (Some (map (@concat R) x3))
                else Ok (Some x)
            | None => Ok None
            end ;;
  Ok (x_cat, x_cont).

Definition DiffSizeCatAndContEmbeddings_train (mode : bool)
    (self : DiffSizeCatAndContEmbeddings) : DiffSizeCatAndContEmbeddings :=
  {| dcc_cat_embed_input := dcc_cat_embed_input self;
     dcc_continuous_cols := dcc_continuous_cols self;
     dcc_embed_continuous := dcc_embed_continuous self;
     dcc_cat_embed := DiffSizeCatEmbeddings_train mode <$> dcc_cat_embed self;
     dcc_cat_out_dim := dcc_cat_out_dim self;
     dcc_cont_idx := dcc_cont_idx self;
     dcc_cont_norm := NormLayers_train mode <$> dcc_cont_norm self;
     dcc_cont_embed := ContEmbeddings_train mode <$> dcc_cont_embed self;
     dcc_cont_out_dim := dcc_cont_out_dim self;
     dcc_output_dim := dcc_output_dim self;
     dcc_training := mode |}.

(** ** [SameSizeCatAndContEmbeddings] *)

Record SameSizeCatAndContEmbeddings := {
  scc_cat_embed_input : option (list (string * Z));
  scc_continuous_cols : option (list string);
  scc_embed_continuous : bool;
  scc_cat_embed : option SameSizeCatEmbeddings;
  scc_cont_idx : option (list Z);
  scc_cont_norm : option NormLayers;
  scc_cont_embed : option ContEmbeddings;
  scc_training : bool
}.

Definition SameSizeCatAndContEmbeddings_init (embed_dim : Z)
    (column_idx : gmap string Z) (cat_embed_input : option (list (string * Z)))
    (cat_embed_dropout : PyFloat)
    (full_embed_dropout shared_embed add_shared_embed : bool)
    (frac_shared_embed : PyFloat) (use_embed_bias : option bool)
    (continuous_cols : option (list string)) (embed_continuous : bool)
    (cont_embed_dropout : PyFloat) (cont_embed_activation : option string)
    (use_cont_bias : bool) (cont_norm_layer : option string)
  : warned SameSizeCatAndContEmbeddings :=
  cat <~~ match cat_embed_input with
          | Some ei =>
              ce <~~ SameSizeCatEmbeddings_init embed_dim column_idx ei
                       cat_embed_dropout full_embed_dropout shared_embed
                       add_shared_embed frac_shared_embed use_embed_bias ;;
              wret (Ok (Some ce))
          | None => wret (Ok None)
          end ;;
  cont <~~
    match continuous_cols with
    | Some cols =>
        cont_idx <~~ wret (rmapM (dict_get column_idx) cols) ;;
        let cont_norm := NormLayers_init cont_norm_layer (length cols) in
        if embed_continuous then
          ce <~~ (ContEmbeddings_warnings (Z.of_nat (length cols)) embed_dim
                    use_cont_bias,
                  ContEmbeddings_init (Z.of_nat (length cols)) embed_dim
                    cont_embed_dropout use_cont_bias cont_embed_activation) ;;
          wret (Ok (Some cont_idx, Some cont_norm, Some ce))
        else
          wret (Ok (Some cont_idx, Some cont_norm, None))
    | None => wret (Ok (None, None, None))
    end ;;
  wret (Ok {| scc_cat_embed_input := cat_embed_input;
              scc_continuous_cols := continuous_cols;
              scc_embed_continuous := embed_continuous;
              scc_cat_embed := cat;
              scc_cont_idx := cont.1.1;
              scc_cont_norm := cont.1.2;
              scc_cont_embed := cont.2;
              scc_training := true |}).

Definition SameSizeCatAndContEmbeddings_dict (self : SameSizeCatAndContEmbeddings)
  : list (string * PyVal) :=
  [("training", VBool (scc_training self));
   ("cat_embed_input", VObject);
   ("continuous_cols", VObject);
   ("embed_continuous", VBool (scc_embed_continuous self))]
  ++ present "cat_embed" (scc_cat_embed self)
  ++ present "cont_idx" (scc_cont_idx self)
  ++ present "cont_norm" (scc_cont_norm self)
  ++ present "cont_embed" (scc_cont_embed self).

(** The continuous output keeps rank three when it is embedded. *)
Inductive ContOut :=
  | Rank2 (x : list (list R))
  | Rank3 (x : list (list (list R))).

Definition SameSizeCatAndContEmbeddings_forward (self : SameSizeCatAndContEmbeddings)
    (X : Batch A) : result (option (list (list (list R))) * option ContOut) :=
  x_cat <~ match scc_cat_embed_input self with
           | Some _ =>
               ce <~ read_attr (scc_cat_embed self) ;;
               x <~ SameSizeCatEmbeddings_forward ce X ;;
               Ok (Some x)
           | None => Ok None
           end ;;
  x_cont <~ match scc_continuous_cols self with
            | Some _ =>
                x <~ cont_branch (scc_cont_idx self) (scc_cont_norm self) X ;;
                if scc_embed_continuous self then
                  ce <~ read_attr (scc_cont_embed self) ;;
                  x3 <~ ContEmbeddings_forward ce x ;;
                  Ok (Some (Rank3 x3))
                else Ok (Some (Rank2 x))
            | None => Ok None
            end ;;
  Ok (x_cat, x_cont).

End Layers.

(** ** Notions used in the statements *)

Section Statements.
Context {A R : Type} `{Eng : Engine A R}.

Definition set_bias (b : option (list (list R))) (m : SameSizeCatEmbeddings)
  : SameSizeCatEmbeddings :=
  {| ssc_column_idx := ssc_column_idx m;
     ssc_embed_input := ssc_embed_input m;
     ssc_embed_dropout := ssc_embed_dropout m;
     ssc_shared_embed := ssc_shared_embed m;
     ssc_n_tokens := ssc_n_tokens m;
     ssc_categorical_cols := ssc_categorical_cols m;
     ssc_cat_idx := ssc_cat_idx m;
     ssc_bias := b;
     ssc_embed := ssc_embed m;
     ssc_dropout := ssc_dropout m;
     ssc_training := ssc_training m |}.

(** The formula of the continuous embedder, entry by entry:
    [out[n, c, :] = act (weight[c, :] * x[n, c] + bias[c, :])], the bias and
    the activation being optional. *)
Definition cont_entry (weight_c : list R) (bias_c : option (list R))
    (act_fn : option (R -> R)) (x : R) : list R :=
  let scaled := map (fun wj => Rmul wj x) weight_c in
  let biased := match bias_c with
                | Some b => zip_with Radd scaled b
                | None => scaled
                end in
  match act_fn with
  | Some f => map f biased
  | None => biased
  end.

Definition cont_formula (self : ContEmbeddings) (X : list (list R))
  : list (list (list R)) :=
  map (fun xs =>
         imap (fun c x =>
                 cont_entry (default [] (ce_weight self !! c))
                   ((fun b => default [] (b !! c)) <$> ce_bias self)
                   (ce_act_fn self) x) xs) X.

Definition act_rows (act_fn : option (R -> R)) (m : list (list R)) : list (list R) :=
  match act_fn with
  | Some f => map (map f) m
  | None => m
  end.

Definition has_shape3 (n c d : nat) (t : list (list (list R))) : Prop :=
  length t = n /\ Forall (fun m => length m = c /\ has_width d m) t.

(** The entry at position (n, c, j) of a tensor of rank three. *)
Definition entry3 (t : list (list (list R))) (n c j : nat) : option R :=
  match t !! n with
  | Some m => match m !! c with
              | Some r => r !! j
              | None => None
              end
  | None => None
  end.

Definition col_of (e : string * Z * Z) : string := e.1.1.
Definition card_of (e : string * Z * Z) : Z := e.1.2.
Definition dim_of (e : string * Z * Z) : Z := e.2.

(** The batch holds, in each categorical column of the spec, codes between
    0 and the cardinality of the column. *)
Definition codes_in_range (column_idx : gmap string Z)
    (embed_input : list (string * Z * Z)) (X : Batch A) : Prop :=
  forall e, e ∈ embed_input ->
    exists i codes,
      column_idx !! col_of e = Some i
      /\ select_col X i = Ok codes
      /\ Forall (fun a => 0 <= to_long a <= card_of e) codes.

(** What makes a spec and a batch valid for the variable-width composite. *)
Definition cat_spec_ok (cat_embed_input : option (list (string * Z * Z))) : Prop :=
  forall ei, cat_embed_input = Some ei ->
    ei <> [] /\ NoDup (map col_of ei)
    /\ foldr Z.add 0 (map dim_of ei) <= int64_max.

Definition batch_ok (column_idx : gmap string Z)
    (cat_embed_input : option (list (string * Z * Z)))
    (continuous_cols : option (list string)) (X : Batch A) : Prop :=
  wf_batch X
  /\ (forall ei, cat_embed_input = Some ei -> codes_in_range column_idx ei X)
  /\ (forall cols, continuous_cols = Some cols ->
        forall c, c ∈ cols ->
          exists i, column_idx !! c = Some i
                    /\ is_ok (norm_index (n_features X) i) = true).

(** The widths of the two branches, from the specs alone. *)
Definition cat_width (cat_embed_input : option (list (string * Z * Z))) : Z :=
  match cat_embed_input with
  | Some ei => foldr Z.add 0 (map dim_of ei)
  | None => 0
  end.

Definition cont_width (continuous_cols : option (list string))
    (embed_continuous : bool) (cont_embed_dim : Z) : Z :=
  match continuous_cols with
  | Some cols =>
      if embed_continuous then Z.of_nat (length cols) * cont_embed_dim
      else Z.of_nat (length cols)
  | None => 0
  end.

(** The width of a branch of the output; an absent branch has width 0. *)
Definition branch_width (w : nat) (x : option (list (list R))) : Prop :=
  match x with
  | Some t => has_width w t
  | None => w = 0%nat
  end.

Definition branch_rows (n : nat) (x : option (list (list R))) : Prop :=
  match x with
  | Some t => length t = n
  | None => True
  end.

End Statements.

(** ** A concrete engine over the integers

    Used to run the definitions on explicit inputs: scalars are integers,
    casts are the identity, every Bernoulli draw keeps its element, and the
    normalisation layers leave their input as it is. *)
Definition Z_get_activation_fn (name : string) : result (Z -> Z) :=
  if String.eqb name "relu" then Ok (Z.max 0) else Raise ValueError.

Fixpoint Z_batch_norm_shape (tr : bool) (X : list (list Z))
  : Forall2 (fun r r' => length r' = length r) X X :=
  match X with
  | [] => List.Forall2_nil _
  | r :: X' => List.Forall2_cons _ _ eq_refl (Z_batch_norm_shape tr X')
  end.

#[export] Instance Z_engine : Engine Z Z := {|
  to_long := fun a => a;
  to_float := fun a => a;
  R0 := 0;
  Radd := Z.add;
  Rmul := Z.mul;
  clamp_2 := fun x => Z.max (-2) (Z.min 2 x);
  dropout_noise := fun _ keep => if keep then 1 else 0;
  bernoulli := fun _ => true;
  rnd := fun _ i j => Z.of_nat (i + j) + 1;
  get_activation_fn := Z_get_activation_fn;
  layer_norm := fun v => v;
  batch_norm := fun _ X => X;
  layer_norm_length := fun v => eq_refl;
  batch_norm_shape := Z_batch_norm_shape
|}.

Definition demo_column_idx : gmap string Z :=
  {[ "a" := 0; "b" := 1; "c" := 2 ]}.

Definition demo_batch : Batch Z :=
  {| n_features := 3; rows := [[1; 2; 7]; [3; 0; 9]] |}.

Definition demo_cat_spec : list (string * Z * Z) := [("a", 3, 2); ("b", 3, 3)].

(** ** Further statements on the embedding layers *)

(** The float literal [2.0]. *)
Definition float_2 : PyFloat := S754_finite false 4503599627370496 (-51).

Section MoreStatements.
Context {A R : Type} `{Eng : Engine A R}.

(** The row of the table of column [e] selected by the code that the batch
    row [xs] holds in that column. *)
Definition cat_row (self : DiffSizeCatEmbeddings) (X : Batch A) (xs : list A)
    (e : string * Z * Z) : list R :=
  match dce_embed_layers self !! layer_key (col_of e),
        dce_column_idx self !! col_of e with
  | Some layer, Some i =>
      match norm_index (n_features X) i with
      | Ok j =>
          match xs !! j with
          | Some a => default [] (emb_weight layer !! Z.to_nat (to_long a))
          | None => []
          end
      | Raise _ => []
      end
  | _, _ => []
  end.

(** The token of column [e] for the batch row [xs] in shared-embedding
    additive mode: the table row of the code plus the shared vector of the
    column. *)
Definition shared_token (d : gmap string SharedEmbeddings) (column_idx : gmap string Z)
    (X : Batch A) (xs : list A) (e : string * Z) : list R :=
  match d !! layer_key e.1, column_idx !! e.1 with
  | Some layer, Some i =>
      match norm_index (n_features X) i with
      | Ok j =>
          match xs !! j with
          | Some a =>
              zip_with Radd
                (default [] (emb_weight (se_embed layer) !! Z.to_nat (to_long a)))
                (se_shared_embed layer)
          | None => []
          end
      | Raise _ => []
      end
  | _, _ => []
  end.

(** [train(mode)] on the fixed-width composite: the flag is set on the
    module and on its children. *)
Definition SameSizeCatAndContEmbeddings_train (mode : bool)
    (self : @SameSizeCatAndContEmbeddings R) : @SameSizeCatAndContEmbeddings R :=
  {| scc_cat_embed_input := scc_cat_embed_input self;
     scc_continuous_cols := scc_continuous_cols self;
     scc_embed_continuous := scc_embed_continuous self;
     scc_cat_embed := SameSizeCatEmbeddings_train mode <$> scc_cat_embed self;
     scc_cont_idx := scc_cont_idx self;
     scc_cont_norm := NormLayers_train mode <$> scc_cont_norm self;
     scc_cont_embed := ContEmbeddings_train mode <$> scc_cont_embed self;
     scc_training := mode |}.

End MoreStatements.

(** ** The quantile loss ([pytorch_widedeep/losses.py])

    [T] is the element type of the target tensor, [R] the float element type
    of the predictions.  The scalar operations of torch are supplied by the
    engine; the layout of the computation is the code's. *)
Class LossEngine (T R : Type) := {
  Lfloat : T -> R;
  Lsub : R -> R -> R;
  Lscale : PyFloat -> R -> R;
  Lmax : R -> R -> R;
  Lmean : list R -> R
}.

(** [torch.cat(ts, dim=2)] for tensors of rank three. *)
Fixpoint cat_dim2 {T : Type} (ts : list (list (list (list T))))
  : result (list (list (list T))) :=
  match ts with
  | [] => Raise ValueError
  | [t] => Ok t
  | t :: ts' =>
      r <~ cat_dim2 ts' ;;
      if Nat.eqb (length t) (length r)
         && forallb id (zip_with (fun a b => Nat.eqb (length a) (length b)) t r)
      then Ok (zip_with (zip_with app) t r)
      else Raise RuntimeError
  end.

Section Losses.
Context {T R : Type} `{LEng : LossEngine T R}.

Record QuantileLoss := {
  ql_quantiles : list PyFloat
}.

Definition QuantileLoss_init (quantiles : list PyFloat) : QuantileLoss :=
  {| ql_quantiles := quantiles |}.

(** [torch.max((q - 1) * e, q * e)] at one element; [q - 1] is computed on
    Python floats. *)
Definition quantile_term (q : PyFloat) (e : R) : R :=
  Lmax (Lscale (SFsub prec64 emax64 q float_one) e) (Lscale q e).

(** [QuantileLoss.forward], for an input of rank two and a target of rank
    one.  [target.view(-1, 1)] has shape (N, 1) and [input[..., i]] shape
    (N,), which broadcasts as (1, N). *)
Definition QuantileLoss_forward (self : QuantileLoss) (input : Batch R) (target : list T)
  : result R :=
  if negb (Nat.eqb (length (rows input)) (length target)
           && Nat.eqb (n_features input) (length (ql_quantiles self)))
  then Raise AssertionError
  else
    let target := map (fun t => [Lfloat t]) target in
    losses <~ rmapM
                (fun iq : nat * PyFloat =>
                   col <~ select_col input (Z.of_nat iq.1) ;;
                   errors <~ (rs <~ broadcast_zip (broadcast_zip Lsub) target [col] ;;
                              rmapM id rs) ;;
                   Ok (map (map (fun e => [quantile_term iq.2 e])) errors))
                (imap pair (ql_quantiles self)) ;;
    loss <~ cat_dim2 losses ;;
    Ok (Lmean (concat (concat loss))).

(** The terms of one target value against one row of predictions, one per
    quantile. *)
Definition quantile_row (quantiles : list PyFloat) (t : T) (xrow : list R) : list R :=
  zip_with (fun q x => quantile_term q (Lsub (Lfloat t) x)) quantiles xrow.

End Losses.

(** Binary64 arithmetic as a loss engine. *)
#[export] Instance F64_loss_engine : LossEngine Z spec_float := {|
  Lfloat := fun z => binary_normalize prec64 emax64 z 0 false;
  Lsub := SFsub prec64 emax64;
  Lscale := SFmul prec64 emax64;
  Lmax := fun a b => if SFltb a b then b else a;
  Lmean := fun l =>
    SFdiv prec64 emax64 (foldr (SFadd prec64 emax64) (S754_zero false) l)
      (binary_normalize prec64 emax64 (Z.of_nat (length l)) 0 false)
|}.

(** * Properties *)

(** ** Generic facts on results and lists *)

Lemma rbind_Ok {T U : Type} (r : result T) (k : T -> result U) (u : U) :
  rbind r k = Ok u -> exists v, r = Ok v /\ k v = Ok u.
Proof. destruct r as [v|e]; simpl; [eauto | discriminate]. Qed.

Lemma rmapM_Ok_Forall2 {T U : Type} (f : T -> result U) (l : list T) (l' : list U) :
  rmapM f l = Ok l' <-> Forall2 (fun x y => f x = Ok y) l l'.
Proof.
  revert l'; induction l as [|x l IH]; intros l'; simpl.
  - split; [intros [= <-]; constructor | intros H; inversion H; reflexivity].
  - split.
    + intros H. apply rbind_Ok in H as (y & Hy & H).
      apply rbind_Ok in H as (ys & Hys & [= <-]).
      constructor; [assumption | now apply IH].
    + intros H. inversion H as [|? y ? ys Hy Hys]; subst.
      rewrite Hy; simpl. apply IH in Hys. rewrite Hys. reflexivity.
Qed.

Lemma rmapM_length {T U : Type} (f : T -> result U) (l : list T) (l' : list U) :
  rmapM f l = Ok l' -> length l' = length l.
Proof.
  intros H. apply rmapM_Ok_Forall2 in H.
  symmetry. eapply Forall2_length, H.
Qed.

Lemma rmapM_total {T U : Type} (f : T -> result U) (g : T -> U) (l : list T) :
  Forall (fun x => f x = Ok (g x)) l -> rmapM f l = Ok (map g l).
Proof.
  induction 1 as [|x l Hx _ IH]; simpl; [reflexivity|].
  rewrite Hx; simpl. rewrite IH. reflexivity.
Qed.

Lemma tabulate_length {T : Type} (n : nat) (f : nat -> T) : length (tabulate n f) = n.
Proof. unfold tabulate. now rewrite length_map, length_seq. Qed.

Lemma tabulate_lookup {T : Type} (n : nat) (f : nat -> T) (i : nat) :
  (i < n)%nat -> tabulate n f !! i = Some (f i).
Proof.
  intros Hi. unfold tabulate. rewrite list_lookup_fmap.
  rewrite lookup_seq_lt by assumption. reflexivity.
Qed.

Lemma tabulate_has_width {T : Type} (n d : nat) (f : nat -> nat -> T) :
  has_width d (tabulate n (fun i => tabulate d (f i))).
Proof.
  unfold has_width, tabulate at 1. apply Forall_fmap, Forall_forall.
  intros i _. apply tabulate_length.
Qed.

Lemma broadcast_zip_same {T U V : Type} (f : T -> U -> V) (l : list T) (k : list U) :
  length l = length k -> broadcast_zip f l k = Ok (zip_with f l k).
Proof. intros H. unfold broadcast_zip. rewrite H, Nat.eqb_refl. reflexivity. Qed.

Lemma rbind_not_raising {T U : Type} (err : PyError) (r : result T) (k : T -> result U) :
  r <> Raise err -> (forall v, k v <> Raise err) -> rbind r k <> Raise err.
Proof.
  intros Hr Hk. destruct r as [v|e]; simpl; [apply Hk|].
  intros [= ->]. now apply Hr.
Qed.

Lemma wbind_not_ok {T U : Type} (c : warned T) (k : T -> warned U) :
  (forall v, is_ok (k v).2 = false) -> is_ok (wbind c k).2 = false.
Proof.
  intros H. destruct c as [w [v|e]]; simpl; [|reflexivity].
  specialize (H v). destruct (k v) as [w' r]. exact H.
Qed.

Lemma rmapM_Forall_Ok {T U : Type} (f : T -> result U) (P : T -> U -> Prop)
    (l : list T) :
  Forall (fun x => exists y, f x = Ok y /\ P x y) l ->
  exists ys, rmapM f l = Ok ys /\ Forall2 P l ys.
Proof.
  induction 1 as [|x l (y & Hy & HP) _ (ys & Hys & HF)]; simpl.
  - exists []. split; [reflexivity | constructor].
  - exists (y :: ys). rewrite Hy; simpl. rewrite Hys. split; [reflexivity|].
    constructor; assumption.
Qed.

Lemma zip_with_app_width {T : Type} (w1 w2 : nat) (t r : list (list T)) :
  has_width w1 t -> has_width w2 r -> has_width (w1 + w2) (zip_with app t r).
Proof.
  intros Ht Hr. apply Forall_lookup. intros i x Hx.
  apply lookup_zip_with_Some in Hx as (a & b & -> & Ha & Hb).
  rewrite length_app.
  rewrite (proj1 (Forall_lookup _ _) Ht i a Ha).
  rewrite (proj1 (Forall_lookup _ _) Hr i b Hb). reflexivity.
Qed.

(** Concatenation along axis 1 of tensors with the same number of rows. *)
Lemma cat_dim1_shape {S T : Type} (n : nat) (width : S -> nat) (es : list S)
    (ts : list (list (list T))) :
  es <> [] ->
  Forall2 (fun e t => length t = n /\ has_width (width e) t) es ts ->
  exists x, cat_dim1 ts = Ok x /\ length x = n
            /\ has_width (sum_list (map width es)) x.
Proof.
  intros Hne H. induction H as [|e t es ts [Hlen Hw] Hrest IH]; [congruence|].
  destruct Hrest as [|e' t' es' ts' Het' Hrest'].
  - exists t. simpl. rewrite Nat.add_0_r. auto.
  - destruct IH as (r & Hr & Hrl & Hrw); [discriminate|].
    exists (zip_with app t r). split; [|split].
    + change (cat_dim1 (t :: t' :: ts'))
        with (r <~ cat_dim1 (t' :: ts') ;;
              if Nat.eqb (length t) (length r) then Ok (zip_with app t r)
              else Raise RuntimeError).
      rewrite Hr. simpl. rewrite Hlen, Hrl, Nat.eqb_refl. reflexivity.
    + rewrite length_zip_with. lia.
    + change (sum_list (map width (e :: e' :: es')))
        with (width e + sum_list (map width (e' :: es')))%nat.
      apply zip_with_app_width; assumption.
Qed.

(** ** Dictionaries filled from a list *)

Lemma foldl_insert_notin {M : Type} (kvs : list (string * M)) (d : gmap string M)
    (k : string) :
  k ∉ kvs.*1 -> foldl (fun d kv => <[kv.1 := kv.2]> d) d kvs !! k = d !! k.
Proof.
  revert d. induction kvs as [|[k0 v0] kvs IH]; intros d Hk; [reflexivity|].
  simpl in *. apply not_elem_of_cons in Hk as [Hne Hk].
  rewrite (IH _ Hk). now rewrite lookup_insert_ne.
Qed.

Lemma foldl_insert_in {M : Type} (kvs : list (string * M)) (d : gmap string M)
    (k : string) (v : M) :
  NoDup kvs.*1 -> (k, v) ∈ kvs ->
  foldl (fun d kv => <[kv.1 := kv.2]> d) d kvs !! k = Some v.
Proof.
  revert d. induction kvs as [|[k0 v0] kvs IH]; intros d Hnd Hin.
  - inversion Hin.
  - simpl in *. apply NoDup_cons in Hnd as [Hk0 Hnd].
    apply elem_of_cons in Hin as [Heq|Hin].
    + injection Heq as -> ->. rewrite (foldl_insert_notin _ _ _ Hk0).
      apply lookup_insert_eq.
    + apply IH; assumption.
Qed.

Lemma ModuleDict_build_lookup {S M : Type} (col_of : S -> string) (mk : S -> result M)
    (spec : list S) (d : gmap string M) :
  ModuleDict_build col_of mk spec = Ok d ->
  NoDup (map col_of spec) ->
  forall s, s ∈ spec ->
    exists mo, mk s = Ok mo /\ d !! layer_key (col_of s) = Some mo.
Proof.
  unfold ModuleDict_build. intros H Hnd s Hs.
  apply rbind_Ok in H as (kvs & Hkvs & H).
  destruct (existsb _ kvs); [discriminate|]. injection H as <-.
  apply rmapM_Ok_Forall2 in Hkvs.
  assert (Hkeys : kvs.*1 = map (fun s => layer_key (col_of s)) spec).
  { clear Hnd Hs. induction Hkvs as [|x kv l k Hx _ IH]; [reflexivity|].
    apply rbind_Ok in Hx as (mo & _ & [= <-]).
    rewrite fmap_cons. cbn [map fst]. f_equal. exact IH. }
  assert (Hnd' : NoDup kvs.*1).
  { rewrite Hkeys. rewrite <- (map_map col_of layer_key).
    apply (NoDup_fmap_2 layer_key). exact Hnd. }
  apply list_elem_of_lookup in Hs as [i Hi].
  destruct (Forall2_lookup_l _ _ _ _ _ Hkvs Hi) as (kv & Hkv & Hmk).
  apply rbind_Ok in Hmk as (mo & Hmo & [= <-]).
  exists mo. split; [exact Hmo|].
  apply foldl_insert_in; [exact Hnd'|].
  eapply list_elem_of_lookup_2; eauto.
Qed.

Lemma foldl_insert_lookup_Some {M : Type} (kvs : list (string * M)) (d : gmap string M)
    (k : string) (v : M) :
  foldl (fun d kv => <[kv.1 := kv.2]> d) d kvs !! k = Some v ->
  (k, v) ∈ kvs \/ d !! k = Some v.
Proof.
  revert d. induction kvs as [|[k0 v0] kvs IH]; intros d H; [now right|].
  simpl in H. apply IH in H as [H|H].
  - left. now right.
  - simpl in H. destruct (decide (k0 = k)) as [->|Hne].
    + rewrite lookup_insert_eq in H. injection H as ->. left. left.
    + rewrite lookup_insert_ne in H by exact Hne. now right.
Qed.

(** Every module of a dictionary filled from a spec was built from an entry
    of the spec. *)
Lemma ModuleDict_build_values {S M : Type} (col_of : S -> string) (mk : S -> result M)
    (spec : list S) (d : gmap string M) (k : string) (mo : M) :
  ModuleDict_build col_of mk spec = Ok d ->
  d !! k = Some mo ->
  exists s, s ∈ spec /\ mk s = Ok mo /\ k = layer_key (col_of s).
Proof.
  unfold ModuleDict_build. intros H Hk.
  apply rbind_Ok in H as (kvs & Hkvs & H).
  destruct (existsb _ kvs); [discriminate|]. injection H as <-.
  apply foldl_insert_lookup_Some in Hk as [Hk|Hk]; [|now rewrite lookup_empty in Hk].
  apply rmapM_Ok_Forall2 in Hkvs.
  apply list_elem_of_lookup in Hk as [i Hi].
  destruct (Forall2_lookup_r _ _ _ _ _ Hkvs Hi) as (s & Hs & Hmk).
  apply rbind_Ok in Hmk as (mo' & Hmo & [= <- <-]).
  exists s. split; [eapply list_elem_of_lookup_2; eauto|]. auto.
Qed.

Lemma foldl_insert_is_Some {M : Type} (kvs : list (string * M)) (d : gmap string M)
    (k : string) :
  k ∈ kvs.*1 -> is_Some (foldl (fun d kv => <[kv.1 := kv.2]> d) d kvs !! k).
Proof.
  revert d. induction kvs as [|[k0 v0] kvs IH]; intros d Hk; [inversion Hk|].
  simpl. destruct (decide (k ∈ kvs.*1)) as [Hin|Hnin]; [now apply IH|].
  rewrite (foldl_insert_notin _ _ _ Hnin).
  simpl in Hk. apply elem_of_cons in Hk as [->|Hk]; [|contradiction].
  rewrite lookup_insert_eq. eauto.
Qed.

(** Every entry of the spec was built, and finds under the key of its column
    the module of an entry of that column. *)
Lemma ModuleDict_build_some {S M : Type} (col_of : S -> string) (mk : S -> result M)
    (spec : list S) (d : gmap string M) :
  ModuleDict_build col_of mk spec = Ok d ->
  forall s, s ∈ spec ->
    is_ok (mk s) = true
    /\ exists s' mo,
         s' ∈ spec /\ col_of s' = col_of s /\ mk s' = Ok mo
         /\ d !! layer_key (col_of s) = Some mo.
Proof.
  intros H s Hs. assert (H' := H). unfold ModuleDict_build in H.
  apply rbind_Ok in H as (kvs & Hkvs & H).
  destruct (existsb _ kvs); [discriminate|]. injection H as <-.
  apply rmapM_Ok_Forall2 in Hkvs.
  apply list_elem_of_lookup in Hs as [i Hi].
  destruct (Forall2_lookup_l _ _ _ _ _ Hkvs Hi) as (kv & Hkv & Hmk).
  apply rbind_Ok in Hmk as (mo & Hmo & [= <-]).
  split; [rewrite Hmo; reflexivity|].
  destruct (foldl_insert_is_Some kvs ∅ (layer_key (col_of s))) as [mo' Hmo'].
  { apply list_elem_of_fmap. exists (layer_key (col_of s), mo). split; [reflexivity|].
    eapply list_elem_of_lookup_2; eauto. }
  destruct (ModuleDict_build_values _ _ _ _ _ _ H' Hmo') as (s' & Hs' & Hmk' & Hkey).
  exists s', mo'. repeat split; try assumption.
  symmetry. exact (inj layer_key _ _ Hkey).
Qed.

Lemma cat_dim1_raises {T : Type} (ts : list (list (list T))) (e : PyError) :
  cat_dim1 ts = Raise e -> e = ValueError \/ e = RuntimeError.
Proof.
  induction ts as [|t [|t' ts'] IH]; intros H.
  - injection H as <-. now left.
  - discriminate.
  - change (cat_dim1 (t :: t' :: ts'))
      with (r <~ cat_dim1 (t' :: ts') ;;
            if Nat.eqb (length t) (length r) then Ok (zip_with app t r)
            else Raise RuntimeError) in H.
    destruct (cat_dim1 (t' :: ts')) as [r|e'] eqn:Hr; cbn [rbind] in H.
    + destruct (Nat.eqb _ _); [discriminate|]. injection H as <-. now right.
    + injection H as <-. now apply IH.
Qed.

(** ** Comparison of floats with 1 *)

Lemma SFleb_finite_not_ltb (m1 : positive) (e1 : Z) (x : spec_float) :
  SFleb (S754_finite false m1 e1) x = true ->
  SFltb x (S754_finite false m1 e1) = false.
Proof.
  unfold SFleb, SFltb.
  destruct x as [s|s| |s m e]; cbn [SFcompare]; try discriminate.
  - destruct s; [discriminate | reflexivity].
  - destruct s; [discriminate|].
    rewrite (Z.compare_antisym e1 e).
    destruct (e1 ?= e)%Z eqn:He; cbn [CompOpp]; try discriminate; try reflexivity.
    assert (Hc : Pos.compare_cont Eq m m1 = CompOpp (Pos.compare_cont Eq m1 m))
      by (symmetry; apply (Pos.compare_cont_antisym m1 m Eq)).
    rewrite Hc.
    destruct (Pos.compare_cont Eq m1 m); cbn [CompOpp];
      try discriminate; reflexivity.
Qed.

Lemma float_le_one_not_lt (x : PyFloat) :
  float_le float_one x = true -> float_lt x float_one = false.
Proof. apply SFleb_finite_not_ltb. Qed.

Lemma SFleb_not_ltb_finite (m1 : positive) (e1 : Z) (x : spec_float) :
  SFleb x (S754_finite false m1 e1) = true ->
  SFltb (S754_finite false m1 e1) x = false.
Proof.
  unfold SFleb, SFltb.
  destruct x as [s|s| |s m e]; cbn [SFcompare]; try discriminate; try reflexivity.
  - destruct s; [reflexivity | discriminate].
  - destruct s; [reflexivity|].
    rewrite (Z.compare_antisym e e1).
    destruct (e ?= e1)%Z eqn:He; cbn [CompOpp]; try discriminate; try reflexivity.
    assert (Hc : Pos.compare_cont Eq m1 m = CompOpp (Pos.compare_cont Eq m m1))
      by (symmetry; apply (Pos.compare_cont_antisym m m1 Eq)).
    rewrite Hc.
    destruct (Pos.compare_cont Eq m m1); cbn [CompOpp];
      try discriminate; reflexivity.
Qed.

Lemma float_le_zero_not_lt (x : PyFloat) :
  float_le float_zero x = true -> float_lt x float_zero = false.
Proof.
  unfold float_le, float_lt, float_zero, SFleb, SFltb.
  destruct x as [s|s| |s m e]; cbn [SFcompare]; try discriminate; try reflexivity.
  - destruct s; [discriminate | reflexivity].
  - destruct s; [discriminate | reflexivity].
Qed.

Lemma float_le_not_lt_one (x : PyFloat) :
  float_le x float_one = true -> float_lt float_one x = false.
Proof. apply SFleb_not_ltb_finite. Qed.

(** ** Rounding to binary64 never gains more than a quarter *)

Lemma digits2_pos_lower (m : positive) :
  2 ^ (Zpos (digits2_pos m) - 1) <= Zpos m.
Proof.
  induction m as [m IH|m IH|]; cbn [digits2_pos].
  - rewrite Pos2Z.inj_succ. replace (Z.succ (Zpos (digits2_pos m)) - 1)
      with (Z.succ (Zpos (digits2_pos m) - 1)) by lia.
    rewrite Z.pow_succ_r by lia. lia.
  - rewrite Pos2Z.inj_succ. replace (Z.succ (Zpos (digits2_pos m)) - 1)
      with (Z.succ (Zpos (digits2_pos m) - 1)) by lia.
    rewrite Z.pow_succ_r by lia. lia.
  - reflexivity.
Qed.

Lemma shr_1_bound (mrs : shr_record) :
  0 <= shr_m mrs -> 0 <= shr_m (shr_1 mrs) /\ 2 * shr_m (shr_1 mrs) <= shr_m mrs.
Proof.
  destruct mrs as [m r s]. cbn [shr_m]. intros Hm.
  destruct m as [|[p|p|]|p]; cbn [shr_1 shr_m]; lia.
Qed.

Lemma iter_shr_1_bound (p : positive) (mrs : shr_record) :
  0 <= shr_m mrs ->
  0 <= shr_m (SpecFloat.iter_pos shr_1 p mrs)
  /\ shr_m (SpecFloat.iter_pos shr_1 p mrs) * 2 ^ Zpos p <= shr_m mrs.
Proof.
  revert mrs. induction p as [p IH|p IH|]; intros mrs Hm; cbn [SpecFloat.iter_pos].
  - destruct (shr_1_bound mrs Hm) as [H0 H1].
    destruct (IH _ H0) as [H2 H3]. destruct (IH _ H2) as [H4 H5].
    split; [exact H4|].
    replace (Zpos p~1) with (Zpos p + Zpos p + 1) by lia.
    rewrite !Z.pow_add_r, Z.pow_1_r by lia.
    assert (0 < 2 ^ Zpos p) by (apply Z.pow_pos_nonneg; lia). nia.
  - destruct (IH _ Hm) as [H2 H3]. destruct (IH _ H2) as [H4 H5].
    split; [exact H4|].
    replace (Zpos p~0) with (Zpos p + Zpos p) by lia.
    rewrite !Z.pow_add_r by lia.
    assert (0 < 2 ^ Zpos p) by (apply Z.pow_pos_nonneg; lia). nia.
  - destruct (shr_1_bound mrs Hm) as [H0 H1]. split; [exact H0|].
    change (2 ^ 1) with 2. lia.
Qed.

Lemma shr_bound (mrs : shr_record) (e n : Z) :
  0 <= shr_m mrs ->
  0 <= shr_m (fst (shr mrs e n))
  /\ snd (shr mrs e n) = e + Z.max 0 n
  /\ shr_m (fst (shr mrs e n)) * 2 ^ Z.max 0 n <= shr_m mrs
  /\ (n <= 0 -> fst (shr mrs e n) = mrs).
Proof.
  intros Hm. destruct n as [|p|p]; cbn [shr fst snd].
  - rewrite Z.max_l by lia. change (2 ^ 0) with 1. repeat split; try lia.
  - destruct (iter_shr_1_bound p mrs Hm) as [H0 H1].
    rewrite Z.max_r by lia. repeat split; try lia.
  - rewrite Z.max_l by lia. change (2 ^ 0) with 1. repeat split; try lia.
Qed.

Lemma round_nearest_even_bound (m : Z) (l : location) :
  m <= round_nearest_even m l <= m + 1.
Proof.
  destruct l as [|[| |]]; cbn [round_nearest_even]; try lia.
  destruct (Z.even m); lia.
Qed.

(** A positive mantissa rounded to a finite float: the exponent does not
    decrease, and above the subnormal range the value grows by a quarter at
    most. *)
Lemma binary_round_aux_bound (prec emax : Z) (m : positive) (e : Z)
    (s : bool) (m3 : positive) (e3 : Z) :
  3 <= prec ->
  emin prec emax <= e ->
  binary_round_aux prec emax false (Zpos m) e loc_Exact = S754_finite s m3 e3 ->
  s = false /\ e <= e3 /\ 4 * (Zpos m3 * 2 ^ (e3 - e)) <= 5 * Zpos m.
Proof.
  intros Hprec He. unfold binary_round_aux.
  set (n1 := fexp prec emax (Zdigits2 (Zpos m) + e) - e).
  assert (Hn1 : 0 < n1 -> n1 = Zpos (digits2_pos m) - prec).
  { unfold n1, fexp. cbn [Zdigits2]. lia. }
  unfold shr_fexp at 1. fold n1. clearbody n1.
  set (r0 := shr_record_of_loc (Zpos m) loc_Exact).
  assert (Hr0 : shr_m r0 = Zpos m) by reflexivity.
  destruct (shr_bound r0 e n1) as (H1 & H2 & H3 & H4); [rewrite Hr0; lia|].
  destruct (shr r0 e n1) as [mrs1 e1]. cbn [fst snd] in H1, H2, H3, H4.
  set (m2 := round_nearest_even (shr_m mrs1) (loc_of_shr_record mrs1)).
  assert (Hm2 : shr_m mrs1 <= m2 <= shr_m mrs1 + 1)
    by apply round_nearest_even_bound.
  assert (Hm2' : n1 <= 0 -> m2 = Zpos m).
  { intros Hn. unfold m2. rewrite (H4 Hn). reflexivity. }
  clearbody m2. rewrite Hr0 in H3. clear H4 Hr0. clearbody r0.
  unfold shr_fexp.
  set (n2 := fexp prec emax (Zdigits2 m2 + e1) - e1). clearbody n2.
  set (r2 := shr_record_of_loc m2 loc_Exact).
  assert (Hr2 : shr_m r2 = m2) by reflexivity.
  destruct (shr_bound r2 e1 n2) as (H5 & H6 & H7 & _); [rewrite Hr2; lia|].
  rewrite Hr2 in H7. clear Hr2. clearbody r2.
  destruct (shr r2 e1 n2) as [mrs3 e3']. cbn [fst snd] in H5, H6, H7.
  destruct (shr_m mrs3) as [|q|q] eqn:Hq; [discriminate| |discriminate].
  destruct (e3' <=? emax - prec); [|discriminate].
  intros [= <- <- <-]. split; [reflexivity|].
  assert (Hp1 : 0 < 2 ^ Z.max 0 n1) by (apply Z.pow_pos_nonneg; lia).
  assert (Hp2 : 0 < 2 ^ Z.max 0 n2) by (apply Z.pow_pos_nonneg; lia).
  assert (Hmax1 : 0 <= Z.max 0 n1) by lia.
  assert (Hmax2 : 0 <= Z.max 0 n2) by lia.
  split; [lia|].
  replace (e3' - e) with (Z.max 0 n2 + Z.max 0 n1) by lia.
  rewrite Z.pow_add_r by lia.
  destruct (Z_le_gt_dec n1 0) as [Hn|Hn].
  - rewrite (Hm2' Hn) in H7. rewrite (Z.max_l 0 n1) in * by lia.
    change (2 ^ 0) with 1. lia.
  - rewrite (Z.max_r 0 n1) in * by lia.
    assert (Hd := digits2_pos_lower m).
    assert (Hpow : 4 * 2 ^ n1 <= Zpos m).
    { etransitivity; [|exact Hd].
      change 4 with (2 ^ 2). rewrite <- Z.pow_add_r by lia.
      apply Z.pow_le_mono_r; lia. }
    clear Hd Hn1 Hm2'.
    generalize dependent (2 ^ n1). generalize dependent (2 ^ Z.max 0 n2).
    intros. nia.
Qed.

Lemma shl_align_spec (mx : positive) (ex ex' : Z) :
  snd (shl_align mx ex ex') = Z.min ex ex'
  /\ Zpos (fst (shl_align mx ex ex'))
     = Zpos mx * 2 ^ (ex - snd (shl_align mx ex ex')).
Proof.
  unfold shl_align. destruct (ex' - ex) as [|d|d] eqn:Hd; cbn [fst snd].
  - split; [lia|]. rewrite Z.sub_diag. change (2 ^ 0) with 1. lia.
  - split; [lia|]. rewrite Z.sub_diag. change (2 ^ 0) with 1. lia.
  - split; [lia|].
    change (Pos.iter xO mx d) with (shift_pos d mx).
    rewrite shift_pos_correct.
    replace (ex - ex') with (Zpos d) by lia. 
    change (Z.pow_pos 2 d) with (2 ^ Zpos d). lia.
Qed.

Lemma float_of_int_bound (D : Z) (s : bool) (mD : positive) (eD : Z) :
  1 <= D ->
  float_of_int D = Ok (S754_finite s mD eD) ->
  s = false
  /\ exists ez, -52 <= ez <= 0 /\ ez <= eD
                /\ 4 * (Zpos mD * 2 ^ (eD - ez)) <= 5 * (D * 2 ^ (- ez)).
Proof.
  intros HD. destruct D as [|d|d]; try lia.
  unfold float_of_int, binary_normalize, binary_round.
  destruct (shl_align_spec d 0 (fexp prec64 emax64 (Zpos (digits2_pos d) + 0)))
    as [Hez Hmz].
  destruct (shl_align d 0 _) as [mz ez]. cbn [fst snd] in Hez, Hmz.
  intros H.
  assert (Hr : binary_round_aux prec64 emax64 false (Zpos mz) ez loc_Exact
               = S754_finite s mD eD).
  { destruct (binary_round_aux prec64 emax64 false (Zpos mz) ez loc_Exact);
      try discriminate; congruence. }
  assert (Hrange : -52 <= ez <= 0 /\ emin prec64 emax64 <= ez).
  { rewrite Hez. unfold fexp, emin, prec64, emax64.
    assert (0 < Zpos (digits2_pos d)) by lia. lia. }
  destruct Hrange as [Hr1 Hr2].
  apply binary_round_aux_bound in Hr as (-> & He & Hb);
    [|unfold prec64; lia|exact Hr2].
  split; [reflexivity|]. exists ez. repeat split; try lia.
  rewrite Hmz in Hb. replace (0 - ez) with (- ez) in Hb by lia. exact Hb.
Qed.

(** The width of the shared vector in overwrite mode never exceeds the
    embedding width when the fraction is a positive float of at most one
    half. *)
Lemma shared_width_le (D : Z) (mf : positive) (ef k : Z) :
  0 <= D -> -1000 <= ef < 0 -> 2 * Zpos mf <= 2 ^ (- ef) ->
  col_embed_dim false D (S754_finite false mf ef) = Ok k ->
  0 <= k <= D.
Proof.
  intros HD Hef Hmf. unfold col_embed_dim, int_mul_float.
  destruct (float_of_int D) as [fl|err] eqn:Hfl; [|discriminate].
  cbn [rbind].
  destruct (Z.eq_dec D 0) as [->|Hnz].
  { injection Hfl as <-. cbn. intros [= <-]. lia. }
  destruct fl as [s0|s0| |s mD eD].
  - cbn. intros [= <-]. lia.
  - discriminate.
  - discriminate.
  - apply float_of_int_bound in Hfl as (-> & ez & Hez & Hle & Hb1); [|lia].
    cbn [SFmul xorb].
    destruct (binary_round_aux prec64 emax64 false (Zpos (mD * mf)) (eD + ef) loc_Exact)
      as [s3|s3| |s3 m3 e3] eqn:Hr.
    + cbn. intros [= <-]. lia.
    + discriminate.
    + discriminate.
    + apply binary_round_aux_bound in Hr as (-> & He3 & Hb2);
        [|unfold prec64; lia|unfold emin, prec64, emax64; lia].
      cbn [int_of_float]. intros [= <-].
      set (a := e3 - (eD + ef)) in *. set (c := eD - ez) in *.
      assert (Ha : 0 <= a) by (unfold a; lia).
      assert (Hc : 0 <= c) by (unfold c; lia).
      assert (Hpa : 0 < 2 ^ a) by (apply Z.pow_pos_nonneg; lia).
      assert (Hpc : 0 < 2 ^ c) by (apply Z.pow_pos_nonneg; lia).
      assert (Hpz : 0 < 2 ^ (- ez)) by (apply Z.pow_pos_nonneg; lia).
      assert (Hpf : 0 < 2 ^ (- ef)) by (apply Z.pow_pos_nonneg; lia).
      rewrite Pos2Z.inj_mul in Hb2.
      (* m3 * 2^(a + c) <= D * 2^(-ez - ef) *)
      assert (Hmain : Zpos m3 * (2 ^ a * 2 ^ c) <= D * (2 ^ (- ez) * 2 ^ (- ef))).
      { generalize dependent (2 ^ a). generalize dependent (2 ^ c).
        generalize dependent (2 ^ (- ez)). generalize dependent (2 ^ (- ef)).
        intros. nia. }
      assert (HA : 2 ^ a * 2 ^ c = 2 ^ (a + c)) by (rewrite Z.pow_add_r; lia).
      assert (HB : 2 ^ (- ez) * 2 ^ (- ef) = 2 ^ (- ez + - ef))
        by (rewrite Z.pow_add_r; lia).
      rewrite HA, HB in Hmain.
      assert (He3' : e3 = (a + c) - (- ez + - ef)) by (unfold a, c; lia).
      clear HA HB Hb1 Hb2 Hpa Hpc Hpz Hpf.
      set (x := a + c) in *. set (y := - ez + - ef) in *.
      assert (Hx : 0 <= x) by (unfold x; lia).
      assert (Hy : 0 <= y) by (unfold y; lia).
      clearbody x y. clear a c Ha Hc He3. subst e3.
      destruct (0 <=? x - y) eqn:Hs.
      * apply Z.leb_le in Hs. rewrite Z.shiftl_mul_pow2 by lia.
        assert (Hp3 : 0 < 2 ^ (x - y)) by (apply Z.pow_pos_nonneg; lia).
        assert (Hpy : 0 < 2 ^ y) by (apply Z.pow_pos_nonneg; lia).
        split; [lia|].
        apply (Z.mul_le_mono_pos_r _ _ (2 ^ y) Hpy).
        rewrite <- Z.mul_assoc, <- Z.pow_add_r by lia.
        replace (x - y + y) with x by lia. exact Hmain.
      * apply Z.leb_gt in Hs. rewrite Z.shiftr_div_pow2 by lia.
        assert (Hp3 : 0 < 2 ^ (- (x - y))) by (apply Z.pow_pos_nonneg; lia).
        assert (Hpx : 0 < 2 ^ x) by (apply Z.pow_pos_nonneg; lia).
        split; [apply Z.div_pos; lia|].
        apply Z.div_le_upper_bound; [lia|].
        apply (Z.mul_le_mono_pos_r _ _ (2 ^ x) Hpx).
        rewrite (Z.mul_comm (2 ^ (- (x - y))) D).
        rewrite <- Z.mul_assoc, <- Z.pow_add_r by lia.
        replace (- (x - y) + x) with y by lia. exact Hmain.
Qed.

Lemma shared_width_le_listed (D k : Z) (frac : PyFloat) :
  frac = float_0_1 \/ frac = float_0_25 \/ frac = float_0_5 ->
  0 <= D ->
  col_embed_dim false D frac = Ok k ->
  0 <= k <= D.
Proof.
  intros [-> | [-> | ->]] HD; apply shared_width_le; try exact HD;
    try (split; [apply Z.leb_le | apply Z.ltb_lt]; vm_compute; reflexivity);
    apply Z.leb_le; vm_compute; reflexivity.
Qed.

Section Properties.
Context {A R : Type} `{Eng : Engine A R}.

(** ** Full-row dropout *)

(** C2. The claim asks that full-row dropout with p = 0, in training
    mode, returns its input unchanged and without raising.  The module is
    built with [p = 0], it is in training mode as every fresh module is,
    and its forward pass raises [AttributeError] on every input of rank
    two or three: [forward] reads [self.dropout], while [__init__] stored
    the probability under [self.p]. *)
Theorem FullEmbeddingDropout_training_p0_raises :
  FullEmbeddingDropout_init float_zero
    = Ok {| fed_p := float_zero; fed_training := true |}
  /\ (forall X : list (list R),
        FullEmbeddingDropout_forward2 {| fed_p := float_zero; fed_training := true |} X
        = Raise AttributeError)
  /\ (forall X : list (list (list R)),
        FullEmbeddingDropout_forward3 {| fed_p := float_zero; fed_training := true |} X
        = Raise AttributeError)
  /\ (forall X : list (list R),
        FullEmbeddingDropout_forward2 {| fed_p := float_zero; fed_training := false |} X
        = Ok X).
Proof. repeat split. Qed.

(** ** The composite without any column *)

(** C9. The variable-width composite built without categorical spec and
    without continuous columns has [output_dim = 0], whatever its other
    arguments, and its forward pass returns the pair (None, None) on every
    batch, in training as in evaluation mode. *)
Theorem DiffSizeCatAndContEmbeddings_empty
    (column_idx : gmap string Z) (cat_embed_dropout : PyFloat)
    (embed_continuous : bool) (cont_embed_dim : Z) (cont_embed_dropout : PyFloat)
    (cont_embed_activation : option string) (use_cont_bias : bool)
    (cont_norm_layer : option string) :
  exists m,
    DiffSizeCatAndContEmbeddings_init column_idx None cat_embed_dropout None
      embed_continuous cont_embed_dim cont_embed_dropout cont_embed_activation
      use_cont_bias cont_norm_layer = Ok m
    /\ dcc_output_dim m = 0
    /\ getattr (DiffSizeCatAndContEmbeddings_dict m) "output_dim" = Ok (VInt 0)
    /\ forall (mode : bool) (X : Batch A),
         DiffSizeCatAndContEmbeddings_forward
           (DiffSizeCatAndContEmbeddings_train mode m) X = Ok (None, None).
Proof.
  eexists. split; [reflexivity|]. repeat split.
Qed.

(** ** The check on the shared fraction *)

Lemma Embedding_init_no_assert (name : string) (n d : Z) :
  Embedding_init name n d <> Raise AssertionError.
Proof.
  unfold Embedding_init.
  destruct (_ || _); [discriminate|]. destruct (n =? 0); discriminate.
Qed.

Lemma col_embed_dim_no_assert (add : bool) (d : Z) (frac : PyFloat) :
  col_embed_dim add d frac <> Raise AssertionError.
Proof.
  unfold col_embed_dim. destruct add; [discriminate|].
  apply rbind_not_raising.
  - unfold int_mul_float. apply rbind_not_raising; [|discriminate].
    unfold float_of_int.
    destruct (binary_normalize prec64 emax64 d 0 false); discriminate.
  - intros f. unfold int_of_float. destruct f; discriminate.
Qed.

Lemma DropoutLayers_init_no_assert (full : bool) (p : PyFloat) :
  DropoutLayers_init full p <> Raise AssertionError.
Proof.
  unfold DropoutLayers_init, FullEmbeddingDropout_init, Dropout_init, check_p.
  destruct full; destruct (_ || _); simpl; discriminate.
Qed.

(** C7. [SharedEmbeddings.__init__] raises [AssertionError] as soon as
    [frac_shared_embed >= 1], in additive as in overwrite mode and with
    either dropout variant, before anything is allocated; with
    [frac_shared_embed < 1] it never raises that error.  A fixed-width
    categorical embedder in shared mode with at least one column and such
    a fraction is therefore never constructed either. *)
Theorem SharedEmbeddings_frac_check
    (name : string) (n_embed embed_dim : Z) (embed_dropout : PyFloat)
    (full_embed_dropout add_shared_embed : bool) (frac_shared_embed : PyFloat) :
  (float_le float_one frac_shared_embed = true ->
     SharedEmbeddings_init name n_embed embed_dim embed_dropout full_embed_dropout
       add_shared_embed frac_shared_embed = Raise AssertionError)
  /\ (float_lt frac_shared_embed float_one = true ->
        SharedEmbeddings_init name n_embed embed_dim embed_dropout full_embed_dropout
          add_shared_embed frac_shared_embed <> Raise AssertionError)
  /\ (float_le float_one frac_shared_embed = true ->
        forall (column_idx : gmap string Z) (e : string * Z)
               (embed_input : list (string * Z)) (use_bias : option bool),
          is_ok (SameSizeCatEmbeddings_init embed_dim column_idx (e :: embed_input)
                   embed_dropout full_embed_dropout true add_shared_embed
                   frac_shared_embed use_bias).2 = false).
Proof.
  split; [|split].
  - intros H. unfold SharedEmbeddings_init.
    rewrite (float_le_one_not_lt _ H). reflexivity.
  - intros H. unfold SharedEmbeddings_init. rewrite H. simpl.
    apply rbind_not_raising; [apply Embedding_init_no_assert|]. intros embed.
    apply rbind_not_raising; [apply col_embed_dim_no_assert|]. intros k.
    apply rbind_not_raising.
    { unfold new_shared_vector. destruct (_ || _); discriminate. }
    intros shared.
    apply rbind_not_raising; [apply DropoutLayers_init_no_assert|].
    intros dropout. discriminate.
  - intros H column_idx e embed_input use_bias.
    unfold SameSizeCatEmbeddings_init.
    apply wbind_not_ok; intros cat_idx.
    apply wbind_not_ok; intros bias.
    unfold ModuleDict_build. cbn [rmapM].
    unfold SharedEmbeddings_init at 1.
    rewrite (float_le_one_not_lt _ H). reflexivity.
Qed.
(** ** Dropout layers in evaluation mode *)

Lemma check_p_Ok (p : PyFloat) (u : unit) : check_p p = Ok u -> check_p p = Ok tt.
Proof. destruct u. auto. Qed.

(** A probability in [0, 1] passes both checks of [F.dropout]. *)
Lemma prob_in_range_checks (p : PyFloat) :
  prob_in_range p = true -> check_p p = Ok tt /\ check_p_native p = Ok tt.
Proof.
  intros Hp. unfold check_p, check_p_native. rewrite Hp.
  apply andb_true_iff in Hp as [H0 H1].
  rewrite (float_le_zero_not_lt _ H0), (float_le_not_lt_one _ H1). auto.
Qed.

Lemma F_dropout2_eval (p : PyFloat) (x : list (list R)) :
  prob_in_range p = true -> F_dropout2 x p false = Ok x.
Proof.
  intros Hp. destruct (prob_in_range_checks p Hp) as [H1 H2].
  unfold F_dropout2. rewrite H1. cbn [rbind]. rewrite H2. reflexivity.
Qed.

Lemma F_dropout3_eval (p : PyFloat) (x : list (list (list R))) :
  prob_in_range p = true -> F_dropout3 x p false = Ok x.
Proof.
  intros Hp. destruct (prob_in_range_checks p Hp) as [H1 H2].
  unfold F_dropout3. rewrite H1. cbn [rbind]. rewrite H2. reflexivity.
Qed.

Lemma F_dropout3_training (p : PyFloat) (x : list (list (list R))) :
  prob_in_range p = true -> F_dropout3 x p true = Ok (dropout_cube p x).
Proof.
  intros Hp. destruct (prob_in_range_checks p Hp) as [H1 H2].
  unfold F_dropout3. rewrite H1. cbn [rbind]. rewrite H2. reflexivity.
Qed.


Lemma Dropout_init_inv (p : PyFloat) (d : Dropout) :
  Dropout_init p = Ok d -> check_p p = Ok tt /\ d = {| dp_p := p; dp_training := true |}.
Proof.
  unfold Dropout_init. destruct (check_p p) as [[]|e]; simpl; [|discriminate].
  intros [= <-]. auto.
Qed.

Lemma DropoutLayers_eval2 (full : bool) (p : PyFloat) (d : DropoutLayers)
    (x : list (list R)) :
  DropoutLayers_init full p = Ok d ->
  (full = false -> prob_in_range p = true) ->
  DropoutLayers_forward2 (DropoutLayers_train false d) x = Ok x.
Proof.
  unfold DropoutLayers_init. destruct full.
  - unfold FullEmbeddingDropout_init. destruct (_ || _); simpl; [discriminate|].
    intros [= <-] _. reflexivity.
  - destruct (Dropout_init p) as [d0|e] eqn:Hd; simpl; [|discriminate].
    intros [= <-] Hr. apply Dropout_init_inv in Hd as [Hp ->]. simpl.
    unfold Dropout_forward2. simpl. apply F_dropout2_eval. auto.
Qed.

Lemma DropoutLayers_eval3 (full : bool) (p : PyFloat) (d : DropoutLayers)
    (x : list (list (list R))) :
  DropoutLayers_init full p = Ok d ->
  (full = false -> prob_in_range p = true) ->
  DropoutLayers_forward3 (DropoutLayers_train false d) x = Ok x.
Proof.
  unfold DropoutLayers_init. destruct full.
  - unfold FullEmbeddingDropout_init. destruct (_ || _); simpl; [discriminate|].
    intros [= <-] _. reflexivity.
  - destruct (Dropout_init p) as [d0|e] eqn:Hd; simpl; [|discriminate].
    intros [= <-] Hr. apply Dropout_init_inv in Hd as [Hp ->]. simpl.
    unfold Dropout_forward3. simpl. apply F_dropout3_eval. auto.
Qed.

(** ** Bias in the fixed-width categorical embedder *)

(** C3. With [use_bias=True] and shared embeddings, once the column
    positions are resolved and the bias parameter is allocated, the
    constructor emits the warning, after the warning of the initialiser when
    the bias has no element, and goes on: it succeeds exactly when the
    constructor without bias does, and the instance it returns holds the
    allocated bias.  In the shared-embedding forward path the output does
    not depend on the bias, be it present with any value or absent, in
    training as in evaluation mode. *)
Theorem SameSizeCatEmbeddings_shared_bias_ignored
    (embed_dim : Z) (column_idx : gmap string Z) (embed_input : list (string * Z))
    (embed_dropout : PyFloat) (full_embed_dropout add_shared_embed : bool)
    (frac_shared_embed : PyFloat) (cat_idx : list Z) (b : list (list R))
    (Hidx : rmapM (dict_get column_idx) (map fst embed_input) = Ok cat_idx)
    (Hbias : new_parameter "bias" (Z.of_nat (length embed_input)) embed_dim = Ok b) :
  let with_bias :=
    SameSizeCatEmbeddings_init embed_dim column_idx embed_input embed_dropout
      full_embed_dropout true add_shared_embed frac_shared_embed (Some true) in
  let without :=
    SameSizeCatEmbeddings_init embed_dim column_idx embed_input embed_dropout
      full_embed_dropout true add_shared_embed frac_shared_embed None in
  with_bias.1
  = (if (Z.of_nat (length embed_input) =? 0) || (embed_dim =? 0)
     then [zero_element_warning] else []) ++ [bias_warning]
  /\ is_ok with_bias.2 = is_ok without.2
  /\ (forall m, with_bias.2 = Ok m ->
        ssc_bias m = Some b /\ ssc_shared_embed m = true)
  /\ forall (m : SameSizeCatEmbeddings) (b' : option (list (list R))) (X : Batch A),
       ssc_shared_embed m = true ->
       SameSizeCatEmbeddings_forward (set_bias b' m) X
       = SameSizeCatEmbeddings_forward m X
       /\ forall mode,
            SameSizeCatEmbeddings_forward
              (SameSizeCatEmbeddings_train mode (set_bias b' m)) X
            = SameSizeCatEmbeddings_forward (SameSizeCatEmbeddings_train mode m) X.
Proof.
  cbv zeta. unfold SameSizeCatEmbeddings_init, kaiming_uniform_warn.
  rewrite Hidx. rewrite length_map, Hbias.
  cbn [wret wbind warn app fst snd].
  destruct (ModuleDict_build _ _ embed_input) as [d|e];
    destruct ((Z.of_nat (length embed_input) =? 0) || (embed_dim =? 0));
    cbn [wret wbind warn rbind app fst snd is_ok];
    (split; [reflexivity|]); (split; [reflexivity|]);
    (split; [intros m [= <-]; auto|]); try (split; [intros m; discriminate|]);
    intros m b' X Hs; (split; [|intros mode]);
    unfold SameSizeCatEmbeddings_forward; simpl; rewrite Hs; reflexivity.
Qed.

(** What a successful construction of the fixed-width categorical embedder
    went through. *)
Lemma SameSizeCatEmbeddings_init_inv
    (embed_dim : Z) (column_idx : gmap string Z) (embed_input : list (string * Z))
    (embed_dropout : PyFloat) (full_embed_dropout shared_embed add_shared_embed : bool)
    (frac_shared_embed : PyFloat) (use_bias : option bool)
    (w : list string) (m : SameSizeCatEmbeddings) :
  SameSizeCatEmbeddings_init embed_dim column_idx embed_input embed_dropout
    full_embed_dropout shared_embed add_shared_embed frac_shared_embed use_bias
  = (w, Ok m) ->
  exists cat_idx bias ed,
    rmapM (dict_get column_idx) (map fst embed_input) = Ok cat_idx
    /\ match use_bias with
       | Some _ =>
           exists b, new_parameter "bias" (Z.of_nat (length embed_input)) embed_dim
                     = Ok b /\ bias = Some b
       | None => bias = None
       end
    /\ (if shared_embed then
          d <~ ModuleDict_build fst
                 (fun e => SharedEmbeddings_init (layer_key e.1)
                             (if String.eqb e.1 "cls_token" then e.2 else e.2 + 1)
                             embed_dim embed_dropout full_embed_dropout
                             add_shared_embed frac_shared_embed)
                 embed_input ;;
          Ok (SSE_Dict d, None)
        else
          e <~ Embedding_init "embed" (foldr Z.add 0 (map snd embed_input) + 1)
                 embed_dim ;;
          d <~ DropoutLayers_init full_embed_dropout embed_dropout ;;
          Ok (SSE_Table e, Some d)) = Ok ed
    /\ w = match use_bias with
           | Some _ =>
               (kaiming_uniform_warn (Z.of_nat (length embed_input)) embed_dim).1
               ++ (if shared_embed then [bias_warning] else [])
           | None => []
           end
    /\ m = {| ssc_column_idx := column_idx;
              ssc_embed_input := embed_input;
              ssc_embed_dropout := embed_dropout;
              ssc_shared_embed := shared_embed;
              ssc_n_tokens := foldr Z.add 0 (map snd embed_input);
              ssc_categorical_cols := map fst embed_input;
              ssc_cat_idx := cat_idx;
              ssc_bias := bias;
              ssc_embed := ed.1;
              ssc_dropout := ed.2;
              ssc_training := true |}.
Proof.
  unfold SameSizeCatEmbeddings_init.
  match goal with
  | |- context [wret (if shared_embed then ?a else ?b)] =>
      set (build := if shared_embed then a else b)
  end.
  destruct (rmapM (dict_get column_idx) (map fst embed_input)) as [cat_idx|e];
    [|discriminate].
  rewrite length_map. cbn [wret wbind app].
  destruct use_bias as [ub|].
  - destruct (new_parameter "bias" _ embed_dim) as [b|e]; [|discriminate].
    cbn [wret wbind app]. unfold kaiming_uniform_warn.
    destruct ((Z.of_nat (length embed_input) =? 0) || (embed_dim =? 0));
      destruct shared_embed; cbn [wret wbind warn app fst];
      (destruct build as [ed|e]; [|discriminate]);
      cbn [wret wbind app]; intros [= <- <-];
      exists cat_idx, (Some b), ed; repeat split; eauto.
  - cbn [wret wbind app].
    destruct build as [ed|e]; [|discriminate].
    cbn [wret wbind app]. intros [= <- <-].
    exists cat_idx, None, ed. repeat split; eauto.
Qed.


(** ** The continuous embedder *)

Lemma new_parameter_shape (name : string) (n d : Z) (t : list (list R)) :
  new_parameter name n d = Ok t ->
  length t = Z.to_nat n /\ has_width (Z.to_nat d) t.
Proof.
  unfold new_parameter. destruct (_ || _); [discriminate|]. intros [= <-].
  split; [apply tabulate_length | apply tabulate_has_width].
Qed.

Lemma cont_scale_same (weight : list (list R)) (X : list (list R)) :
  has_width (length weight) X ->
  cont_scale weight X
  = Ok (map (fun xs => zip_with (fun w x => map (fun wj => Rmul wj x) w) weight xs) X).
Proof.
  intros HX. unfold cont_scale. apply rmapM_total.
  eapply Forall_impl; [exact HX|]. intros xs Hxs. simpl in Hxs.
  apply broadcast_zip_same. congruence.
Qed.

Lemma add_rows_same (d : nat) (m bias : list (list R)) :
  has_width d m -> has_width d bias ->
  rmapM id (zip_with (fun r b => broadcast_zip Radd r b) m bias)
  = Ok (zip_with (zip_with Radd) m bias).
Proof.
  intros Hm. revert bias. induction Hm as [|r m Hr Hm IH]; intros bias Hb.
  - reflexivity.
  - destruct Hb as [|b bias Hb Hbias]; [reflexivity|]. simpl.
    rewrite broadcast_zip_same by congruence. simpl.
    rewrite (IH _ Hbias). reflexivity.
Qed.

Lemma cont_add_bias_same (c d : nat) (x : list (list (list R))) (bias : list (list R)) :
  length bias = c -> has_width d bias ->
  Forall (fun m => length m = c /\ has_width d m) x ->
  cont_add_bias x bias = Ok (map (fun m => zip_with (zip_with Radd) m bias) x).
Proof.
  intros Hc Hb Hx. unfold cont_add_bias. apply rmapM_total.
  eapply Forall_impl; [exact Hx|]. intros m [Hm Hw]. simpl.
  rewrite broadcast_zip_same by congruence. simpl.
  apply (add_rows_same d); assumption.
Qed.

Lemma cont_row_formula (weight : list (list R)) (bias : option (list (list R)))
    (act_fn : option (R -> R)) (xs : list R) :
  length xs = length weight ->
  (forall b, bias = Some b -> length b = length weight) ->
  act_rows act_fn
    (let scaled := zip_with (fun w x => map (fun wj => Rmul wj x) w) weight xs in
     match bias with
     | Some b => zip_with (zip_with Radd) scaled b
     | None => scaled
     end)
  = imap (fun c x =>
            cont_entry (default [] (weight !! c))
              ((fun b => default [] (b !! c)) <$> bias) act_fn x) xs.
Proof.
  intros Hlen Hb. apply list_eq. intros c.
  rewrite list_lookup_imap.
  destruct (xs !! c) as [x|] eqn:Hx; simpl.
  - assert (Hc : (c < length weight)%nat)
      by (rewrite <- Hlen; eapply lookup_lt_Some; eauto).
    destruct (lookup_lt_is_Some_2 weight c Hc) as [w Hw].
    unfold act_rows, cont_entry. rewrite Hw. simpl.
    destruct bias as [b|]; simpl.
    + assert (Hcb : (c < length b)%nat) by (rewrite (Hb b eq_refl); exact Hc).
      destruct (lookup_lt_is_Some_2 b c Hcb) as [bc Hbc]. rewrite Hbc. simpl.
      destruct act_fn as [f|]; [rewrite list_lookup_fmap|];
        rewrite !lookup_zip_with, Hw; simpl; rewrite Hx; simpl; rewrite Hbc;
        reflexivity.
    + destruct act_fn as [f|]; [rewrite list_lookup_fmap|];
        rewrite lookup_zip_with, Hw; simpl; rewrite Hx; reflexivity.
  - assert (Hnone : zip_with (fun w x => map (fun wj => Rmul wj x) w) weight xs !! c
                    = None)
      by (apply lookup_zip_with_None; auto).
    unfold act_rows.
    destruct bias as [b|]; destruct act_fn as [f|].
    + rewrite list_lookup_fmap, lookup_zip_with, Hnone. reflexivity.
    + rewrite lookup_zip_with, Hnone. reflexivity.
    + rewrite list_lookup_fmap, Hnone. reflexivity.
    + exact Hnone.
Qed.

Lemma cont_entry_length (d : nat) (w : list R) (b : option (list R))
    (act_fn : option (R -> R)) (x : R) :
  length w = d -> (forall bc, b = Some bc -> length bc = d) ->
  length (cont_entry w b act_fn x) = d.
Proof.
  intros Hw Hb. unfold cont_entry.
  assert (H : length (match b with
                      | Some b0 => zip_with Radd (map (fun wj => Rmul wj x) w) b0
                      | None => map (fun wj => Rmul wj x) w
                      end) = d).
  { destruct b as [bc|].
    - rewrite length_zip_with, length_map, (Hb bc eq_refl). lia.
    - now rewrite length_map. }
  destruct act_fn; [rewrite length_map|]; exact H.
Qed.

Lemma dropout_mat_shape (p : PyFloat) (off c d : nat) (m : list (list R)) :
  length m = c /\ has_width d m ->
  length (dropout_mat p off m) = c /\ has_width d (dropout_mat p off m).
Proof.
  intros [Hc Hw]. unfold dropout_mat. split; [now rewrite length_imap|].
  unfold has_width. apply Forall_lookup. intros i r Hr.
  apply list_lookup_imap_Some in Hr as (r0 & Hr0 & ->).
  unfold dropout_vec. rewrite length_imap.
  eapply (proj1 (Forall_lookup _ _) Hw); eauto.
Qed.

Lemma dropout_cube_shape (p : PyFloat) (n c d : nat) (t : list (list (list R))) :
  has_shape3 n c d t -> has_shape3 n c d (dropout_cube p t).
Proof.
  intros [Hn Ht]. unfold dropout_cube. split; [now rewrite length_imap|].
  apply Forall_lookup. intros i m Hm.
  apply list_lookup_imap_Some in Hm as (m0 & Hm0 & ->).
  apply dropout_mat_shape. eapply (proj1 (Forall_lookup _ _) Ht); eauto.
Qed.

Lemma ContEmbeddings_init_inv (n_cont_cols embed_dim : Z) (embed_dropout : PyFloat)
    (use_bias : bool) (activation : option string) (m : ContEmbeddings) :
  ContEmbeddings_init n_cont_cols embed_dim embed_dropout use_bias activation = Ok m ->
  ce_embed_dropout m = embed_dropout
  /\ ce_training m = true
  /\ length (ce_weight m) = Z.to_nat n_cont_cols
  /\ has_width (Z.to_nat embed_dim) (ce_weight m)
  /\ (if use_bias
      then exists b, ce_bias m = Some b /\ length b = Z.to_nat n_cont_cols
                     /\ has_width (Z.to_nat embed_dim) b
      else ce_bias m = None).
Proof.
  unfold ContEmbeddings_init. intros H.
  apply rbind_Ok in H as (weight & Hw & H).
  apply rbind_Ok in H as (bias & Hb & H).
  apply rbind_Ok in H as (act_fn & _ & [= <-]). simpl.
  apply new_parameter_shape in Hw as [Hw1 Hw2].
  repeat split; try assumption.
  destruct use_bias.
  - apply rbind_Ok in Hb as (b & Hb & [= <-]).
    apply new_parameter_shape in Hb as [Hb1 Hb2]. eauto.
  - now injection Hb as <-.
Qed.

Lemma cont_formula_shape (self : ContEmbeddings) (c d : nat) (X : list (list R)) :
  length (ce_weight self) = c -> has_width d (ce_weight self) ->
  (forall b, ce_bias self = Some b -> length b = c /\ has_width d b) ->
  has_width c X ->
  has_shape3 (length X) c d (cont_formula self X).
Proof.
  intros Hc Hw Hb HX. unfold cont_formula. split; [now rewrite length_map|].
  apply Forall_fmap. eapply Forall_impl; [exact HX|]. intros xs Hxs. simpl.
  split; [now rewrite length_imap|].
  apply Forall_lookup. intros i v Hv.
  apply list_lookup_imap_Some in Hv as (x & Hx & ->).
  assert (Hi : (i < c)%nat) by (rewrite <- Hxs; eapply lookup_lt_Some; eauto).
  apply cont_entry_length.
  - rewrite <- Hc in Hi. destruct (lookup_lt_is_Some_2 _ _ Hi) as [w Hwi].
    rewrite Hwi. simpl. eapply (proj1 (Forall_lookup _ _) Hw); eauto.
  - intros bc Hbc. destruct (ce_bias self) as [b|]; [|discriminate].
    injection Hbc as <-. destruct (Hb b eq_refl) as [Hb1 Hb2].
    rewrite <- Hb1 in Hi. destruct (lookup_lt_is_Some_2 _ _ Hi) as [bi Hbi].
    rewrite Hbi. simpl. eapply (proj1 (Forall_lookup _ _) Hb2); eauto.
Qed.

Lemma ContEmbeddings_forward_eq (self : ContEmbeddings) (c d : nat)
    (X : list (list R)) :
  length (ce_weight self) = c -> has_width d (ce_weight self) ->
  (forall b, ce_bias self = Some b -> length b = c /\ has_width d b) ->
  has_width c X ->
  ContEmbeddings_forward self X
  = F_dropout3 (cont_formula self X) (ce_embed_dropout self) (ce_training self).
Proof.
  intros Hc Hw Hb HX. unfold ContEmbeddings_forward.
  rewrite cont_scale_same by (rewrite Hc; exact HX). simpl.
  set (scale_row := fun xs : list R =>
         zip_with (fun w x => map (fun wj => Rmul wj x) w) (ce_weight self) xs).
  assert (Hrows : forall xs, length xs = c -> cont_formula self [xs] =
            [act_rows (ce_act_fn self)
               match ce_bias self with
               | Some b => zip_with (zip_with Radd) (scale_row xs) b
               | None => scale_row xs
               end]).
  { intros xs Hxs. unfold cont_formula. simpl. f_equal. symmetry.
    apply cont_row_formula; [congruence|].
    intros b Hbs. destruct (Hb b Hbs). congruence. }
  assert (Hall : cont_formula self X =
            map (fun xs => act_rows (ce_act_fn self)
                   match ce_bias self with
                   | Some b => zip_with (zip_with Radd) (scale_row xs) b
                   | None => scale_row xs
                   end) X).
  { unfold cont_formula. apply Forall_fmap_ext.
    eapply Forall_impl; [exact HX|]. intros xs Hxs. simpl in Hxs.
    specialize (Hrows xs Hxs). unfold cont_formula in Hrows. simpl in Hrows.
    now injection Hrows. }
  rewrite Hall. clear Hall Hrows.
  destruct (ce_bias self) as [b|] eqn:Hbias.
  - destruct (Hb b eq_refl) as [Hb1 Hb2].
    rewrite (cont_add_bias_same c d).
    + simpl. rewrite map_map.
      destruct (ce_act_fn self) as [f|]; simpl; [rewrite map_map|]; reflexivity.
    + exact Hb1.
    + exact Hb2.
    + apply Forall_fmap. eapply Forall_impl; [exact HX|]. intros xs Hxs. simpl.
      unfold scale_row. split.
      * rewrite length_zip_with. simpl in Hxs. lia.
      * apply Forall_lookup. intros i v Hv.
        apply lookup_zip_with_Some in Hv as (w & x & -> & Hwi & _).
        rewrite length_map. eapply (proj1 (Forall_lookup _ _) Hw); eauto.
  - simpl. destruct (ce_act_fn self) as [f|]; simpl; [rewrite map_map|]; reflexivity.
Qed.

Lemma numel_has_width (d : nat) (m : list (list R)) :
  has_width d m -> numel m = (length m * d)%nat.
Proof.
  induction 1 as [|r m Hr _ IH]; [reflexivity|].
  simpl. rewrite Hr, IH. reflexivity.
Qed.

(** Element-wise dropout: the entry at the flat position [k] of a tensor of
    shape (N, C, D) is multiplied by the noise of the Bernoulli draw [k]. *)
Lemma dropout_cube_lookup (p : PyFloat) (N C D : nat) (t : list (list (list R)))
    (n c j : nat) (v : R) :
  has_shape3 N C D t ->
  entry3 t n c j = Some v ->
  entry3 (dropout_cube p t) n c j
  = Some (Rmul v (dropout_noise p (bernoulli ((n * C + c) * D + j)))).
Proof.
  intros [_ Hsh] Hv. unfold entry3 in *. unfold dropout_cube.
  rewrite list_lookup_imap.
  destruct (t !! n) as [m|] eqn:Hm; [|discriminate]. cbn [fmap option_fmap option_map].
  destruct (proj1 (Forall_lookup _ _) Hsh n m Hm) as [Hlen Hw].
  unfold dropout_mat. rewrite list_lookup_imap.
  destruct (m !! c) as [r|] eqn:Hr; [|discriminate]. cbn [fmap option_fmap option_map].
  assert (Hrl : length r = D) by exact (proj1 (Forall_lookup _ _) Hw c r Hr).
  unfold dropout_vec. rewrite list_lookup_imap, Hv. cbn [fmap option_fmap option_map].
  rewrite (numel_has_width D m Hw), Hlen, Hrl.
  do 4 f_equal. nia.
Qed.

(** C8. For a constructed continuous embedder with a dropout probability
    in [0, 1] and an input batch of shape (N, C), C the number of
    continuous columns, the forward pass yields a tensor of shape
    (N, C, D); in evaluation mode it is exactly the tensor of the formula
    [act (weight[c, :] * x[n, c] + bias[c, :])], the bias being there
    exactly when [use_bias] is set; in training mode (the mode of a fresh
    module) every entry of that tensor is multiplied by the dropout noise of
    its own Bernoulli draw. *)
Theorem ContEmbeddings_forward_formula
    (n_cont_cols embed_dim : Z) (embed_dropout : PyFloat) (use_bias : bool)
    (activation : option string) (m : ContEmbeddings) (X : list (list R))
    (Hinit : ContEmbeddings_init n_cont_cols embed_dim embed_dropout use_bias
               activation = Ok m)
    (Hp : prob_in_range embed_dropout = true)
    (HX : has_width (Z.to_nat n_cont_cols) X) :
  ContEmbeddings_forward (ContEmbeddings_train false m) X = Ok (cont_formula m X)
  /\ (exists out,
        ContEmbeddings_forward m X = Ok out
        /\ has_shape3 (length X) (Z.to_nat n_cont_cols) (Z.to_nat embed_dim) out
        /\ forall n c j v,
             entry3 (cont_formula m X) n c j = Some v ->
             entry3 out n c j
             = Some (Rmul v
                       (dropout_noise embed_dropout
                          (bernoulli ((n * Z.to_nat n_cont_cols + c)
                                      * Z.to_nat embed_dim + j)))))
  /\ has_shape3 (length X) (Z.to_nat n_cont_cols) (Z.to_nat embed_dim)
       (cont_formula m X)
  /\ (forall n c xs x,
        X !! n = Some xs -> xs !! c = Some x ->
        exists w,
          ce_weight m !! c = Some w
          /\ (if use_bias
              then exists b bc,
                     ce_bias m = Some b /\ b !! c = Some bc
                     /\ cont_formula m X !! n ≫= (.!! c)
                        = Some (cont_entry w (Some bc) (ce_act_fn m) x)
              else cont_formula m X !! n ≫= (.!! c)
                   = Some (cont_entry w None (ce_act_fn m) x))).
Proof.
  destruct (ContEmbeddings_init_inv _ _ _ _ _ _ Hinit)
    as (Hdp & Htr & Hc & Hw & Hbias).
  assert (Hb : forall b, ce_bias m = Some b ->
               length b = Z.to_nat n_cont_cols /\ has_width (Z.to_nat embed_dim) b).
  { intros b Hbm. destruct use_bias.
    - destruct Hbias as (b0 & Hb0 & Hl & Hwd). rewrite Hb0 in Hbm.
      injection Hbm as <-. auto.
    - rewrite Hbias in Hbm. discriminate. }
  assert (Hshape := cont_formula_shape m _ _ X Hc Hw Hb HX).
  split; [|split; [|split]].
  - rewrite (ContEmbeddings_forward_eq _ (Z.to_nat n_cont_cols) (Z.to_nat embed_dim));
      try assumption.
    simpl. rewrite Hdp. apply F_dropout3_eval. exact Hp.
  - exists (dropout_cube embed_dropout (cont_formula m X)). split; [|split].
    + rewrite (ContEmbeddings_forward_eq _ (Z.to_nat n_cont_cols)
                 (Z.to_nat embed_dim)); try assumption.
      rewrite Hdp, Htr. apply F_dropout3_training. exact Hp.
    + apply dropout_cube_shape. exact Hshape.
    + intros n c j v Hv. exact (dropout_cube_lookup _ _ _ _ _ _ _ _ _ Hshape Hv).
  - exact Hshape.
  - intros n c xs x Hn Hx.
    assert (Hcl : (c < Z.to_nat n_cont_cols)%nat).
    { rewrite <- (proj1 (Forall_lookup _ _) HX n xs Hn).
      eapply lookup_lt_Some; eauto. }
    assert (Hcw := Hcl). rewrite <- Hc in Hcw.
    destruct (lookup_lt_is_Some_2 _ _ Hcw) as [w Hwc].
    exists w. split; [exact Hwc|].
    assert (Hlook : cont_formula m X !! n ≫= (.!! c)
                    = Some (cont_entry w ((fun b => default [] (b !! c)) <$> ce_bias m)
                              (ce_act_fn m) x)).
    { unfold cont_formula. rewrite list_lookup_fmap, Hn. simpl.
      rewrite list_lookup_imap, Hx. simpl. rewrite Hwc. reflexivity. }
    destruct use_bias.
    + destruct Hbias as (b & Hbm & Hbl & _).
      assert (Hcb := Hcl). rewrite <- Hbl in Hcb.
      destruct (lookup_lt_is_Some_2 _ _ Hcb) as [bc Hbc].
      exists b, bc. repeat split; try assumption.
      rewrite Hlook, Hbm. simpl. rewrite Hbc. reflexivity.
    + rewrite Hlook, Hbias. reflexivity.
Qed.

(** ** Embedding tables and the shared-embedding wrapper *)

Lemma Embedding_init_inv (name : string) (n d : Z) (e : @Embedding R) :
  Embedding_init name n d = Ok e ->
  1 <= n <= int64_max /\ 0 <= d <= int64_max
  /\ embedding_dim e = Z.to_nat d
  /\ length (emb_weight e) = Z.to_nat n
  /\ has_width (Z.to_nat d) (emb_weight e).
Proof.
  unfold Embedding_init.
  destruct (_ || _) eqn:Hrange; [discriminate|].
  destruct (n =? 0) eqn:Hn; [discriminate|]. intros [= <-]. simpl.
  apply Z.eqb_neq in Hn.
  repeat (apply orb_false_elim in Hrange as [Hrange ?]).
  repeat match goal with H : (_ <? _) = false |- _ => apply Z.ltb_ge in H end.
  repeat split; try lia;
    [apply tabulate_length | apply tabulate_has_width].
Qed.

(** A lookup of codes that all lie below the number of rows succeeds and
    returns, row by row, the rows of the table. *)
Lemma Embedding_forward1_in_range (e : @Embedding R) (codes : list Z) :
  Forall (fun c => 0 <= c < Z.of_nat (length (emb_weight e))) codes ->
  Embedding_forward1 e codes
  = Ok (map (fun c => default [] (emb_weight e !! Z.to_nat c)) codes).
Proof.
  intros H. unfold Embedding_forward1. apply rmapM_total.
  eapply Forall_impl; [exact H|]. intros c Hc. simpl in Hc.
  unfold embedding_lookup.
  destruct (c <? 0) eqn:Hneg; [apply Z.ltb_lt in Hneg; lia|].
  destruct (lookup_lt_is_Some_2 (emb_weight e) (Z.to_nat c)) as [r Hr]; [lia|].
  rewrite Hr. reflexivity.
Qed.

Lemma lookup_rows_width (d : nat) (w : list (list R)) (codes : list Z) :
  has_width d w ->
  Forall (fun c => 0 <= c < Z.of_nat (length w)) codes ->
  has_width d (map (fun c => default [] (w !! Z.to_nat c)) codes).
Proof.
  intros Hw Hc. unfold has_width. apply Forall_fmap.
  eapply Forall_impl; [exact Hc|]. intros c Hcr. simpl in *.
  destruct (lookup_lt_is_Some_2 w (Z.to_nat c)) as [r Hr]; [lia|].
  rewrite Hr. simpl. eapply (proj1 (Forall_lookup _ _) Hw); eauto.
Qed.

Lemma new_shared_vector_inv (name : string) (k : Z) (v : list R) :
  new_shared_vector name k = Ok v -> 0 <= k /\ length v = Z.to_nat k.
Proof.
  unfold new_shared_vector. destruct (_ || _) eqn:Hr; [discriminate|].
  intros [= <-]. apply orb_false_elim in Hr as [Hr _]. apply Z.ltb_ge in Hr.
  split; [lia | apply tabulate_length].
Qed.

Lemma SharedEmbeddings_init_inv (name : string) (n_embed embed_dim : Z)
    (embed_dropout : PyFloat) (full_embed_dropout add_shared_embed : bool)
    (frac_shared_embed : PyFloat) (m : SharedEmbeddings) :
  SharedEmbeddings_init name n_embed embed_dim embed_dropout full_embed_dropout
    add_shared_embed frac_shared_embed = Ok m ->
  float_lt frac_shared_embed float_one = true
  /\ se_add_shared_embed m = add_shared_embed
  /\ 1 <= n_embed /\ 0 <= embed_dim
  /\ embedding_dim (se_embed m) = Z.to_nat embed_dim
  /\ length (emb_weight (se_embed m)) = Z.to_nat n_embed
  /\ has_width (Z.to_nat embed_dim) (emb_weight (se_embed m))
  /\ (exists k, col_embed_dim add_shared_embed embed_dim frac_shared_embed = Ok k
                /\ 0 <= k /\ length (se_shared_embed m) = Z.to_nat k)
  /\ DropoutLayers_init full_embed_dropout embed_dropout = Ok (se_dropout m).
Proof.
  unfold SharedEmbeddings_init.
  destruct (float_lt frac_shared_embed float_one); [|discriminate]. simpl.
  intros H.
  apply rbind_Ok in H as (e & He & H).
  apply rbind_Ok in H as (k & Hk & H).
  apply rbind_Ok in H as (v & Hv & H).
  apply rbind_Ok in H as (d & Hd & [= <-]). simpl.
  apply Embedding_init_inv in He as (Hn & Hdim & He1 & He2 & He3).
  apply new_shared_vector_inv in Hv as [Hk0 Hvl].
  repeat split; try assumption; try lia.
  - now rewrite length_map.
  - unfold has_width in *. apply Forall_fmap.
    eapply Forall_impl; [exact He3|]. intros r Hr. simpl. now rewrite length_map.
  - exists k. auto.
Qed.


(** The forward pass of a constructed wrapper in evaluation mode, on codes
    that index the table: lookup, then the combination with the shared
    vector. *)
Lemma SharedEmbeddings_forward_eval (name : string) (n_embed embed_dim : Z)
    (embed_dropout : PyFloat) (full_embed_dropout add_shared_embed : bool)
    (frac_shared_embed : PyFloat) (m : SharedEmbeddings) (X : list Z) :
  SharedEmbeddings_init name n_embed embed_dim embed_dropout full_embed_dropout
    add_shared_embed frac_shared_embed = Ok m ->
  Forall (fun c => 0 <= c < n_embed) X ->
  (full_embed_dropout = false -> prob_in_range embed_dropout = true) ->
  let lookup := map (fun c => default [] (emb_weight (se_embed m) !! Z.to_nat c)) X in
  Embedding_forward1 (se_embed m) X = Ok lookup
  /\ has_width (Z.to_nat embed_dim) lookup
  /\ SharedEmbeddings_forward (SharedEmbeddings_train false m) X
     = if add_shared_embed
       then add_shared (Z.to_nat embed_dim) (se_shared_embed m) lookup
       else overwrite_shared (Z.to_nat embed_dim) (se_shared_embed m) lookup.
Proof.
  intros Hinit Hcodes Hp lookup.
  apply SharedEmbeddings_init_inv in Hinit
    as (_ & Hadd & Hn & Hd & Hdim & Hrows & Hw & _ & Hdrop).
  assert (Hcodes' : Forall (fun c => 0 <= c < Z.of_nat (length (emb_weight (se_embed m)))) X).
  { eapply Forall_impl; [exact Hcodes|]. intros c Hc. simpl in *. lia. }
  assert (Hl := Embedding_forward1_in_range _ _ Hcodes'). fold lookup in Hl.
  split; [exact Hl|]. split; [apply lookup_rows_width; assumption|].
  unfold SharedEmbeddings_forward. cbn [SharedEmbeddings_train se_embed se_dropout
    se_add_shared_embed se_shared_embed].
  rewrite Hl. cbn [rbind].
  rewrite (DropoutLayers_eval2 _ _ _ _ Hdrop Hp). cbn [rbind].
  rewrite Hadd, Hdim. reflexivity.
Qed.


(** C5. Overwrite mode, evaluation mode, [frac_shared_embed] one of 0.1,
    0.25 and 0.5.  For a constructed wrapper, codes that index its table
    and, when the dropout layer is [nn.Dropout], a dropout probability in
    [0, 1], the forward pass returns one row per code; the shared width
    [int(embed_dim * frac_shared_embed)] is at most the embedding width;
    the first [shared_width] entries of every output row are the shared
    vector and the remaining ones are those of the row looked up in the
    table. *)
Theorem SharedEmbeddings_overwrite_mode
    (name : string) (n_embed embed_dim : Z) (embed_dropout : PyFloat)
    (full_embed_dropout : bool) (frac_shared_embed : PyFloat)
    (m : SharedEmbeddings) (X : list Z)
    (Hfrac : frac_shared_embed = float_0_1 \/ frac_shared_embed = float_0_25
             \/ frac_shared_embed = float_0_5)
    (Hinit : SharedEmbeddings_init name n_embed embed_dim embed_dropout
               full_embed_dropout false frac_shared_embed = Ok m)
    (Hp : full_embed_dropout = false -> prob_in_range embed_dropout = true)
    (Hcodes : Forall (fun c => 0 <= c < n_embed) X) :
  exists shared_width lookup out,
    (f <~ int_mul_float embed_dim frac_shared_embed ;; int_of_float f)
    = Ok shared_width
    /\ 0 <= shared_width <= embed_dim
    /\ length (se_shared_embed m) = Z.to_nat shared_width
    /\ Embedding_forward1 (se_embed m) X = Ok lookup
    /\ SharedEmbeddings_forward (SharedEmbeddings_train false m) X = Ok out
    /\ length out = length X
    /\ forall n row,
         out !! n = Some row ->
         exists e,
           lookup !! n = Some e
           /\ length row = Z.to_nat embed_dim
           /\ take (Z.to_nat shared_width) row = se_shared_embed m
           /\ drop (Z.to_nat shared_width) row = drop (Z.to_nat shared_width) e.
Proof.
  destruct (SharedEmbeddings_init_inv _ _ _ _ _ _ _ _ Hinit)
    as (_ & _ & _ & Hd & _ & _ & _ & (k & Hk & Hk0 & Hlen) & _).
  destruct (shared_width_le_listed _ _ _ Hfrac Hd Hk) as [_ HkD].
  destruct (SharedEmbeddings_forward_eval _ _ _ _ _ _ _ _ X Hinit Hcodes Hp)
    as (Hl & Hw & Hf).
  set (lookup := map (fun c => default [] (emb_weight (se_embed m) !! Z.to_nat c)) X)
    in *.
  exists k, lookup,
    (map (fun r => se_shared_embed m ++ drop (length (se_shared_embed m)) r) lookup).
  split; [exact Hk|]. split; [lia|]. split; [exact Hlen|]. split; [exact Hl|].
  split.
  { rewrite Hf. unfold overwrite_shared.
    replace (length (se_shared_embed m) <=? Z.to_nat embed_dim)%nat with true;
      [reflexivity|].
    symmetry. apply Nat.leb_le. lia. }
  split; [unfold lookup; now rewrite !length_map|].
  intros n row Hrow. rewrite list_lookup_fmap in Hrow.
  destruct (lookup !! n) as [e|] eqn:He; [|discriminate].
  injection Hrow as <-. exists e. split; [reflexivity|].
  assert (Hel : length e = Z.to_nat embed_dim)
    by (eapply (proj1 (Forall_lookup _ _) Hw); eauto).
  rewrite <- Hlen. split; [|split].
  - rewrite length_app, length_drop. lia.
  - now rewrite take_app_length.
  - now rewrite drop_app_length.
Qed.


(** ** The variable-width categorical embedder *)

Lemma DiffSizeCatEmbeddings_init_inv (column_idx : gmap string Z)
    (embed_input : list (string * Z * Z)) (embed_dropout : PyFloat)
    (m : DiffSizeCatEmbeddings) :
  DiffSizeCatEmbeddings_init column_idx embed_input embed_dropout = Ok m ->
  exists layers,
    ModuleDict_build (fun e => e.1.1)
      (fun e => Embedding_init (layer_key e.1.1) (e.1.2 + 1) e.2) embed_input
    = Ok layers
    /\ check_p embed_dropout = Ok tt
    /\ m = {| dce_column_idx := column_idx;
              dce_embed_input := embed_input;
              dce_embed_layers := layers;
              dce_embedding_dropout := {| dp_p := embed_dropout; dp_training := true |};
              dce_emb_out_dim := np_sum_int (map (fun e => e.2) embed_input);
              dce_training := true |}.
Proof.
  unfold DiffSizeCatEmbeddings_init. intros H.
  apply rbind_Ok in H as (layers & Hl & H).
  apply rbind_Ok in H as (d & Hd & [= <-]).
  apply Dropout_init_inv in Hd as [Hp ->]. eauto.
Qed.

(** Every table of a constructed embedder has [cardinality + 1] rows and
    the width of its column, provided no column is listed twice. *)
Lemma DiffSizeCatEmbeddings_tables (column_idx : gmap string Z)
    (embed_input : list (string * Z * Z)) (embed_dropout : PyFloat)
    (m : DiffSizeCatEmbeddings) :
  DiffSizeCatEmbeddings_init column_idx embed_input embed_dropout = Ok m ->
  NoDup (map col_of embed_input) ->
  forall e, e ∈ embed_input ->
    0 <= card_of e /\ 0 <= dim_of e
    /\ exists layer,
         dce_embed_layers m !! layer_key (col_of e) = Some layer
         /\ length (emb_weight layer) = Z.to_nat (card_of e + 1)
         /\ embedding_dim layer = Z.to_nat (dim_of e)
         /\ has_width (Z.to_nat (dim_of e)) (emb_weight layer).
Proof.
  intros Hinit Hnd e He.
  apply DiffSizeCatEmbeddings_init_inv in Hinit as (layers & Hb & _ & ->).
  destruct (ModuleDict_build_lookup _ _ _ _ Hb Hnd e He) as (layer & Hmk & Hl).
  apply Embedding_init_inv in Hmk as (Hn & Hd & H1 & H2 & H3).
  unfold card_of, dim_of, col_of. repeat split; try lia.
  exists layer. simpl. auto.
Qed.

Lemma dropout_mat_width (p : PyFloat) (off d : nat) (x : list (list R)) :
  has_width d x -> has_width d (dropout_mat p off x).
Proof.
  intros H. exact (proj2 (dropout_mat_shape p off (length x) d x (conj eq_refl H))).
Qed.

Lemma Dropout_forward2_shape (p : PyFloat) (mode : bool) (d : nat)
    (x : list (list R)) :
  prob_in_range p = true -> has_width d x ->
  exists out,
    Dropout_forward2 {| dp_p := p; dp_training := mode |} x = Ok out
    /\ length out = length x /\ has_width d out.
Proof.
  intros Hr Hx. destruct (prob_in_range_checks p Hr) as [Hp Hn].
  unfold Dropout_forward2, F_dropout2. simpl. rewrite Hp. cbn [rbind].
  rewrite Hn. cbn [rbind].
  destruct mode.
  - exists (dropout_mat p 0 x). split; [reflexivity|]. split.
    + unfold dropout_mat. now rewrite length_imap.
    + now apply dropout_mat_width.
  - exists x. auto.
Qed.

Lemma DiffSizeCatEmbeddings_forward_ok (column_idx : gmap string Z)
    (embed_input : list (string * Z * Z)) (embed_dropout : PyFloat)
    (m : DiffSizeCatEmbeddings) (X : Batch A) (mode : bool) :
  DiffSizeCatEmbeddings_init column_idx embed_input embed_dropout = Ok m ->
  prob_in_range embed_dropout = true ->
  NoDup (map col_of embed_input) ->
  embed_input <> [] ->
  codes_in_range column_idx embed_input X ->
  exists out,
    DiffSizeCatEmbeddings_forward (DiffSizeCatEmbeddings_train mode m) X = Ok out
    /\ length out = length (rows X)
    /\ has_width (sum_list (map (fun e => Z.to_nat (dim_of e)) embed_input)) out.
Proof.
  intros Hinit Hprob Hnd Hne Hcodes.
  assert (Htab := DiffSizeCatEmbeddings_tables _ _ _ _ Hinit Hnd).
  apply DiffSizeCatEmbeddings_init_inv in Hinit as (layers & Hb & Hp & ->).
  unfold DiffSizeCatEmbeddings_forward. simpl in *.
  match goal with
  | |- context [rmapM ?f embed_input] =>
      destruct (rmapM_Forall_Ok f
                  (fun e t => length t = length (rows X)
                              /\ has_width (Z.to_nat (dim_of e)) t) embed_input)
        as (embed & Hembed & Hshape)
  end.
  { apply Forall_forall. intros e He.
    destruct (Htab e He) as (Hc & Hd & layer & Hl & Hrows & Hdim & Hw).
    destruct (Hcodes e He) as (i & codes & Hi & Hsel & Hrange).
    unfold col_of in *. unfold ModuleDict_get, dict_get. rewrite Hl, Hi. simpl.
    rewrite Hsel. simpl.
    assert (Hr : Forall (fun c => 0 <= c < Z.of_nat (length (emb_weight layer)))
                   (map to_long codes)).
    { apply Forall_fmap. eapply Forall_impl; [exact Hrange|].
      intros a Ha. simpl in *. lia. }
    rewrite (Embedding_forward1_in_range _ _ Hr). eexists. split; [reflexivity|].
    split.
    - rewrite !length_map. unfold select_col in Hsel.
      apply rbind_Ok in Hsel as (j & _ & Hsel). now apply rmapM_length in Hsel.
    - apply lookup_rows_width; assumption. }
  rewrite Hembed. simpl.
  destruct (cat_dim1_shape _ _ _ _ Hne Hshape) as (x & Hx & Hxl & Hxw).
  rewrite Hx. simpl.
  destruct (Dropout_forward2_shape embed_dropout mode _ x Hprob Hxw)
    as (out & Hout & Hol & How).
  unfold Dropout_train. simpl. exists out. split; [exact Hout|].
  split; [congruence | exact How].
Qed.

(** The tensors looked up by the forward pass, one per entry of the spec:
    for codes in range every lookup succeeds, listed columns or not. *)
Lemma DiffSizeCatEmbeddings_lookups_ok (column_idx : gmap string Z)
    (embed_input : list (string * Z * Z)) (embed_dropout : PyFloat)
    (m : DiffSizeCatEmbeddings) (X : Batch A) (mode : bool) :
  DiffSizeCatEmbeddings_init column_idx embed_input embed_dropout = Ok m ->
  codes_in_range column_idx embed_input X ->
  exists embed,
    rmapM (fun e =>
             layer <~ ModuleDict_get
                        (dce_embed_layers (DiffSizeCatEmbeddings_train mode m))
                        (layer_key e.1.1) ;;
             i <~ dict_get (dce_column_idx (DiffSizeCatEmbeddings_train mode m)) e.1.1 ;;
             codes <~ select_col X i ;;
             Embedding_forward1 layer (map to_long codes))
      (dce_embed_input (DiffSizeCatEmbeddings_train mode m)) = Ok embed
    /\ Forall2 (fun e t =>
                  length t = length (rows X)
                  /\ has_width
                       (match dce_embed_layers m !! layer_key (col_of e) with
                        | Some layer => embedding_dim layer
                        | None => 0%nat
                        end) t) embed_input embed.
Proof.
  intros Hinit Hcodes.
  apply DiffSizeCatEmbeddings_init_inv in Hinit as (layers & Hb & _ & ->).
  cbn [DiffSizeCatEmbeddings_train dce_embed_layers dce_column_idx dce_embed_input].
  apply rmapM_Forall_Ok. apply Forall_forall. intros e He.
  destruct (ModuleDict_build_some _ _ _ _ Hb e He)
    as (_ & e' & layer & He' & Hcol & Hmk & Hl).
  apply Embedding_init_inv in Hmk as (Hn & Hd & H1 & H2 & H3).
  destruct (Hcodes e He) as (i & codes & Hi & Hsel & _).
  destruct (Hcodes e' He') as (i' & codes' & Hi' & Hsel' & Hrange).
  unfold col_of in *. rewrite Hcol, Hi in Hi'. injection Hi' as <-.
  rewrite Hsel in Hsel'. injection Hsel' as <-.
  unfold ModuleDict_get, dict_get. rewrite Hl, Hi. cbn [rbind].
  rewrite Hsel. cbn [rbind].
  assert (Hr : Forall (fun c => 0 <= c < Z.of_nat (length (emb_weight layer)))
                 (map to_long codes)).
  { apply Forall_fmap. eapply Forall_impl; [exact Hrange|].
    intros a Ha. unfold card_of in Ha. simpl in *. lia. }
  rewrite (Embedding_forward1_in_range _ _ Hr). eexists. split; [reflexivity|].
  split.
  - rewrite !length_map. unfold select_col in Hsel.
    apply rbind_Ok in Hsel as (j & _ & Hsel). now apply rmapM_length in Hsel.
  - rewrite H1. apply lookup_rows_width; assumption.
Qed.

(** C10. Every table of the variable-width categorical embedder is created
    with [cardinality + 1] rows.  When the batch holds, in each categorical
    column, codes between 0 and the cardinality, every lookup of the
    forward pass finds its row: the forward pass never raises [IndexError],
    in training as in evaluation mode, and with at least one column in the
    spec and a dropout probability in [0, 1] it returns its output. *)
Theorem DiffSizeCatEmbeddings_lookups_in_bounds
    (column_idx : gmap string Z) (embed_input : list (string * Z * Z))
    (embed_dropout : PyFloat) (m : DiffSizeCatEmbeddings) (X : Batch A)
    (Hinit : DiffSizeCatEmbeddings_init column_idx embed_input embed_dropout = Ok m)
    (Hcodes : codes_in_range column_idx embed_input X) :
  (forall e, e ∈ embed_input ->
     exists t,
       Embedding_init (layer_key (col_of e)) (card_of e + 1) (dim_of e) = Ok t
       /\ length (emb_weight t) = Z.to_nat (card_of e + 1))
  /\ (forall e, e ∈ embed_input ->
       exists layer i codes,
         dce_embed_layers m !! layer_key (col_of e) = Some layer
         /\ (NoDup (map col_of embed_input) ->
             length (emb_weight layer) = Z.to_nat (card_of e + 1))
         /\ column_idx !! col_of e = Some i
         /\ select_col X i = Ok codes
         /\ Forall (fun a => is_ok (embedding_lookup layer (to_long a)) = true) codes)
  /\ (forall mode,
        DiffSizeCatEmbeddings_forward (DiffSizeCatEmbeddings_train mode m) X
        <> Raise IndexError)
  /\ (embed_input <> [] -> prob_in_range embed_dropout = true ->
      forall mode, exists out,
        DiffSizeCatEmbeddings_forward (DiffSizeCatEmbeddings_train mode m) X = Ok out
        /\ length out = length (rows X)).
Proof.
  destruct (DiffSizeCatEmbeddings_init_inv _ _ _ _ Hinit) as (layers & Hb & Hp & Hm).
  split; [|split; [|split]].
  - intros e He.
    destruct (ModuleDict_build_some _ _ _ _ Hb e He) as (Hok & _).
    unfold col_of, card_of, dim_of.
    destruct (Embedding_init (layer_key e.1.1) (e.1.2 + 1) e.2) as [t|err] eqn:Ht;
      [|discriminate].
    exists t. split; [reflexivity|].
    now apply Embedding_init_inv in Ht as (_ & _ & _ & Hl & _).
  - intros e He.
    destruct (ModuleDict_build_some _ _ _ _ Hb e He)
      as (_ & e' & layer & He' & Hcol & Hmk & Hl).
    destruct (Hcodes e He) as (i & codes & Hi & Hsel & _).
    destruct (Hcodes e' He') as (i' & codes' & Hi' & Hsel' & Hrange).
    unfold col_of in *. rewrite Hcol, Hi in Hi'. injection Hi' as <-.
    rewrite Hsel in Hsel'. injection Hsel' as <-.
    exists layer, i, codes. subst m. cbn [dce_embed_layers].
    split; [exact Hl|]. split; [|split; [exact Hi|split; [exact Hsel|]]].
    + intros Hnd.
      destruct (ModuleDict_build_lookup _ _ _ _ Hb Hnd e He) as (layer' & Hmk' & Hl').
      rewrite Hl in Hl'. injection Hl' as <-.
      now apply Embedding_init_inv in Hmk' as (_ & _ & _ & Hlen & _).
    + apply Embedding_init_inv in Hmk as (Hn & Hd & H1 & H2 & H3).
      eapply Forall_impl; [exact Hrange|]. intros a Ha. unfold card_of in Ha.
      simpl in Ha. unfold embedding_lookup.
      destruct (to_long a <? 0) eqn:Hneg; [apply Z.ltb_lt in Hneg; lia|].
      destruct (lookup_lt_is_Some_2 (emb_weight layer) (Z.to_nat (to_long a)))
        as [r Hr]; [lia|].
      rewrite Hr. reflexivity.
  - intros mode.
    destruct (DiffSizeCatEmbeddings_lookups_ok _ _ _ _ X mode Hinit Hcodes)
      as (embed & Hembed & _).
    unfold DiffSizeCatEmbeddings_forward. rewrite Hembed. cbn [rbind].
    destruct (cat_dim1 embed) as [x|err] eqn:Hcat; cbn [rbind].
    + unfold Dropout_forward2, F_dropout2, check_p, check_p_native.
      destruct (_ || _); cbn [rbind]; [discriminate|].
      destruct (prob_in_range _); cbn [rbind]; discriminate.
    + destruct (cat_dim1_raises _ _ Hcat) as [-> | ->]; discriminate.
  - intros Hne Hr mode.
    destruct (DiffSizeCatEmbeddings_lookups_ok _ _ _ _ X mode Hinit Hcodes)
      as (embed & Hembed & Hshape).
    unfold DiffSizeCatEmbeddings_forward. rewrite Hembed. cbn [rbind].
    destruct (cat_dim1_shape _ _ _ _ Hne Hshape) as (x & Hx & Hxl & Hxw).
    rewrite Hx. cbn [rbind]. subst m.
    cbn [DiffSizeCatEmbeddings_train dce_embedding_dropout Dropout_train dp_p].
    destruct (Dropout_forward2_shape embed_dropout mode _ x Hr Hxw)
      as (out & Hout & Hol & _).
    exists out. split; [exact Hout | congruence].
Qed.

(** ** The composite embedders *)

Lemma wrap64_small (z : Z) : 0 <= z <= int64_max -> wrap64 z = z.
Proof.
  unfold wrap64, int64_max. intros H.
  rewrite Z.mod_small by lia. lia.
Qed.

Lemma norm_index_Ok (size : nat) (i : Z) (j : nat) :
  norm_index size i = Ok j -> (j < size)%nat.
Proof.
  unfold norm_index.
  destruct ((0 <=? i) && (i <? Z.of_nat size)) eqn:H1.
  - intros [= <-]. apply andb_true_iff in H1 as [H0 H1].
    apply Z.leb_le in H0. apply Z.ltb_lt in H1. lia.
  - destruct ((i <? 0) && (- Z.of_nat size <=? i)) eqn:H2; [|discriminate].
    intros [= <-]. apply andb_true_iff in H2 as [H0 H2].
    apply Z.ltb_lt in H0. apply Z.leb_le in H2. lia.
Qed.

Lemma select_cols_shape (X : Batch A) (idx : list Z) :
  wf_batch X ->
  Forall (fun i => is_ok (norm_index (n_features X) i) = true) idx ->
  exists sel,
    select_cols X idx = Ok sel
    /\ length sel = length (rows X)
    /\ has_width (length idx) sel.
Proof.
  intros Hwf Hidx. unfold select_cols.
  destruct (rmapM_Forall_Ok (norm_index (n_features X))
              (fun _ j => (j < n_features X)%nat) idx) as (js & Hjs & Hlt).
  { eapply Forall_impl; [exact Hidx|]. intros i Hi. simpl in Hi.
    destruct (norm_index (n_features X) i) as [j|] eqn:Hj; [|discriminate].
    exists j. split; [reflexivity|]. now apply norm_index_Ok in Hj. }
  rewrite Hjs. simpl.
  assert (Hlen : length js = length idx)
    by (symmetry; eapply Forall2_length; eauto).
  assert (Hjs' : Forall (fun j => (j < n_features X)%nat) js).
  { clear -Hlt. induction Hlt; constructor; auto. }
  destruct (rmapM_Forall_Ok (fun r => rmapM (row_get r) js)
              (fun _ t => length t = length idx) (rows X)) as (sel & Hsel & Hsh).
  { eapply Forall_impl; [exact Hwf|]. intros r Hr. simpl in Hr.
    destruct (rmapM_Forall_Ok (row_get r) (fun _ _ => True) js) as (t & Ht & _).
    { eapply Forall_impl; [exact Hjs'|]. intros j Hj. simpl in Hj.
      unfold row_get.
      destruct (lookup_lt_is_Some_2 r j) as [a Ha]; [lia|].
      rewrite Ha. eauto. }
    exists t. split; [exact Ht|]. apply rmapM_length in Ht. congruence. }
  exists sel. split; [exact Hsel|]. split.
  - symmetry. eapply Forall2_length; eauto.
  - unfold has_width. clear -Hsh. induction Hsh; constructor; auto.
Qed.

Lemma all_width_true (n : nat) (x : list (list R)) :
  has_width n x -> all_width n x = true.
Proof.
  intros H. unfold all_width. apply forallb_forall. intros r Hr.
  apply Nat.eqb_eq. apply (proj1 (List.Forall_forall _ _) H r Hr).
Qed.

Lemma NormLayers_forward_shape (cont_norm_layer : option string) (n : nat)
    (mode : bool) (x : list (list R)) :
  has_width n x ->
  (mode = true -> cont_norm_layer = Some "batchnorm" -> length x <> 1%nat) ->
  exists out,
    NormLayers_forward (NormLayers_train mode (NormLayers_init cont_norm_layer n)) x
    = Ok out
    /\ length out = length x /\ has_width n out.
Proof.
  intros Hx Hbn. unfold NormLayers_init.
  destruct cont_norm_layer as [name|]; [|exists x; auto].
  destruct (String.eqb name "layernorm") eqn:Hln.
  - simpl. rewrite (all_width_true _ _ Hx).
    exists (map layer_norm x). split; [reflexivity|].
    split; [now rewrite length_map|].
    unfold has_width. apply Forall_fmap. eapply Forall_impl; [exact Hx|].
    intros r Hr. simpl. now rewrite layer_norm_length.
  - destruct (String.eqb name "batchnorm") eqn:Hbname; [|exists x; auto].
    apply String.eqb_eq in Hbname. subst name. simpl.
    assert (Hchk : mode && Nat.eqb (length x) 1 = false).
    { destruct mode; [|reflexivity]. simpl. apply Nat.eqb_neq. now apply Hbn. }
    rewrite Hchk, (all_width_true _ _ Hx).
    exists (batch_norm mode x). split; [reflexivity|].
    assert (Hsh := batch_norm_shape mode x).
    split; [symmetry; eapply Forall2_length; eauto|].
    unfold has_width in *. clear -Hx Hsh.
    induction Hsh as [|r r' l l' Hr _ IH]; [constructor|].
    inversion Hx; subst. constructor; [congruence | auto].
Qed.

Lemma concat_width (c d : nat) (mat : list (list R)) :
  length mat = c -> has_width d mat -> length (concat mat) = (c * d)%nat.
Proof.
  intros <- H. induction H as [|r mat Hr _ IH]; [reflexivity|].
  simpl. rewrite length_app, IH, Hr. reflexivity.
Qed.

Lemma rmapM_dict_get_positions (column_idx : gmap string Z) (cols : list string)
    (idx : list Z) (P : Z -> Prop) :
  rmapM (dict_get column_idx) cols = Ok idx ->
  (forall c, c ∈ cols -> exists i, column_idx !! c = Some i /\ P i) ->
  length idx = length cols /\ Forall P idx.
Proof.
  intros H Hc. apply rmapM_Ok_Forall2 in H.
  split; [symmetry; eapply Forall2_length; eauto|].
  induction H as [|c i cols idx Hci _ IH]; [constructor|].
  constructor.
  - destruct (Hc c) as (i' & Hi' & HP); [left|].
    unfold dict_get in Hci. rewrite Hi' in Hci. now injection Hci as <-.
  - apply IH. intros c' Hc'. apply Hc. now right.
Qed.

Lemma new_parameter_nonneg (name : string) (n d : Z) (t : list (list R)) :
  new_parameter name n d = Ok t -> 0 <= n /\ 0 <= d.
Proof.
  unfold new_parameter. destruct (_ || _) eqn:Hr; [discriminate|]. intros _.
  repeat (apply orb_false_elim in Hr as [Hr ?]).
  repeat match goal with H : (_ <? _) = false |- _ => apply Z.ltb_ge in H end.
  lia.
Qed.

Lemma sum_widths {S : Type} (f : S -> Z) (l : list S) :
  (forall e, e ∈ l -> 0 <= f e) ->
  Z.of_nat (sum_list (map (fun e => Z.to_nat (f e)) l)) = foldr Z.add 0 (map f l)
  /\ 0 <= foldr Z.add 0 (map f l).
Proof.
  induction l as [|e l IH]; intros H; simpl; [lia|].
  destruct IH as [IH1 IH2]; [intros e' He'; apply H; now right|].
  assert (0 <= f e) by (apply H; now left). lia.
Qed.

Lemma ContEmbeddings_forward_shape (n_cont_cols embed_dim : Z)
    (embed_dropout : PyFloat) (use_bias : bool) (activation : option string)
    (m : ContEmbeddings) (X : list (list R)) (mode : bool) :
  ContEmbeddings_init n_cont_cols embed_dim embed_dropout use_bias activation = Ok m ->
  prob_in_range embed_dropout = true ->
  has_width (Z.to_nat n_cont_cols) X ->
  0 <= embed_dim
  /\ exists out,
       ContEmbeddings_forward (ContEmbeddings_train mode m) X = Ok out
       /\ has_shape3 (length X) (Z.to_nat n_cont_cols) (Z.to_nat embed_dim) out.
Proof.
  intros Hinit Hp HX.
  destruct (ContEmbeddings_init_inv _ _ _ _ _ _ Hinit)
    as (Hdp & Htr & Hc & Hw & Hbias).
  assert (Hd : 0 <= embed_dim).
  { unfold ContEmbeddings_init in Hinit.
    apply rbind_Ok in Hinit as (w & Hwp & _).
    now apply new_parameter_nonneg in Hwp. }
  split; [exact Hd|].
  assert (Hb : forall b, ce_bias m = Some b ->
               length b = Z.to_nat n_cont_cols /\ has_width (Z.to_nat embed_dim) b).
  { intros b Hbm. destruct use_bias.
    - destruct Hbias as (b0 & Hb0 & Hl & Hwd). rewrite Hb0 in Hbm.
      injection Hbm as <-. auto.
    - rewrite Hbias in Hbm. discriminate. }
  assert (Hshape : has_shape3 (length X) (Z.to_nat n_cont_cols) (Z.to_nat embed_dim)
                     (cont_formula (ContEmbeddings_train mode m) X))
    by (apply cont_formula_shape; assumption).
  rewrite (ContEmbeddings_forward_eq _ (Z.to_nat n_cont_cols) (Z.to_nat embed_dim));
    try assumption.
  cbn [ContEmbeddings_train ce_embed_dropout ce_training].
  rewrite Hdp.
  destruct mode; eexists;
    (split; [first [apply F_dropout3_training | apply F_dropout3_eval]; exact Hp|]);
    [|exact Hshape].
  apply dropout_cube_shape. exact Hshape.
Qed.

(** The categorical branch of the variable-width composite. *)
Lemma cat_branch_ok (column_idx : gmap string Z) (ei : list (string * Z * Z))
    (p : PyFloat) (ce : DiffSizeCatEmbeddings) (X : Batch A) (mode : bool) :
  DiffSizeCatEmbeddings_init column_idx ei p = Ok ce ->
  prob_in_range p = true ->
  ei <> [] -> NoDup (map col_of ei) ->
  foldr Z.add 0 (map dim_of ei) <= int64_max ->
  codes_in_range column_idx ei X ->
  np_sum_int (map (fun e => e.2) ei) = foldr Z.add 0 (map dim_of ei)
  /\ exists out w,
       DiffSizeCatEmbeddings_forward (DiffSizeCatEmbeddings_train mode ce) X = Ok out
       /\ length out = length (rows X)
       /\ has_width w out
       /\ Z.of_nat w = foldr Z.add 0 (map dim_of ei).
Proof.
  intros Hinit Hprob Hne Hnd Hsum Hcodes.
  destruct (sum_widths dim_of ei) as [Hw1 Hw2].
  { intros e He.
    destruct (DiffSizeCatEmbeddings_tables _ _ _ _ Hinit Hnd e He) as (_ & Hd & _).
    exact Hd. }
  split.
  - unfold np_sum_int. apply wrap64_small. split; assumption.
  - destruct (DiffSizeCatEmbeddings_forward_ok _ _ _ _ X mode Hinit Hprob Hnd Hne
                Hcodes) as (out & Hout & Hl & Hw).
    eauto 10.
Qed.

(** The continuous branch before the optional embedding. *)
Lemma cont_branch_ok (column_idx : gmap string Z) (cols : list string)
    (cont_idx : list Z) (cont_norm_layer : option string) (X : Batch A)
    (mode : bool) :
  rmapM (dict_get column_idx) cols = Ok cont_idx ->
  wf_batch X ->
  (forall c, c ∈ cols ->
     exists i, column_idx !! c = Some i
               /\ is_ok (norm_index (n_features X) i) = true) ->
  (mode = true -> cont_norm_layer = Some "batchnorm" ->
   length (rows X) <> 1%nat) ->
  exists x,
    cont_branch (Some cont_idx)
      (Some (NormLayers_train mode (NormLayers_init cont_norm_layer (length cols))))
      X = Ok x
    /\ length x = length (rows X)
    /\ has_width (length cols) x.
Proof.
  intros Hidx Hwf Hcols Hbn.
  destruct (rmapM_dict_get_positions _ _ _ _ Hidx Hcols) as [Hlen Hpos].
  destruct (select_cols_shape X cont_idx Hwf Hpos) as (sel & Hsel & Hsl & Hsw).
  unfold cont_branch. cbn [read_attr rbind]. rewrite Hsel. cbn [rbind].
  destruct (NormLayers_forward_shape cont_norm_layer (length cols) mode
              (map (map to_float) sel)) as (x & Hx & Hxl & Hxw).
  - unfold has_width in *. apply Forall_fmap.
    eapply Forall_impl; [exact Hsw|]. intros r Hr. simpl.
    rewrite length_map. congruence.
  - rewrite length_map, Hsl. exact Hbn.
  - exists x. rewrite length_map in Hxl. split; [exact Hx|].
    split; [congruence | exact Hxw].
Qed.

Lemma flatten_shape (n c d : nat) (x3 : list (list (list R))) :
  has_shape3 n c d x3 ->
  length (map (@concat R) x3) = n /\ has_width (c * d) (map (@concat R) x3).
Proof.
  intros [Hn Hx]. split; [now rewrite length_map|].
  unfold has_width. apply Forall_fmap. eapply Forall_impl; [exact Hx|].
  intros mat [Hc Hd]. simpl. now apply concat_width.
Qed.

Lemma SameSize_no_output_dim (m : @SameSizeCatAndContEmbeddings R) :
  getattr (SameSizeCatAndContEmbeddings_dict m) "output_dim" = Raise AttributeError.
Proof.
  unfold SameSizeCatAndContEmbeddings_dict.
  destruct (scc_cat_embed m), (scc_cont_idx m), (scc_cont_norm m),
    (scc_cont_embed m); reflexivity.
Qed.

Lemma DiffSize_output_dim_attr (m : @DiffSizeCatAndContEmbeddings R) :
  getattr (DiffSizeCatAndContEmbeddings_dict m) "output_dim"
  = Ok (VInt (dcc_output_dim m)).
Proof.
  unfold DiffSizeCatAndContEmbeddings_dict.
  destruct (dcc_cat_embed m), (dcc_cont_idx m), (dcc_cont_norm m),
    (dcc_cont_embed m); reflexivity.
Qed.

(** C1, as the code has it.  The variable-width composite computes
    [output_dim] in its constructor, from the specs alone, as the sum of
    the categorical widths plus C*D (embedded) or C (raw) for the
    continuous columns.  For a valid spec (at least one categorical column
    when the categorical spec is given, no column listed twice, total width
    within int64, dropout probabilities of the layers that are built in
    [0, 1]) and a well-formed batch holding the columns of the spec with
    codes in range, the forward pass returns its two branches, whose widths
    add up to [output_dim]; in training mode batch normalisation needs more
    than one row.  The fixed-width composite has no [output_dim]
    attribute. *)
Theorem DiffSizeCatAndContEmbeddings_output_dim
    (column_idx : gmap string Z) (cat_embed_input : option (list (string * Z * Z)))
    (cat_embed_dropout : PyFloat) (continuous_cols : option (list string))
    (embed_continuous : bool) (cont_embed_dim : Z) (cont_embed_dropout : PyFloat)
    (cont_embed_activation : option string) (use_cont_bias : bool)
    (cont_norm_layer : option string)
    (m : DiffSizeCatAndContEmbeddings) (X : Batch A) (mode : bool)
    (Hinit : DiffSizeCatAndContEmbeddings_init column_idx cat_embed_input
               cat_embed_dropout continuous_cols embed_continuous cont_embed_dim
               cont_embed_dropout cont_embed_activation use_cont_bias
               cont_norm_layer = Ok m)
    (Hspec : cat_spec_ok cat_embed_input)
    (Hpcat : cat_embed_input <> None -> prob_in_range cat_embed_dropout = true)
    (Hp : continuous_cols <> None -> embed_continuous = true ->
          prob_in_range cont_embed_dropout = true)
    (Hbatch : batch_ok column_idx cat_embed_input continuous_cols X)
    (Hbn : mode = true -> cont_norm_layer = Some "batchnorm" ->
           length (rows X) <> 1%nat) :
  getattr (DiffSizeCatAndContEmbeddings_dict m) "output_dim"
  = Ok (VInt (cat_width cat_embed_input
              + cont_width continuous_cols embed_continuous cont_embed_dim))
  /\ (exists x_cat x_cont wc wn,
        DiffSizeCatAndContEmbeddings_forward
          (DiffSizeCatAndContEmbeddings_train mode m) X = Ok (x_cat, x_cont)
        /\ branch_width wc x_cat /\ branch_width wn x_cont
        /\ branch_rows (length (rows X)) x_cat
        /\ branch_rows (length (rows X)) x_cont
        /\ Z.of_nat (wc + wn) = dcc_output_dim m)
  /\ (forall m' : @SameSizeCatAndContEmbeddings R,
        getattr (SameSizeCatAndContEmbeddings_dict m') "output_dim"
        = Raise AttributeError).
Proof.
  destruct Hbatch as (Hwf & Hcodes & Hcols).
  unfold DiffSizeCatAndContEmbeddings_init in Hinit.
  apply rbind_Ok in Hinit as (cat & Hcat & Hinit).
  apply rbind_Ok in Hinit as (cont & Hcont & [= <-]).
  (* the categorical branch *)
  assert (Hcatb : cat.2 = cat_width cat_embed_input
            /\ exists x_cat wc,
                 (match cat_embed_input with
                  | Some _ =>
                      ce <~ read_attr (DiffSizeCatEmbeddings_train mode <$> cat.1) ;;
                      x <~ DiffSizeCatEmbeddings_forward ce X ;; Ok (Some x)
                  | None => Ok None
                  end) = Ok x_cat
                 /\ branch_width wc x_cat
                 /\ branch_rows (length (rows X)) x_cat
                 /\ Z.of_nat wc = cat.2).
  { destruct cat_embed_input as [ei|].
    - apply rbind_Ok in Hcat as (ce & Hce & [= <-]).
      destruct (Hspec ei eq_refl) as (Hne & Hnd & Hsum).
      destruct (cat_branch_ok _ _ _ _ X mode Hce (Hpcat ltac:(discriminate)) Hne Hnd
                  Hsum (Hcodes ei eq_refl))
        as (Hnp & out & w & Hout & Hl & Hw & Hwz).
      cbn [fst snd cat_width fmap option_fmap option_map read_attr rbind].
      split; [exact Hnp|].
      exists (Some out), w. rewrite Hout. cbn [rbind branch_width branch_rows].
      repeat split; try assumption. congruence.
    - injection Hcat as <-. cbn [fst snd cat_width].
      split; [reflexivity|]. exists None, 0%nat. repeat split. }
  (* the continuous branch *)
  assert (Hcontb : cont.2 = cont_width continuous_cols embed_continuous cont_embed_dim
            /\ exists x_cont wn,
                 (match continuous_cols with
                  | Some _ =>
                      x <~ cont_branch cont.1.1.1
                             (NormLayers_train mode <$> cont.1.1.2) X ;;
                      if embed_continuous then
                        ce <~ read_attr (ContEmbeddings_train mode <$> cont.1.2) ;;
                        x3 <~ ContEmbeddings_forward ce x ;;
                        Ok (Some (map (@concat R) x3))
                      else Ok (Some x)
                  | None => Ok None
                  end) = Ok x_cont
                 /\ branch_width wn x_cont
                 /\ branch_rows (length (rows X)) x_cont
                 /\ Z.of_nat wn = cont.2).
  { destruct continuous_cols as [cols|].
    - apply rbind_Ok in Hcont as (cont_idx & Hidx & Hcont).
      destruct (cont_branch_ok _ _ _ cont_norm_layer X mode Hidx Hwf
                  (Hcols cols eq_refl) Hbn) as (x & Hx & Hxl & Hxw).
      destruct embed_continuous.
      + apply rbind_Ok in Hcont as (ce & Hce & [= <-]).
        cbn [fst snd cont_width fmap option_fmap option_map read_attr].
        split; [reflexivity|].
        rewrite Hx. cbn [rbind].
        rewrite <- (Nat2Z.id (length cols)) in Hxw.
        destruct (ContEmbeddings_forward_shape _ _ _ _ _ _ x mode Hce
                    (Hp ltac:(discriminate) eq_refl) Hxw)
          as (Hd & x3 & Hx3 & Hsh).
        rewrite Hx3. cbn [rbind].
        destruct (flatten_shape _ _ _ _ Hsh) as [Hfl Hfw].
        exists (Some (map (@concat R) x3)),
          (Z.to_nat (Z.of_nat (length cols)) * Z.to_nat cont_embed_dim)%nat.
        cbn [branch_width branch_rows].
        repeat split; try assumption; try congruence. lia.
      + injection Hcont as <-.
        cbn [fst snd cont_width fmap option_fmap option_map].
        split; [reflexivity|].
        rewrite Hx. cbn [rbind].
        exists (Some x), (length cols). cbn [branch_width branch_rows].
        repeat split; assumption.
    - injection Hcont as <-. cbn [fst snd cont_width].
      split; [reflexivity|]. exists None, 0%nat. repeat split. }
  destruct Hcatb as (Hcw & x_cat & wc & Hxc & Hbc & Hrc & Hwc).
  destruct Hcontb as (Hnw & x_cont & wn & Hxn & Hbw & Hrn & Hwn).
  split; [|split; [|apply SameSize_no_output_dim]].
  - rewrite DiffSize_output_dim_attr. cbn [dcc_output_dim]. now rewrite Hcw, Hnw.
  - exists x_cat, x_cont, wc, wn.
    unfold DiffSizeCatAndContEmbeddings_forward.
    cbn [DiffSizeCatAndContEmbeddings_train dcc_cat_embed_input dcc_cat_embed
         dcc_continuous_cols dcc_cont_idx dcc_cont_norm dcc_embed_continuous
         dcc_cont_embed dcc_output_dim].
    rewrite Hxc. cbn [rbind]. rewrite Hxn. cbn [rbind].
    repeat split; try assumption. lia.
Qed.

End Properties.

(** * Further properties of the embedding layers *)

Lemma cat_dim1_lookup {T : Type} (n : nat) (ts : list (list (list T)))
    (x : list (list T)) :
  cat_dim1 ts = Ok x ->
  Forall (fun t => length t = n) ts ->
  length x = n
  /\ forall i row, x !! i = Some row ->
       row = concat (map (fun t => default [] (t !! i)) ts).
Proof.
  revert x. induction ts as [|t ts IH]; intros x Hx Hlen; [discriminate|].
  destruct ts as [|t' ts'].
  - injection Hx as <-. inversion Hlen; subst. split; [reflexivity|].
    intros i row Hrow. simpl. rewrite Hrow. simpl. now rewrite app_nil_r.
  - change (cat_dim1 (t :: t' :: ts'))
      with (r <~ cat_dim1 (t' :: ts') ;;
            if Nat.eqb (length t) (length r) then Ok (zip_with app t r)
            else Raise RuntimeError) in Hx.
    apply rbind_Ok in Hx as (r & Hr & Hx).
    inversion Hlen as [|? ? Ht Hrest]; subst.
    destruct (IH r Hr Hrest) as [Hrl Hrows].
    rewrite Hrl, Nat.eqb_refl in Hx. injection Hx as <-.
    split; [rewrite length_zip_with; lia|].
    intros i row Hrow.
    apply lookup_zip_with_Some in Hrow as (a & b & -> & Ha & Hb).
    change (map (fun t0 => default [] (t0 !! i)) (t :: t' :: ts'))
      with (default [] (t !! i) :: map (fun t0 => default [] (t0 !! i)) (t' :: ts')).
    rewrite Ha. cbn [concat default from_option]. f_equal.
    now apply Hrows.
Qed.

Lemma select_col_lookup {A : Type} (X : Batch A) (i : Z) (codes : list A) :
  select_col X i = Ok codes ->
  exists j, norm_index (n_features X) i = Ok j
    /\ length codes = length (rows X)
    /\ forall n xs, rows X !! n = Some xs ->
         exists a, xs !! j = Some a /\ codes !! n = Some a.
Proof.
  unfold select_col. intros H. apply rbind_Ok in H as (j & Hj & H).
  exists j. split; [exact Hj|]. split; [now apply rmapM_length in H|].
  apply rmapM_Ok_Forall2 in H. intros n xs Hn.
  destruct (Forall2_lookup_l _ _ _ _ _ H Hn) as (a & Ha & Hget).
  unfold row_get in Hget. destruct (xs !! j) as [a'|]; [|discriminate].
  injection Hget as ->. eauto.
Qed.

Lemma Forall2_elem_impl {T U : Type} (P Q : T -> U -> Prop) (l : list T) (k : list U) :
  Forall2 P l k -> (forall x y, x ∈ l -> P x y -> Q x y) -> Forall2 Q l k.
Proof.
  induction 1 as [|x y l k Hxy _ IH]; intros H; constructor.
  - apply H; [left | exact Hxy].
  - apply IH. intros x' y' Hx'. apply H. now right.
Qed.

Lemma rmapM_raise_elem {T U : Type} (f : T -> result U) (l : list T) (x : T) :
  x ∈ l -> is_ok (f x) = false -> is_ok (rmapM f l) = false.
Proof.
  intros Hx Hf. destruct (rmapM f l) as [ys|] eqn:H; [|reflexivity].
  apply rmapM_Ok_Forall2 in H. apply list_elem_of_lookup in Hx as [i Hi].
  destruct (Forall2_lookup_l _ _ _ _ _ H Hi) as (y & _ & Hy).
  rewrite Hy in Hf. discriminate.
Qed.

(** When [f] can only raise [err], so can the traversal. *)
Lemma rmapM_raise_only {T U : Type} (err : PyError) (f : T -> result U) (l : list T) :
  (forall x, f x = Raise err \/ is_ok (f x) = true) ->
  rmapM f l = Raise err \/ is_ok (rmapM f l) = true.
Proof.
  intros Hf. induction l as [|x l IH]; simpl; [now right|].
  destruct (Hf x) as [Hx|Hx].
  - rewrite Hx. now left.
  - destruct (f x) as [y|]; [|discriminate]. simpl.
    destruct IH as [IH|IH].
    + rewrite IH. now left.
    + destruct (rmapM f l); [now right | discriminate].
Qed.

Lemma tabulate_const {T : Type} (n : nat) (x : T) : tabulate n (fun _ => x) = replicate n x.
Proof.
  unfold tabulate. generalize 0%nat. induction n as [|n IH]; intros s; simpl;
    [reflexivity|]. now rewrite IH.
Qed.

Lemma foldl_insert_last {M : Type} (kvs1 kvs2 : list (string * M)) (d : gmap string M)
    (k : string) (v : M) :
  k ∉ kvs2.*1 ->
  foldl (fun d kv => <[kv.1 := kv.2]> d) d (kvs1 ++ (k, v) :: kvs2) !! k = Some v.
Proof.
  intros Hk. rewrite foldl_app. simpl.
  rewrite (foldl_insert_notin _ _ _ Hk). apply lookup_insert_eq.
Qed.

(** In a dictionary filled from a spec, the module found under the key of a
    column is the one built from the last entry of that column. *)
Lemma ModuleDict_build_last {S M : Type} (col_of : S -> string) (mk : S -> result M)
    (l1 l2 : list S) (e : S) (d : gmap string M) :
  ModuleDict_build col_of mk (l1 ++ e :: l2) = Ok d ->
  col_of e ∉ map col_of l2 ->
  exists mo, mk e = Ok mo /\ d !! layer_key (col_of e) = Some mo.
Proof.
  unfold ModuleDict_build. intros H Hlast.
  apply rbind_Ok in H as (kvs & Hkvs & H).
  destruct (existsb _ kvs); [discriminate|]. injection H as <-.
  apply rmapM_Ok_Forall2 in Hkvs.
  apply Forall2_app_inv_l in Hkvs as (kvs1 & kvs' & H1 & H2 & ->).
  inversion H2 as [|? kv ? kvs2 He Hrest]; subst.
  apply rbind_Ok in He as (mo & Hmo & [= <-]).
  exists mo. split; [exact Hmo|].
  apply foldl_insert_last.
  assert (Hkeys : kvs2.*1 = map (fun s => layer_key (col_of s)) l2).
  { clear -Hrest. induction Hrest as [|x kv l k Hx _ IH]; [reflexivity|].
    apply rbind_Ok in Hx as (mo' & _ & [= <-]).
    rewrite fmap_cons. cbn [map fst]. f_equal. exact IH. }
  rewrite Hkeys. intros Hin. apply Hlast.
  apply list_elem_of_fmap in Hin as (s & Hs & Hin).
  apply (inj layer_key) in Hs. rewrite Hs.
  apply list_elem_of_fmap. eauto.
Qed.

Lemma select_cols_Ok_shape {A : Type} (X : Batch A) (idx : list Z) (sel : list (list A)) :
  select_cols X idx = Ok sel ->
  length sel = length (rows X) /\ has_width (length idx) sel.
Proof.
  unfold select_cols. intros H. apply rbind_Ok in H as (js & Hjs & H).
  apply rmapM_length in Hjs. split; [now apply rmapM_length in H|].
  apply rmapM_Ok_Forall2 in H. unfold has_width.
  induction H as [|r t rs ts Hr _ IH]; constructor; [|exact IH].
  apply rmapM_length in Hr. congruence.
Qed.

Lemma existsb_Forall2 {T U : Type} (P : T -> U -> Prop) (g : U -> bool)
    (l : list T) (k : list U) (x : T) :
  Forall2 P l k -> x ∈ l -> (forall y, P x y -> g y = true) -> existsb g k = true.
Proof.
  induction 1 as [|a b l k Hab _ IH]; intros Hx Hg; [inversion Hx|].
  simpl. apply elem_of_cons in Hx as [->|Hx].
  - rewrite (Hg b Hab). reflexivity.
  - rewrite (IH Hx Hg). apply orb_true_r.
Qed.

Lemma has_dot_layer_key (c : string) : has_dot (layer_key c) = has_dot c.
Proof. reflexivity. Qed.

Section MoreProperties.
Context {A R : Type} `{Eng : Engine A R}.

Lemma DiffSizeCatEmbeddings_rows_in_eval
    (column_idx : gmap string Z) (embed_input : list (string * Z * Z))
    (embed_dropout : PyFloat) (m : DiffSizeCatEmbeddings) (X : Batch A)
    (Hinit : DiffSizeCatEmbeddings_init column_idx embed_input embed_dropout = Ok m)
    (Hprob : prob_in_range embed_dropout = true)
    (Hnd : NoDup (map col_of embed_input))
    (Hne : embed_input <> [])
    (Hcodes : codes_in_range column_idx embed_input X) :
  exists out,
    DiffSizeCatEmbeddings_forward (DiffSizeCatEmbeddings_train false m) X = Ok out
    /\ length out = length (rows X)
    /\ forall n xs, rows X !! n = Some xs ->
         out !! n = Some (concat (map (cat_row m X xs) embed_input)).
Proof.
  destruct (DiffSizeCatEmbeddings_forward_ok _ _ _ _ X false Hinit Hprob Hnd Hne
              Hcodes) as (out & Hout & Hlen & _).
  exists out. split; [exact Hout|]. split; [exact Hlen|].
  assert (Htab := DiffSizeCatEmbeddings_tables _ _ _ _ Hinit Hnd).
  apply DiffSizeCatEmbeddings_init_inv in Hinit as (layers & Hb & Hp & ->).
  unfold DiffSizeCatEmbeddings_forward in Hout. simpl in Hout, Htab.
  apply rbind_Ok in Hout as (embed & Hembed & Hout).
  apply rbind_Ok in Hout as (x & Hx & Hout).
  unfold Dropout_forward2 in Hout. cbn [Dropout_train dp_p dp_training] in Hout.
  rewrite (F_dropout2_eval _ _ Hprob) in Hout. injection Hout as <-.
  apply rmapM_Ok_Forall2 in Hembed.
  assert (Hrows : Forall2 (fun e t =>
            length t = length (rows X)
            /\ forall n xs, rows X !! n = Some xs ->
                 t !! n = Some (cat_row
                   {| dce_column_idx := column_idx;
                      dce_embed_input := embed_input;
                      dce_embed_layers := layers;
                      dce_embedding_dropout :=
                        {| dp_p := embed_dropout; dp_training := true |};
                      dce_emb_out_dim := np_sum_int (map (fun e => e.2) embed_input);
                      dce_training := true |} X xs e)) embed_input embed).
  { eapply Forall2_elem_impl; [exact Hembed|]. intros e t Hin He. simpl in He.
    destruct (Htab e Hin) as (Hc & Hd & layer & Hl & Hrows & Hdim & Hw).
    destruct (Hcodes e Hin) as (i & codes & Hi & Hsel & Hrange).
    unfold col_of in *. unfold ModuleDict_get, dict_get in He.
    rewrite Hl, Hi in He. simpl in He. rewrite Hsel in He. simpl in He.
    assert (Hr : Forall (fun c => 0 <= c < Z.of_nat (length (emb_weight layer)))
                   (map to_long codes)).
    { apply Forall_fmap. eapply Forall_impl; [exact Hrange|].
      intros a Ha. simpl in *. unfold card_of in *. lia. }
    rewrite (Embedding_forward1_in_range _ _ Hr) in He. injection He as <-.
    destruct (select_col_lookup _ _ _ Hsel) as (j & Hj & Hcl & Hget).
    split; [rewrite !length_map; exact Hcl|].
    intros n xs Hn. destruct (Hget n xs Hn) as (a & Ha & Hcn).
    rewrite !list_lookup_fmap, Hcn. simpl.
    unfold cat_row, col_of. simpl. rewrite Hl, Hi, Hj, Ha. reflexivity. }
  assert (Hlens : Forall (fun t => length t = length (rows X)) embed).
  { clear -Hrows. induction Hrows as [|? ? ? ? [H _] _ IH]; constructor; auto. }
  destruct (cat_dim1_lookup _ _ _ Hx Hlens) as [Hxl Hcat].
  intros n xs Hn.
  destruct (lookup_lt_is_Some_2 x n) as [row Hrow].
  { rewrite Hxl. eapply lookup_lt_Some; eauto. }
  rewrite Hrow. f_equal. rewrite (Hcat n row Hrow). f_equal.
  clear -Hrows Hn. induction Hrows as [|e t es ts [_ Ht] _ IH]; [reflexivity|].
  simpl. rewrite (Ht n xs Hn). simpl. now rewrite IH.
Qed.

(** X1. In evaluation mode the variable-width categorical embedder, built
    with a dropout probability in [0, 1] from a spec that lists at least one
    column and no column twice, maps every row of a batch with codes in
    range to the concatenation, in the order of the spec, of the table rows
    selected by the codes of that batch row. *)
Theorem DiffSizeCatEmbeddings_eval_rows
    (column_idx : gmap string Z) (embed_input : list (string * Z * Z))
    (embed_dropout : PyFloat) (m : DiffSizeCatEmbeddings) (X : Batch A)
    (Hinit : DiffSizeCatEmbeddings_init column_idx embed_input embed_dropout = Ok m)
    (Hprob : prob_in_range embed_dropout = true)
    (Hnd : NoDup (map col_of embed_input))
    (Hne : embed_input <> [])
    (Hcodes : codes_in_range column_idx embed_input X) :
  exists out,
    DiffSizeCatEmbeddings_forward (DiffSizeCatEmbeddings_train false m) X = Ok out
    /\ length out = length (rows X)
    /\ forall n xs, rows X !! n = Some xs ->
         out !! n = Some (concat (map (cat_row m X xs) embed_input)).
Proof.
  exact (DiffSizeCatEmbeddings_rows_in_eval _ _ _ _ X Hinit Hprob Hnd Hne Hcodes).
Qed.

Lemma concat_replicate {S : Type} (f : S -> list R) (g : S -> nat) (l : list S) :
  (forall e, e ∈ l -> f e = replicate (g e) R0) ->
  concat (map f l) = replicate (sum_list (map g l)) R0.
Proof.
  induction l as [|e l IH]; intros H; [reflexivity|]. simpl.
  rewrite (H e) by left. rewrite IH by (intros e' He'; apply H; now right).
  now rewrite replicate_add.
Qed.

Lemma Embedding_init_row0 (name : string) (n d : Z) (e : @Embedding R) :
  Embedding_init name n d = Ok e ->
  emb_weight e !! 0%nat = Some (replicate (Z.to_nat d) R0).
Proof.
  intros H. destruct (Embedding_init_inv _ _ _ _ H) as (Hn & _).
  unfold Embedding_init in H.
  destruct (_ || _); [discriminate|]. destruct (n =? 0); [discriminate|].
  injection H as <-. simpl.
  rewrite tabulate_lookup by lia. now rewrite tabulate_const.
Qed.

(** X2. A freshly built variable-width categorical embedder (dropout
    probability in [0, 1], at least one column in the spec, no column listed
    twice), in evaluation mode and on a batch whose codes are all in range,
    maps a batch row whose categorical codes are all 0 (the padding code) to
    the zero vector. *)
Theorem DiffSizeCatEmbeddings_padding_codes
    (column_idx : gmap string Z) (embed_input : list (string * Z * Z))
    (embed_dropout : PyFloat) (m : DiffSizeCatEmbeddings) (X : Batch A)
    (n : nat) (xs : list A)
    (Hinit : DiffSizeCatEmbeddings_init column_idx embed_input embed_dropout = Ok m)
    (Hprob : prob_in_range embed_dropout = true)
    (Hnd : NoDup (map col_of embed_input))
    (Hne : embed_input <> [])
    (Hcodes : codes_in_range column_idx embed_input X)
    (Hn : rows X !! n = Some xs)
    (Hzero : forall e, e ∈ embed_input ->
               exists i j a,
                 column_idx !! col_of e = Some i
                 /\ norm_index (n_features X) i = Ok j
                 /\ xs !! j = Some a /\ to_long a = 0) :
  exists out,
    DiffSizeCatEmbeddings_forward (DiffSizeCatEmbeddings_train false m) X = Ok out
    /\ out !! n
       = Some (replicate (sum_list (map (fun e => Z.to_nat (dim_of e)) embed_input)) R0).
Proof.
  destruct (DiffSizeCatEmbeddings_rows_in_eval _ _ _ _ X Hinit Hprob Hnd Hne Hcodes)
    as (out & Hout & _ & Hrows).
  exists out. split; [exact Hout|]. rewrite (Hrows n xs Hn). f_equal.
  apply concat_replicate. intros e He.
  destruct (Hzero e He) as (i & j & a & Hi & Hj & Ha & Hz).
  apply DiffSizeCatEmbeddings_init_inv in Hinit as (layers & Hb & _ & ->).
  destruct (ModuleDict_build_lookup _ _ _ _ Hb Hnd e He) as (layer & Hmk & Hl).
  apply Embedding_init_row0 in Hmk.
  unfold cat_row, col_of in *. cbn [dce_embed_layers dce_column_idx].
  rewrite Hl, Hi, Hj, Ha, Hz. change (Z.to_nat 0) with 0%nat.
  rewrite Hmk. reflexivity.
Qed.

(** X3. The variable-width categorical embedder does not look at the column
    index when it is built, so a column of the spec that the index lacks is
    only noticed by the forward pass, which then never returns; it raises
    [KeyError] when the first column of the spec is the missing one. *)
Theorem DiffSizeCatEmbeddings_missing_column
    (column_idx column_idx' : gmap string Z) (embed_input : list (string * Z * Z))
    (embed_dropout : PyFloat) (m : DiffSizeCatEmbeddings) (e : string * Z * Z)
    (Hinit : DiffSizeCatEmbeddings_init column_idx embed_input embed_dropout = Ok m)
    (He : e ∈ embed_input)
    (Hmiss : column_idx !! col_of e = None) :
  is_ok (DiffSizeCatEmbeddings_init column_idx' embed_input embed_dropout) = true
  /\ forall (mode : bool) (X : Batch A),
       is_ok (DiffSizeCatEmbeddings_forward (DiffSizeCatEmbeddings_train mode m) X)
       = false
       /\ (forall rest, embed_input = e :: rest ->
           DiffSizeCatEmbeddings_forward (DiffSizeCatEmbeddings_train mode m) X
           = Raise KeyError).
Proof.
  apply DiffSizeCatEmbeddings_init_inv in Hinit as (layers & Hb & Hp & ->).
  split.
  - unfold DiffSizeCatEmbeddings_init. rewrite Hb. simpl.
    unfold Dropout_init. rewrite Hp. reflexivity.
  - intros mode X.
    assert (Hf : (layer <~ ModuleDict_get layers (layer_key e.1.1) ;;
                  i <~ dict_get column_idx e.1.1 ;;
                  codes <~ select_col X i ;;
                  Embedding_forward1 layer (map to_long codes)) = Raise KeyError).
    { unfold ModuleDict_get, dict_get. unfold col_of in Hmiss. rewrite Hmiss.
      destruct (layers !! layer_key e.1.1); reflexivity. }
    unfold DiffSizeCatEmbeddings_forward. simpl. split.
    + match goal with
      | |- is_ok (rbind (rmapM ?f _) _) = false =>
          assert (Hr := rmapM_raise_elem f embed_input e He)
      end.
      simpl in Hr. rewrite Hf in Hr. specialize (Hr eq_refl).
      destruct (rmapM _ embed_input); [discriminate | reflexivity].
    + intros rest ->. cbn [rmapM]. rewrite Hf. reflexivity.
Qed.

(** X4. The fixed-width categorical embedder resolves the positions of its
    columns when it is built: a column of the spec that the column index
    lacks makes the constructor raise [KeyError], before any warning. *)
Theorem SameSizeCatEmbeddings_missing_column
    (embed_dim : Z) (column_idx : gmap string Z) (embed_input : list (string * Z))
    (embed_dropout : PyFloat) (full_embed_dropout shared_embed add_shared_embed : bool)
    (frac_shared_embed : PyFloat) (use_bias : option bool) (e : string * Z)
    (He : e ∈ embed_input)
    (Hmiss : column_idx !! e.1 = None) :
  SameSizeCatEmbeddings_init embed_dim column_idx embed_input embed_dropout
    full_embed_dropout shared_embed add_shared_embed frac_shared_embed use_bias
  = ([], Raise KeyError).
Proof.
  unfold SameSizeCatEmbeddings_init.
  assert (Hidx : rmapM (dict_get column_idx) (map fst embed_input) = Raise KeyError).
  { destruct (rmapM_raise_only KeyError (dict_get column_idx) (map fst embed_input))
      as [H|H]; [|exact H|].
    - intros c. unfold dict_get. destruct (column_idx !! c); [now right | now left].
    - rewrite (rmapM_raise_elem (dict_get column_idx) (map fst embed_input) e.1)
        in H; [discriminate| |].
      + apply list_elem_of_fmap. eauto.
      + unfold dict_get. now rewrite Hmiss. }
  rewrite Hidx. reflexivity.
Qed.

(** X5. An empty categorical spec is not the same as no spec: the
    variable-width composite is built, with [output_dim = 0], but its forward
    pass raises [ValueError] on every batch, the concatenation having
    nothing to concatenate. *)
Theorem DiffSizeCatAndContEmbeddings_empty_list
    (column_idx : gmap string Z) (cat_embed_dropout : PyFloat)
    (embed_continuous : bool) (cont_embed_dim : Z) (cont_embed_dropout : PyFloat)
    (cont_embed_activation : option string) (use_cont_bias : bool)
    (cont_norm_layer : option string)
    (Hp : check_p cat_embed_dropout = Ok tt) :
  exists m,
    DiffSizeCatAndContEmbeddings_init column_idx (Some []) cat_embed_dropout None
      embed_continuous cont_embed_dim cont_embed_dropout cont_embed_activation
      use_cont_bias cont_norm_layer = Ok m
    /\ dcc_output_dim m = 0
    /\ forall (mode : bool) (X : Batch A),
         DiffSizeCatAndContEmbeddings_forward
           (DiffSizeCatAndContEmbeddings_train mode m) X = Raise ValueError.
Proof.
  unfold DiffSizeCatAndContEmbeddings_init, DiffSizeCatEmbeddings_init, Dropout_init.
  cbn [ModuleDict_build rmapM rbind existsb foldl]. rewrite Hp.
  cbn [rbind map]. eexists. split; [reflexivity|]. split; [reflexivity|].
  intros mode X. reflexivity.
Qed.

(** X6. When a column is listed more than once in the spec of the
    variable-width categorical embedder, only the table of its last entry is
    kept: it has the row count and the width of that entry, and every entry
    of the column is looked up in it, so a cardinality of an earlier entry
    that exceeds the last one is out of range. *)
Theorem DiffSizeCatEmbeddings_duplicate_column
    (column_idx : gmap string Z) (l1 l2 : list (string * Z * Z)) (e : string * Z * Z)
    (embed_dropout : PyFloat) (m : DiffSizeCatEmbeddings)
    (Hinit : DiffSizeCatEmbeddings_init column_idx (l1 ++ e :: l2) embed_dropout = Ok m)
    (Hlast : col_of e ∉ map col_of l2) :
  exists layer,
    dce_embed_layers m !! layer_key (col_of e) = Some layer
    /\ length (emb_weight layer) = Z.to_nat (card_of e + 1)
    /\ embedding_dim layer = Z.to_nat (dim_of e)
    /\ forall e', e' ∈ l1 -> col_of e' = col_of e ->
         dce_embed_layers m !! layer_key (col_of e') = Some layer
         /\ (card_of e < card_of e' ->
             embedding_lookup layer (card_of e') = Raise IndexError).
Proof.
  apply DiffSizeCatEmbeddings_init_inv in Hinit as (layers & Hb & _ & ->).
  destruct (ModuleDict_build_last _ _ _ _ _ _ Hb Hlast) as (layer & Hmk & Hl).
  apply Embedding_init_inv in Hmk as (Hn & Hd & Hdim & Hrows & _).
  exists layer. simpl. unfold card_of, dim_of, col_of in *.
  split; [exact Hl|]. split; [exact Hrows|]. split; [exact Hdim|].
  intros e' _ Hcol. split; [now rewrite Hcol|].
  intros Hlt. unfold embedding_lookup.
  destruct (e'.1.2 <? 0) eqn:Hneg; [reflexivity|].
  apply Z.ltb_ge in Hneg.
  rewrite lookup_ge_None_2; [reflexivity|]. lia.
Qed.

(** X7. The continuous embedder does not check its dropout probability when
    it is built: construction succeeds or fails regardless of it.  A
    probability outside [0, 1] is only met by the forward pass, which then
    raises [ValueError] in training and in evaluation mode alike. *)
Theorem ContEmbeddings_dropout_checked_late
    (n_cont_cols embed_dim : Z) (embed_dropout embed_dropout' : PyFloat)
    (use_bias : bool) (activation : option string) (m : ContEmbeddings)
    (Hinit : ContEmbeddings_init n_cont_cols embed_dim embed_dropout use_bias
               activation = Ok m)
    (Hp : check_p embed_dropout = Raise ValueError) :
  is_ok (ContEmbeddings_init n_cont_cols embed_dim embed_dropout' use_bias activation)
  = true
  /\ forall (mode : bool) (X : list (list R)),
       has_width (Z.to_nat n_cont_cols) X ->
       ContEmbeddings_forward (ContEmbeddings_train mode m) X = Raise ValueError.
Proof.
  split.
  - unfold ContEmbeddings_init in *.
    destruct (new_parameter "weight" n_cont_cols embed_dim); [|discriminate].
    cbn [rbind] in *.
    destruct (if use_bias then _ else _); [|discriminate]. cbn [rbind] in *.
    destruct (match truthy activation with Some _ => _ | None => _ end);
      [reflexivity | discriminate].
  - intros mode X HX.
    destruct (ContEmbeddings_init_inv _ _ _ _ _ _ Hinit)
      as (Hdp & Htr & Hc & Hw & Hbias).
    rewrite (ContEmbeddings_forward_eq _ (Z.to_nat n_cont_cols) (Z.to_nat embed_dim));
      try assumption.
    + cbn [ContEmbeddings_train ce_embed_dropout ce_training].
      rewrite Hdp. unfold F_dropout3. rewrite Hp. reflexivity.
    + intros b Hbm. cbn [ContEmbeddings_train ce_bias] in Hbm. destruct use_bias.
      * destruct Hbias as (b0 & Hb0 & Hl & Hwd). rewrite Hb0 in Hbm.
        injection Hbm as <-. auto.
      * rewrite Hbias in Hbm. discriminate.
Qed.

Lemma broadcast_zip_single {T U V : Type} (f : T -> U -> V) (l : list T) (b : U) :
  broadcast_zip f l [b] = Ok (map (fun a => f a b) l).
Proof.
  unfold broadcast_zip. destruct l as [|a [|a' l]]; reflexivity.
Qed.

(** X8. A batch with a single column is accepted by a continuous embedder
    of any number of columns: the column is silently repeated for every
    embedded column, and the forward pass returns what it returns on the
    batch with the column written out C times. *)
Theorem ContEmbeddings_single_column_broadcast
    (n_cont_cols embed_dim : Z) (embed_dropout : PyFloat) (use_bias : bool)
    (activation : option string) (m : ContEmbeddings) (X : list (list R))
    (mode : bool)
    (Hinit : ContEmbeddings_init n_cont_cols embed_dim embed_dropout use_bias
               activation = Ok m)
    (HX : has_width 1 X) :
  ContEmbeddings_forward (ContEmbeddings_train mode m) X
  = ContEmbeddings_forward (ContEmbeddings_train mode m)
      (map (fun xs => concat (map (replicate (Z.to_nat n_cont_cols)) xs)) X)
  /\ has_width (Z.to_nat n_cont_cols)
       (map (fun xs => concat (map (replicate (Z.to_nat n_cont_cols)) xs)) X).
Proof.
  destruct (ContEmbeddings_init_inv _ _ _ _ _ _ Hinit) as (_ & _ & Hc & _ & _).
  split.
  - unfold ContEmbeddings_forward.
    cbn [ContEmbeddings_train ce_weight ce_bias ce_act_fn ce_embed_dropout ce_training].
    replace (cont_scale (ce_weight m)
               (map (fun xs => concat (map (replicate (Z.to_nat n_cont_cols)) xs)) X))
      with (cont_scale (ce_weight m) X); [reflexivity|].
    unfold cont_scale. clear -HX Hc.
    induction HX as [|xs X Hxs _ IH]; [reflexivity|].
    destruct xs as [|x [|x' xs]]; try discriminate.
    cbn [map rmapM concat]. rewrite app_nil_r, IH. f_equal.
    rewrite broadcast_zip_single.
    rewrite broadcast_zip_same by (now rewrite length_replicate).
    f_equal. rewrite <- Hc. clear.
    induction (ce_weight m) as [|w ws IHw]; [reflexivity|].
    simpl. now rewrite IHw.
  - unfold has_width. apply Forall_fmap. eapply Forall_impl; [exact HX|].
    intros xs Hxs. simpl in *. destruct xs as [|x [|x' xs]]; try discriminate.
    simpl. rewrite app_nil_r. apply length_replicate.
Qed.

(** X9. The continuous embedder refuses a batch whose number of columns
    differs from its own when neither of the two is one: the forward pass
    raises [RuntimeError], in training and in evaluation mode. *)
Theorem ContEmbeddings_width_mismatch
    (n_cont_cols embed_dim : Z) (embed_dropout : PyFloat) (use_bias : bool)
    (activation : option string) (m : ContEmbeddings) (xs : list R)
    (X : list (list R)) (mode : bool)
    (Hinit : ContEmbeddings_init n_cont_cols embed_dim embed_dropout use_bias
               activation = Ok m)
    (Hw : length xs <> Z.to_nat n_cont_cols)
    (H1 : length xs <> 1%nat)
    (HC : n_cont_cols <> 1) :
  ContEmbeddings_forward (ContEmbeddings_train mode m) (xs :: X) = Raise RuntimeError.
Proof.
  destruct (ContEmbeddings_init_inv _ _ _ _ _ _ Hinit) as (_ & _ & Hc & _ & _).
  assert (Hn : 0 <= n_cont_cols).
  { unfold ContEmbeddings_init in Hinit.
    apply rbind_Ok in Hinit as (w & Hwp & _).
    now apply new_parameter_nonneg in Hwp. }
  unfold ContEmbeddings_forward, cont_scale.
  cbn [ContEmbeddings_train ce_weight rmapM].
  assert (Hb : broadcast_zip (fun w x => map (fun wj => Rmul wj x) w) (ce_weight m) xs
               = Raise RuntimeError).
  { unfold broadcast_zip.
    replace (length (ce_weight m) =? length xs)%nat with false
      by (symmetry; apply Nat.eqb_neq; congruence).
    destruct (ce_weight m) as [|a [|a' ws]], xs as [|x [|x' xs']];
      simpl in *; try reflexivity; try congruence; lia. }
  rewrite Hb. reflexivity.
Qed.

Lemma DropoutLayers_init_full (p : PyFloat) (d : DropoutLayers) :
  DropoutLayers_init true p = Ok d ->
  d = DL_Full {| fed_p := p; fed_training := true |}.
Proof.
  unfold DropoutLayers_init, FullEmbeddingDropout_init.
  destruct (_ || _); [discriminate|]. simpl. now intros [= <-].
Qed.

Lemma SharedEmbeddings_full_dropout_raises (name : string) (n_embed embed_dim : Z)
    (embed_dropout : PyFloat) (add_shared_embed : bool) (frac_shared_embed : PyFloat)
    (m : SharedEmbeddings) (X : list Z) :
  SharedEmbeddings_init name n_embed embed_dim embed_dropout true add_shared_embed
    frac_shared_embed = Ok m ->
  is_ok (SharedEmbeddings_forward m X) = false
  /\ (Forall (fun c => 0 <= c < n_embed) X ->
      SharedEmbeddings_forward m X = Raise AttributeError).
Proof.
  intros Hinit.
  destruct (SharedEmbeddings_init_inv _ _ _ _ _ _ _ _ Hinit)
    as (_ & _ & _ & _ & _ & Hrows & _ & _ & Hdrop).
  apply DropoutLayers_init_full in Hdrop.
  unfold SharedEmbeddings_forward. rewrite Hdrop. split.
  - destruct (Embedding_forward1 (se_embed m) X); reflexivity.
  - intros Hcodes.
    rewrite Embedding_forward1_in_range; [reflexivity|].
    eapply Forall_impl; [exact Hcodes|]. intros c Hc. simpl in *. lia.
Qed.

(** X10. With [full_embed_dropout=True] the shared-embedding wrapper cannot
    run in training mode, the mode of a freshly built module: its forward
    pass never returns, and on codes that index the table it raises
    [AttributeError]. *)
Theorem SharedEmbeddings_full_dropout_training
    (name : string) (n_embed embed_dim : Z) (embed_dropout : PyFloat)
    (add_shared_embed : bool) (frac_shared_embed : PyFloat)
    (m : SharedEmbeddings) (X : list Z)
    (Hinit : SharedEmbeddings_init name n_embed embed_dim embed_dropout true
               add_shared_embed frac_shared_embed = Ok m) :
  is_ok (SharedEmbeddings_forward m X) = false
  /\ (Forall (fun c => 0 <= c < n_embed) X ->
      SharedEmbeddings_forward m X = Raise AttributeError).
Proof. exact (SharedEmbeddings_full_dropout_raises _ _ _ _ _ _ _ X Hinit). Qed.

(** X11. A fixed-width categorical embedder built with
    [full_embed_dropout=True] has no forward pass that returns in training
    mode, the mode of a freshly built module, in shared-embedding mode as in
    single-table mode. *)
Theorem SameSizeCatEmbeddings_full_dropout_training
    (embed_dim : Z) (column_idx : gmap string Z) (embed_input : list (string * Z))
    (embed_dropout : PyFloat) (shared_embed add_shared_embed : bool)
    (frac_shared_embed : PyFloat) (use_bias : option bool)
    (w : list string) (m : SameSizeCatEmbeddings) (X : Batch A)
    (Hinit : SameSizeCatEmbeddings_init embed_dim column_idx embed_input
               embed_dropout true shared_embed add_shared_embed frac_shared_embed
               use_bias = (w, Ok m)) :
  is_ok (SameSizeCatEmbeddings_forward m X) = false.
Proof.
  apply SameSizeCatEmbeddings_init_inv in Hinit
    as (cat_idx & bias & ed & _ & _ & Hed & _ & ->).
  unfold SameSizeCatEmbeddings_forward. cbn.
  destruct shared_embed.
  - apply rbind_Ok in Hed as (d & Hd & [= <-]). cbn.
    destruct embed_input as [|e rest]; [reflexivity|].
    match goal with
    | |- is_ok (rbind (rmapM ?f _) _) = false =>
        assert (Hr := rmapM_raise_elem f (e :: rest) e ltac:(left))
    end.
    cbn beta in Hr.
    assert (Hfail : is_ok
              (layer <~ ModuleDict_get d (layer_key e.1) ;;
               i <~ dict_get column_idx e.1 ;;
               codes <~ select_col X i ;;
               out <~ SharedEmbeddings_forward layer (map to_long codes) ;;
               Ok (map (fun v : list R => [v]) out)) = false).
    { unfold ModuleDict_get.
      destruct (d !! layer_key e.1) as [layer|] eqn:Hl; [|reflexivity]. cbn [rbind].
      destruct (dict_get column_idx e.1) as [i|]; [|reflexivity]. cbn [rbind].
      destruct (select_col X i) as [codes|]; [|reflexivity]. cbn [rbind].
      destruct (ModuleDict_build_values _ _ _ _ _ _ Hd Hl) as (s & _ & Hmk & _).
      destruct (SharedEmbeddings_full_dropout_raises _ _ _ _ _ _ _
                  (map to_long codes) Hmk) as [Hno _].
      destruct (SharedEmbeddings_forward layer (map to_long codes)); [discriminate|].
      reflexivity. }
    specialize (Hr Hfail).
    destruct (rmapM _ (e :: rest)); [discriminate | reflexivity].
  - apply rbind_Ok in Hed as (table & _ & Hed).
    apply rbind_Ok in Hed as (d & Hd & [= <-]). cbn.
    apply DropoutLayers_init_full in Hd. subst d.
    destruct (select_cols X cat_idx); [|reflexivity]. cbn.
    destruct (Embedding_forward2 table _); [|reflexivity]. cbn.
    destruct bias; [|reflexivity]. cbn.
    destruct (cont_add_bias _ _); reflexivity.
Qed.

Lemma Embedding_forward2_in_range (e : @Embedding R) (codes : list (list Z)) :
  Forall (Forall (fun c => 0 <= c < Z.of_nat (length (emb_weight e)))) codes ->
  Embedding_forward2 e codes
  = Ok (map (map (fun c => default [] (emb_weight e !! Z.to_nat c))) codes).
Proof.
  intros H. unfold Embedding_forward2. apply rmapM_total.
  eapply Forall_impl; [exact H|]. intros cs Hcs.
  now apply Embedding_forward1_in_range.
Qed.

Lemma SameSizeCatEmbeddings_one_table_in_eval
    (embed_dim : Z) (column_idx : gmap string Z) (embed_input : list (string * Z))
    (embed_dropout : PyFloat) (full_embed_dropout add_shared_embed : bool)
    (frac_shared_embed : PyFloat) (use_bias : bool)
    (w : list string) (m : SameSizeCatEmbeddings) (X : Batch A) (sel : list (list A))
    (Hinit : SameSizeCatEmbeddings_init embed_dim column_idx embed_input
               embed_dropout full_embed_dropout false add_shared_embed
               frac_shared_embed (Some use_bias) = (w, Ok m))
    (Hp : full_embed_dropout = false -> prob_in_range embed_dropout = true)
    (Hsel : select_cols X (ssc_cat_idx m) = Ok sel)
    (Hcodes : Forall (Forall (fun a => 0 <= to_long a <= ssc_n_tokens m)) sel) :
  exists table b,
    ssc_embed m = SSE_Table table
    /\ ssc_bias m = Some b
    /\ ssc_n_tokens m = foldr Z.add 0 (map snd embed_input)
    /\ length (emb_weight table) = Z.to_nat (ssc_n_tokens m + 1)
    /\ SameSizeCatEmbeddings_forward (SameSizeCatEmbeddings_train false m) X
       = Ok (map (fun codes =>
                    zip_with (zip_with Radd)
                      (map (fun a => default [] (emb_weight table
                                                   !! Z.to_nat (to_long a))) codes)
                      b) sel)
    /\ has_shape3 (length (rows X)) (length embed_input) (Z.to_nat embed_dim)
         (map (fun codes =>
                 zip_with (zip_with Radd)
                   (map (fun a => default [] (emb_weight table
                                                !! Z.to_nat (to_long a))) codes)
                   b) sel).
Proof.
  apply SameSizeCatEmbeddings_init_inv in Hinit
    as (cat_idx & bias & ed & Hidx & (b & Hb & ->) & Hed & _ & ->).
  apply rbind_Ok in Hed as (table & Htable & Hed).
  apply rbind_Ok in Hed as (d & Hd & [= <-]).
  cbn [ssc_cat_idx ssc_n_tokens] in Hsel, Hcodes.
  destruct (Embedding_init_inv _ _ _ _ Htable) as (Hn & Hdim & _ & Hrows & Hw).
  destruct (new_parameter_shape _ _ _ _ Hb) as [Hbl Hbw].
  destruct (select_cols_Ok_shape _ _ _ Hsel) as [Hsl Hsw].
  apply rmapM_length in Hidx. rewrite length_map in Hidx.
  rewrite Nat2Z.id in Hbl.
  exists table, b. cbn [ssc_embed ssc_bias ssc_n_tokens fst snd].
  split; [reflexivity|]. split; [reflexivity|]. split; [reflexivity|].
  split; [exact Hrows|].
  assert (Hboth : Forall (fun cs => length cs = length cat_idx
                    /\ Forall (fun a => 0 <= to_long a
                                         <= foldr Z.add 0 (map snd embed_input)) cs) sel).
  { apply Forall_and. split; [exact Hsw | exact Hcodes]. }
  assert (Hlook : Embedding_forward2 table (map (map to_long) sel)
                  = Ok (map (map (fun c => default [] (emb_weight table !! Z.to_nat c)))
                          (map (map to_long) sel))).
  { apply Embedding_forward2_in_range. apply Forall_fmap.
    eapply Forall_impl; [exact Hcodes|]. intros cs Hcs. simpl. apply Forall_fmap.
    eapply Forall_impl; [exact Hcs|]. intros a Ha. simpl in *. lia. }
  assert (Hshape : Forall (fun mat => length mat = length embed_input
                                      /\ has_width (Z.to_nat embed_dim) mat)
                     (map (map (fun c => default [] (emb_weight table !! Z.to_nat c)))
                        (map (map to_long) sel))).
  { rewrite map_map. apply Forall_fmap.
    eapply Forall_impl; [exact Hboth|].
    intros cs [Hcs Hr]. simpl. split; [rewrite !length_map; congruence|].
    apply lookup_rows_width; [exact Hw|].
    apply Forall_fmap. eapply Forall_impl; [exact Hr|]. intros a Ha. simpl in *. lia. }
  split.
  - unfold SameSizeCatEmbeddings_forward. cbn. rewrite Hsel. cbn.
    rewrite Hlook. cbn.
    rewrite (cont_add_bias_same (length embed_input) (Z.to_nat embed_dim));
      try assumption.
    cbn. rewrite (DropoutLayers_eval3 _ _ _ _ Hd Hp). f_equal.
    rewrite !map_map. apply map_ext. intros cs. now rewrite map_map.
  - split; [rewrite length_map; exact Hsl|].
    apply Forall_fmap.
    eapply Forall_impl; [exact Hboth|].
    intros cs [Hcs Hr]. simpl. split.
    + rewrite length_zip_with, length_map. lia.
    + apply Forall_lookup. intros i v Hv.
      apply lookup_zip_with_Some in Hv as (r & bc & -> & Hrl & Hbc).
      rewrite length_zip_with.
      rewrite (proj1 (Forall_lookup _ _) Hbw i bc Hbc).
      apply list_lookup_fmap_Some in Hrl as (a & -> & Ha).
      assert (Hin : 0 <= to_long a <= foldr Z.add 0 (map snd embed_input)).
      { eapply (proj1 (Forall_lookup _ _) Hr); eauto. }
      destruct (lookup_lt_is_Some_2 (emb_weight table) (Z.to_nat (to_long a)))
        as [row Hrow]; [lia|].
      rewrite Hrow. simpl.
      rewrite (proj1 (Forall_lookup _ _) Hw _ row Hrow). lia.
Qed.

(** X12. Single-table mode of the fixed-width categorical embedder.  The one
    table has a row for every code from 0 to the sum of the cardinalities of
    the spec; when the codes of the batch are in that range and, the dropout
    layer being [nn.Dropout], its probability is in [0, 1], the forward pass
    in evaluation mode returns a tensor of shape (N, number of columns,
    embed_dim) whose entry (n, c) is the table row of the code plus row c of
    the bias. *)
Theorem SameSizeCatEmbeddings_single_table_eval
    (embed_dim : Z) (column_idx : gmap string Z) (embed_input : list (string * Z))
    (embed_dropout : PyFloat) (full_embed_dropout add_shared_embed : bool)
    (frac_shared_embed : PyFloat) (use_bias : bool)
    (w : list string) (m : SameSizeCatEmbeddings) (X : Batch A) (sel : list (list A))
    (Hinit : SameSizeCatEmbeddings_init embed_dim column_idx embed_input
               embed_dropout full_embed_dropout false add_shared_embed
               frac_shared_embed (Some use_bias) = (w, Ok m))
    (Hp : full_embed_dropout = false -> prob_in_range embed_dropout = true)
    (Hsel : select_cols X (ssc_cat_idx m) = Ok sel)
    (Hcodes : Forall (Forall (fun a => 0 <= to_long a <= ssc_n_tokens m)) sel) :
  exists table b,
    ssc_embed m = SSE_Table table
    /\ ssc_bias m = Some b
    /\ ssc_n_tokens m = foldr Z.add 0 (map snd embed_input)
    /\ length (emb_weight table) = Z.to_nat (ssc_n_tokens m + 1)
    /\ SameSizeCatEmbeddings_forward (SameSizeCatEmbeddings_train false m) X
       = Ok (map (fun codes =>
                    zip_with (zip_with Radd)
                      (map (fun a => default [] (emb_weight table
                                                   !! Z.to_nat (to_long a))) codes)
                      b) sel)
    /\ has_shape3 (length (rows X)) (length embed_input) (Z.to_nat embed_dim)
         (map (fun codes =>
                 zip_with (zip_with Radd)
                   (map (fun a => default [] (emb_weight table
                                                !! Z.to_nat (to_long a))) codes)
                   b) sel).
Proof.
  exact (SameSizeCatEmbeddings_one_table_in_eval _ _ _ _ _ _ _ _ _ _ X sel
           Hinit Hp Hsel Hcodes).
Qed.


(** X13. Shared-embedding mode of the fixed-width categorical embedder, no
    column listed twice.  Every column has its own wrapper; the table of a
    column has [cardinality + 1] rows, except for the column named
    "cls_token", whose table has [cardinality] rows: the code equal to the
    cardinality indexes every table but that one. *)
Theorem SameSizeCatEmbeddings_shared_tables
    (embed_dim : Z) (column_idx : gmap string Z) (embed_input : list (string * Z))
    (embed_dropout : PyFloat) (full_embed_dropout add_shared_embed : bool)
    (frac_shared_embed : PyFloat) (use_bias : option bool)
    (w : list string) (m : SameSizeCatEmbeddings)
    (Hinit : SameSizeCatEmbeddings_init embed_dim column_idx embed_input
               embed_dropout full_embed_dropout true add_shared_embed
               frac_shared_embed use_bias = (w, Ok m))
    (Hnd : NoDup (map fst embed_input)) :
  exists d,
    ssc_embed m = SSE_Dict d
    /\ forall e, e ∈ embed_input ->
         exists layer,
           d !! layer_key e.1 = Some layer
           /\ length (emb_weight (se_embed layer))
              = Z.to_nat (if String.eqb e.1 "cls_token" then e.2 else e.2 + 1)
           /\ embedding_dim (se_embed layer) = Z.to_nat embed_dim
           /\ (e.1 = "cls_token" ->
               embedding_lookup (se_embed layer) e.2 = Raise IndexError)
           /\ (e.1 <> "cls_token" ->
               is_ok (embedding_lookup (se_embed layer) e.2) = true).
Proof.
  apply SameSizeCatEmbeddings_init_inv in Hinit
    as (cat_idx & bias & ed & _ & _ & Hed & _ & ->).
  apply rbind_Ok in Hed as (d & Hd & [= <-]).
  exists d. split; [reflexivity|]. intros e He.
  destruct (ModuleDict_build_lookup _ _ _ _ Hd Hnd e He) as (layer & Hmk & Hl).
  destruct (SharedEmbeddings_init_inv _ _ _ _ _ _ _ _ Hmk)
    as (_ & _ & Hn & _ & Hdim & Hrows & _).
  exists layer. split; [exact Hl|]. split; [exact Hrows|]. split; [exact Hdim|].
  unfold embedding_lookup. split.
  - intros Hcls. rewrite Hcls in Hn, Hrows. cbn in Hn, Hrows.
    destruct (e.2 <? 0); [reflexivity|].
    rewrite lookup_ge_None_2; [reflexivity | lia].
  - intros Hcls. apply String.eqb_neq in Hcls. rewrite Hcls in Hn, Hrows.
    destruct (e.2 <? 0) eqn:Hneg; [apply Z.ltb_lt in Hneg; lia|].
    destruct (lookup_lt_is_Some_2 (emb_weight (se_embed layer)) (Z.to_nat e.2))
      as [r Hr]; [lia|].
    now rewrite Hr.
Qed.

Lemma NormLayers_init_other (name : option string) (n : nat) :
  name <> Some "layernorm" -> name <> Some "batchnorm" ->
  NormLayers_init name n = Identity.
Proof.
  intros H1 H2. unfold NormLayers_init. destruct name as [s|]; [|reflexivity].
  destruct (String.eqb s "layernorm") eqn:E1;
    [apply String.eqb_eq in E1; congruence|].
  destruct (String.eqb s "batchnorm") eqn:E2;
    [apply String.eqb_eq in E2; congruence|].
  reflexivity.
Qed.

(** X14. Raw continuous columns.  When [cont_norm_layer] is neither
    "layernorm" nor "batchnorm" (any other string, or None) and the
    continuous columns are not embedded, the continuous branch of the
    variable-width composite is the selected columns of the batch cast to
    float, unchanged, in training as in evaluation mode, and [output_dim] is
    the number of continuous columns. *)
Theorem DiffSizeCatAndContEmbeddings_raw_continuous
    (column_idx : gmap string Z) (cat_embed_dropout : PyFloat) (cols : list string)
    (cont_embed_dim : Z) (cont_embed_dropout : PyFloat)
    (cont_embed_activation : option string) (use_cont_bias : bool)
    (cont_norm_layer : option string)
    (m : DiffSizeCatAndContEmbeddings) (X : Batch A) (mode : bool)
    (Hinit : DiffSizeCatAndContEmbeddings_init column_idx None cat_embed_dropout
               (Some cols) false cont_embed_dim cont_embed_dropout
               cont_embed_activation use_cont_bias cont_norm_layer = Ok m)
    (Hln : cont_norm_layer <> Some "layernorm")
    (Hbn : cont_norm_layer <> Some "batchnorm")
    (Hwf : wf_batch X)
    (Hcols : forall c, c ∈ cols ->
               exists i, column_idx !! c = Some i
                         /\ is_ok (norm_index (n_features X) i) = true) :
  exists idx sel,
    rmapM (dict_get column_idx) cols = Ok idx
    /\ select_cols X idx = Ok sel
    /\ DiffSizeCatAndContEmbeddings_forward
         (DiffSizeCatAndContEmbeddings_train mode m) X
       = Ok (None, Some (map (map to_float) sel))
    /\ dcc_output_dim m = Z.of_nat (length cols).
Proof.
  unfold DiffSizeCatAndContEmbeddings_init in Hinit. cbn [rbind] in Hinit.
  apply rbind_Ok in Hinit as (cont & Hcont & [= <-]).
  apply rbind_Ok in Hcont as (idx & Hidx & [= <-]).
  destruct (rmapM_dict_get_positions _ _ _ _ Hidx Hcols) as [Hlen Hpos].
  destruct (select_cols_shape X idx Hwf Hpos) as (sel & Hsel & _ & _).
  exists idx, sel. split; [exact Hidx|]. split; [exact Hsel|].
  split; [|simpl; lia].
  unfold DiffSizeCatAndContEmbeddings_forward, cont_branch. cbn.
  rewrite Hsel. cbn. rewrite (NormLayers_init_other _ _ Hln Hbn). reflexivity.
Qed.

(** X15. Batch normalisation of the continuous columns refuses a batch of a
    single row in training mode: the forward pass of a freshly built
    variable-width composite with [cont_norm_layer="batchnorm"] raises
    [ValueError] on it. *)
Theorem DiffSizeCatAndContEmbeddings_batchnorm_single_row
    (column_idx : gmap string Z) (cat_embed_dropout : PyFloat) (cols : list string)
    (embed_continuous : bool) (cont_embed_dim : Z) (cont_embed_dropout : PyFloat)
    (cont_embed_activation : option string) (use_cont_bias : bool)
    (m : DiffSizeCatAndContEmbeddings) (X : Batch A)
    (Hinit : DiffSizeCatAndContEmbeddings_init column_idx None cat_embed_dropout
               (Some cols) embed_continuous cont_embed_dim cont_embed_dropout
               cont_embed_activation use_cont_bias (Some "batchnorm") = Ok m)
    (Hwf : wf_batch X)
    (Hcols : forall c, c ∈ cols ->
               exists i, column_idx !! c = Some i
                         /\ is_ok (norm_index (n_features X) i) = true)
    (Hone : length (rows X) = 1%nat) :
  DiffSizeCatAndContEmbeddings_forward m X = Raise ValueError
  /\ DiffSizeCatAndContEmbeddings_forward
       (DiffSizeCatAndContEmbeddings_train true m) X = Raise ValueError.
Proof.
  unfold DiffSizeCatAndContEmbeddings_init in Hinit. cbn [rbind] in Hinit.
  apply rbind_Ok in Hinit as (cont & Hcont & [= <-]).
  apply rbind_Ok in Hcont as (idx & Hidx & Hcont).
  destruct (rmapM_dict_get_positions _ _ _ _ Hidx Hcols) as [Hlen Hpos].
  destruct (select_cols_shape X idx Hwf Hpos) as (sel & Hsel & Hsl & _).
  destruct embed_continuous.
  - apply rbind_Ok in Hcont as (ce & Hce & [= <-]).
    split; unfold DiffSizeCatAndContEmbeddings_forward, cont_branch; cbn;
      rewrite Hsel; cbn; rewrite ?length_map, Hsl, Hone; reflexivity.
  - injection Hcont as <-.
    split; unfold DiffSizeCatAndContEmbeddings_forward, cont_branch; cbn;
      rewrite Hsel; cbn; rewrite ?length_map, Hsl, Hone; reflexivity.
Qed.

(** X16. A column whose name contains a dot cannot be embedded by the
    variable-width categorical embedder: its tables are stored under the
    names "emb_layer_" + column, and once all tables are built the
    constructor raises [KeyError] for the dotted name. *)
Theorem DiffSizeCatEmbeddings_dotted_column
    (column_idx : gmap string Z) (embed_input : list (string * Z * Z))
    (embed_dropout : PyFloat) (e : string * Z * Z)
    (He : e ∈ embed_input)
    (Hdot : has_dot (col_of e) = true)
    (Hok : Forall (fun e => is_ok (@Embedding_init A R Eng (layer_key (col_of e))
                                     (card_of e + 1) (dim_of e)) = true)
             embed_input) :
  DiffSizeCatEmbeddings_init column_idx embed_input embed_dropout = Raise KeyError.
Proof.
  unfold DiffSizeCatEmbeddings_init, ModuleDict_build.
  match goal with
  | |- context [rmapM ?f embed_input] =>
      destruct (rmapM_Forall_Ok f (fun e kv => kv.1 = layer_key (col_of e)) embed_input)
        as (kvs & Hkvs & Hkeys)
  end.
  { eapply Forall_impl; [exact Hok|]. intros e0 H0. cbn beta in *.
    unfold col_of, card_of, dim_of in *.
    destruct (Embedding_init (layer_key e0.1.1) (e0.1.2 + 1) e0.2) as [t|];
      [|discriminate].
    eexists. split; reflexivity. }
  rewrite Hkvs. cbn [rbind].
  rewrite (existsb_Forall2 _ (fun kv => has_dot kv.1) _ _ e Hkeys He); [reflexivity|].
  intros kv ->. now rewrite has_dot_layer_key.
Qed.

(** X17. The fixed-width composite in single-table mode with embedded
    continuous columns, evaluation mode.  For dropout probabilities in
    [0, 1] (that of the categorical embedder when its dropout layer is
    [nn.Dropout]) and a well-formed batch that holds the columns of the spec
    with codes in the range of the table, the forward pass returns a categorical branch of shape (N, number of categorical
    columns, embed_dim) and a continuous branch of rank three and shape
    (N, number of continuous columns, embed_dim): both branches are sequences
    of tokens of the same width. *)
Theorem SameSizeCatAndContEmbeddings_token_layout
    (embed_dim : Z) (column_idx : gmap string Z) (embed_input : list (string * Z))
    (cat_embed_dropout : PyFloat) (full_embed_dropout add_shared_embed : bool)
    (frac_shared_embed : PyFloat) (use_embed_bias : bool) (cols : list string)
    (cont_embed_dropout : PyFloat) (cont_embed_activation : option string)
    (use_cont_bias : bool) (cont_norm_layer : option string)
    (w : list string) (m : SameSizeCatAndContEmbeddings) (X : Batch A)
    (Hinit : SameSizeCatAndContEmbeddings_init embed_dim column_idx (Some embed_input)
               cat_embed_dropout full_embed_dropout false add_shared_embed
               frac_shared_embed (Some use_embed_bias) (Some cols) true
               cont_embed_dropout cont_embed_activation use_cont_bias
               cont_norm_layer = (w, Ok m))
    (Hpcat : full_embed_dropout = false -> prob_in_range cat_embed_dropout = true)
    (Hp : prob_in_range cont_embed_dropout = true)
    (Hwf : wf_batch X)
    (Hcols : forall c, c ∈ cols ->
               exists i, column_idx !! c = Some i
                         /\ is_ok (norm_index (n_features X) i) = true)
    (Hcat : forall idx,
              rmapM (dict_get column_idx) (map fst embed_input) = Ok idx ->
              exists sel,
                select_cols X idx = Ok sel
                /\ Forall (Forall (fun a => 0 <= to_long a
                                             <= foldr Z.add 0 (map snd embed_input)))
                     sel) :
  exists x_cat x_cont,
    SameSizeCatAndContEmbeddings_forward
      (SameSizeCatAndContEmbeddings_train false m) X
    = Ok (Some x_cat, Some (Rank3 x_cont))
    /\ has_shape3 (length (rows X)) (length embed_input) (Z.to_nat embed_dim) x_cat
    /\ has_shape3 (length (rows X)) (length cols) (Z.to_nat embed_dim) x_cont.
Proof.
  unfold SameSizeCatAndContEmbeddings_init in Hinit.
  destruct (SameSizeCatEmbeddings_init embed_dim column_idx embed_input
              cat_embed_dropout full_embed_dropout false add_shared_embed
              frac_shared_embed (Some use_embed_bias)) as [w1 [ce|err]] eqn:Hce;
    [|discriminate].
  cbn [wbind wret] in Hinit.
  destruct (rmapM (dict_get column_idx) cols) as [cont_idx|err] eqn:Hidx;
    [|discriminate].
  cbn [rbind] in Hinit.
  destruct (ContEmbeddings_init (Z.of_nat (length cols)) embed_dim cont_embed_dropout
              use_cont_bias cont_embed_activation) as [cemb|err] eqn:Hcemb;
    [|discriminate].
  cbn [rbind wbind wret fst snd] in Hinit. injection Hinit as _ <-.
  (* the categorical branch *)
  destruct (SameSizeCatEmbeddings_init_inv _ _ _ _ _ _ _ _ _ _ _ Hce)
    as (cat_idx & bias & ed & Hcidx & _ & _ & _ & Hm).
  destruct (Hcat cat_idx Hcidx) as (sel & Hsel & Hrange).
  assert (Hsel' : select_cols X (ssc_cat_idx ce) = Ok sel) by (rewrite Hm; exact Hsel).
  assert (Hrange' : Forall (Forall (fun a => 0 <= to_long a <= ssc_n_tokens ce)) sel)
    by (rewrite Hm; exact Hrange).
  destruct (SameSizeCatEmbeddings_one_table_in_eval _ _ _ _ _ _ _ _ _ _ X sel
              Hce Hpcat Hsel' Hrange')
    as (table & b & _ & _ & _ & _ & Hfwd & Hshape).
  (* the continuous branch *)
  destruct (cont_branch_ok _ _ _ cont_norm_layer X false Hidx Hwf Hcols
              ltac:(discriminate)) as (x & Hx & Hxl & Hxw).
  rewrite <- (Nat2Z.id (length cols)) in Hxw.
  destruct (ContEmbeddings_forward_shape _ _ _ _ _ _ x false Hcemb Hp Hxw)
    as (_ & x3 & Hx3 & Hsh3).
  rewrite Nat2Z.id, Hxl in Hsh3.
  eexists _, x3.
  unfold SameSizeCatAndContEmbeddings_forward.
  cbn [SameSizeCatAndContEmbeddings_train scc_cat_embed_input scc_cat_embed
       scc_continuous_cols scc_cont_idx scc_cont_norm scc_embed_continuous
       scc_cont_embed fmap option_fmap option_map read_attr rbind].
  rewrite Hfwd. cbn [rbind]. rewrite Hx. cbn [rbind]. rewrite Hx3. cbn [rbind].
  split; [reflexivity|]. split; [exact Hshape | exact Hsh3].
Qed.

(** X18. Shared-embedding additive mode of the fixed-width categorical
    embedder, evaluation mode, at least one column and no column listed
    twice, codes in range, and a dropout probability in [0, 1] when the
    dropout layers are [nn.Dropout].  The forward pass returns, for every batch row, one token per column of the spec, in the
    order of the spec: the row of the column's own table selected by the
    code, plus the column's own shared vector.  The output has shape
    (N, number of columns, embed_dim). *)
Theorem SameSizeCatEmbeddings_shared_additive_eval
    (embed_dim : Z) (column_idx : gmap string Z) (embed_input : list (string * Z))
    (embed_dropout : PyFloat) (full_embed_dropout : bool)
    (frac_shared_embed : PyFloat) (use_bias : option bool)
    (w : list string) (m : SameSizeCatEmbeddings) (X : Batch A)
    (Hinit : SameSizeCatEmbeddings_init embed_dim column_idx embed_input
               embed_dropout full_embed_dropout true true frac_shared_embed
               use_bias = (w, Ok m))
    (Hp : full_embed_dropout = false -> prob_in_range embed_dropout = true)
    (Hnd : NoDup (map fst embed_input))
    (Hne : embed_input <> [])
    (Hcodes : forall e, e ∈ embed_input ->
                exists i codes,
                  column_idx !! e.1 = Some i
                  /\ select_col X i = Ok codes
                  /\ Forall (fun a => 0 <= to_long a
                                      < (if String.eqb e.1 "cls_token"
                                         then e.2 else e.2 + 1)) codes) :
  exists d out,
    ssc_embed m = SSE_Dict d
    /\ SameSizeCatEmbeddings_forward (SameSizeCatEmbeddings_train false m) X = Ok out
    /\ has_shape3 (length (rows X)) (length embed_input) (Z.to_nat embed_dim) out
    /\ forall n xs, rows X !! n = Some xs ->
         out !! n = Some (map (shared_token d column_idx X xs) embed_input).
Proof.
  apply SameSizeCatEmbeddings_init_inv in Hinit
    as (cat_idx & bias & ed & _ & _ & Hed & _ & ->).
  apply rbind_Ok in Hed as (d & Hd & [= <-]).
  exists d. unfold SameSizeCatEmbeddings_forward.
  cbn [SameSizeCatEmbeddings_train ssc_shared_embed ssc_embed ssc_embed_input
       ssc_column_idx SameSizeEmbed_train fst snd].
  match goal with
  | |- context [rmapM ?f embed_input] =>
      destruct (rmapM_Forall_Ok f
                  (fun e t =>
                     (length t = length (rows X) /\ has_width 1 t)
                     /\ forall n xs, rows X !! n = Some xs ->
                          t !! n = Some [shared_token d column_idx X xs e]
                          /\ length (shared_token d column_idx X xs e)
                             = Z.to_nat embed_dim) embed_input)
        as (embed & Hembed & Hshape)
  end.
  { apply Forall_forall. intros e He.
    destruct (ModuleDict_build_lookup _ _ _ _ Hd Hnd e He) as (layer & Hmk & Hl).
    destruct (Hcodes e He) as (i & codes & Hi & Hsel & Hrange).
    cbn [rbind]. unfold ModuleDict_get, dict_get.
    rewrite lookup_fmap, Hl, Hi. cbn [fmap option_fmap option_map rbind].
    rewrite Hsel. cbn [rbind].
    assert (Hr : Forall (fun c => 0 <= c < (if String.eqb e.1 "cls_token"
                                             then e.2 else e.2 + 1))
                   (map to_long codes)).
    { apply Forall_fmap. exact Hrange. }
    destruct (SharedEmbeddings_forward_eval _ _ _ _ _ _ _ _ _ Hmk Hr Hp)
      as (_ & Hlw & Hfwd).
    destruct (SharedEmbeddings_init_inv _ _ _ _ _ _ _ _ Hmk)
      as (_ & _ & _ & Hd0 & _ & _ & _ & (k & Hk & _ & Hlen) & _).
    injection Hk as <-.
    rewrite Hfwd. unfold add_shared. rewrite Hlen, Nat.eqb_refl. cbn [rbind].
    eexists. split; [reflexivity|].
    destruct (select_col_lookup _ _ _ Hsel) as (j & Hj & Hcl & Hget).
    split.
    - split; [rewrite !length_map; exact Hcl|].
      unfold has_width. apply Forall_fmap. apply Forall_forall. reflexivity.
    - intros n xs Hn. destruct (Hget n xs Hn) as (a & Ha & Hcn).
      unfold shared_token. rewrite Hl, Hi, Hj, Ha.
      rewrite !list_lookup_fmap, Hcn. cbn [fmap option_fmap option_map].
      split; [reflexivity|].
      rewrite length_zip_with, Hlen.
      assert (Hrow : length (default [] (emb_weight (se_embed layer)
                                           !! Z.to_nat (to_long a)))
                     = Z.to_nat embed_dim).
      { apply (proj1 (Forall_lookup _ _) Hlw n).
        rewrite !list_lookup_fmap, Hcn. reflexivity. }
      rewrite Hrow. lia. }
  rewrite Hembed. cbn [rbind].
  assert (Hsh1 : Forall2 (fun (e : string * Z) t =>
                    length t = length (rows X) /\ has_width ((fun _ => 1%nat) e) t)
                   embed_input embed).
  { eapply Forall2_impl; [exact Hshape|]. intros e t [H _]. exact H. }
  destruct (cat_dim1_shape _ _ _ _ Hne Hsh1) as (out & Hout & Hol & Hw1).
  exists out. split; [reflexivity|]. split; [exact Hout|].
  assert (Hlens : Forall (fun t => length t = length (rows X)) embed).
  { clear -Hsh1. induction Hsh1 as [|? ? ? ? [H _] _ IH]; constructor; auto. }
  destruct (cat_dim1_lookup _ _ _ Hout Hlens) as [_ Hcat].
  assert (Hrows : forall n xs, rows X !! n = Some xs ->
            out !! n = Some (map (shared_token d column_idx X xs) embed_input)).
  { intros n xs Hn.
    destruct (lookup_lt_is_Some_2 out n) as [row Hrow].
    { rewrite Hol. eapply lookup_lt_Some; eauto. }
    rewrite Hrow. f_equal. rewrite (Hcat n row Hrow).
    clear -Hshape Hn. induction Hshape as [|e t es ts [_ Ht] _ IH]; [reflexivity|].
    simpl. rewrite (proj1 (Ht n xs Hn)). simpl. now rewrite IH. }
  split; [|exact Hrows].
  split; [exact Hol|].
  apply Forall_lookup. intros n row Hrow.
  destruct (lookup_lt_is_Some_2 (rows X) n) as [xs Hn].
  { rewrite <- Hol. eapply lookup_lt_Some; eauto. }
  rewrite (Hrows n xs Hn) in Hrow. injection Hrow as <-.
  split; [now rewrite length_map|].
  unfold has_width. apply Forall_fmap.
  clear -Hshape Hn. induction Hshape as [|e t es ts [_ Ht] _ IH]; constructor.
  - exact (proj2 (Ht n xs Hn)).
  - exact IH.
Qed.

(** X21. A NaN dropout probability passes the constructor of the continuous
    embedder, which does not look at it, and the check [p < 0 or p > 1] of
    [F.dropout]; the forward pass then raises [RuntimeError], in training
    and in evaluation mode, on every batch of the embedder's width. *)
Theorem ContEmbeddings_dropout_nan
    (n_cont_cols embed_dim : Z) (use_bias : bool) (activation : option string)
    (m : ContEmbeddings) (X : list (list R)) (mode : bool)
    (Hinit : ContEmbeddings_init n_cont_cols embed_dim S754_nan use_bias
               activation = Ok m)
    (HX : has_width (Z.to_nat n_cont_cols) X) :
  check_p S754_nan = Ok tt
  /\ ContEmbeddings_forward (ContEmbeddings_train mode m) X = Raise RuntimeError.
Proof.
  split; [reflexivity|].
  destruct (ContEmbeddings_init_inv _ _ _ _ _ _ Hinit)
    as (Hdp & Htr & Hc & Hw & Hbias).
  rewrite (ContEmbeddings_forward_eq _ (Z.to_nat n_cont_cols) (Z.to_nat embed_dim));
    try assumption.
  - cbn [ContEmbeddings_train ce_embed_dropout ce_training].
    rewrite Hdp. reflexivity.
  - intros b Hbm. cbn [ContEmbeddings_train ce_bias] in Hbm. destruct use_bias.
    + destruct Hbias as (b0 & Hb0 & Hl & Hwd). rewrite Hb0 in Hbm.
      injection Hbm as <-. auto.
    + rewrite Hbias in Hbm. discriminate.
Qed.

End MoreProperties.

(** * The quantile loss *)

Lemma broadcast_zip_single_l {T U V : Type} (f : T -> U -> V) (a : T) (k : list U) :
  broadcast_zip f [a] k = Ok (map (f a) k).
Proof.
  unfold broadcast_zip. destruct k as [|b [|b' k]]; reflexivity.
Qed.

Lemma rmapM_id_Ok {S U : Type} (g : S -> U) (l : list S) :
  rmapM id (map (fun x => Ok (g x)) l) = Ok (map g l).
Proof.
  induction l as [|x l IH]; [reflexivity|].
  simpl. rewrite IH. reflexivity.
Qed.

Lemma select_col_wf {A : Type} (X : Batch A) (i : nat) :
  wf_batch X -> (i < n_features X)%nat ->
  exists col, select_col X (Z.of_nat i) = Ok col
              /\ Forall2 (fun r c => r !! i = Some c) (rows X) col.
Proof.
  intros Hwf Hi. unfold select_col, norm_index.
  replace ((0 <=? Z.of_nat i) && (Z.of_nat i <? Z.of_nat (n_features X))) with true
    by (symmetry; apply andb_true_iff; split; [apply Z.leb_le | apply Z.ltb_lt]; lia).
  cbn [rbind]. rewrite Nat2Z.id.
  apply rmapM_Forall_Ok.
  eapply Forall_impl; [exact Hwf|]. intros r Hr. cbv beta in Hr.
  destruct (lookup_lt_is_Some_2 r i) as [c Hc]; [lia|].
  exists c. unfold row_get. rewrite Hc. auto.
Qed.

Lemma cat_dim2_pointwise {S W U V : Type} (f : S -> W -> U -> list V)
    (ks : list S) (l1 : list U) (l2 : list W) :
  ks <> [] ->
  cat_dim2 (map (fun k => map (fun a => map (fun u => f k a u) l1) l2) ks)
  = Ok (map (fun a => map (fun u => concat (map (fun k => f k a u) ks)) l1) l2).
Proof.
  induction ks as [|k [|k' ks] IH]; intros Hne; [congruence| |].
  - simpl. f_equal. apply map_ext. intros a. apply map_ext. intros u.
    now rewrite app_nil_r.
  - change (cat_dim2 (map ?g (k :: k' :: ks)))
      with (r <~ cat_dim2 (map g (k' :: ks)) ;;
            if Nat.eqb (length (g k)) (length r)
               && forallb id (zip_with (fun a b => Nat.eqb (length a) (length b)) (g k) r)
            then Ok (zip_with (zip_with app) (g k) r)
            else Raise RuntimeError).
    rewrite IH by discriminate. cbn [rbind].
    rewrite !length_map, Nat.eqb_refl. cbn [andb].
    match goal with
    | |- (if forallb id ?l then _ else _) = _ =>
        assert (Hall : forallb id l = true)
    end.
    { rewrite zip_with_fmap_l, zip_with_fmap_r, zip_with_diag.
      apply forallb_forall. intros b Hb. apply in_map_iff in Hb as (x & <- & _).
      rewrite !length_map. apply Nat.eqb_refl. }
    rewrite Hall. f_equal.
    rewrite zip_with_fmap_l, zip_with_fmap_r, zip_with_diag.
    apply map_ext. intros a.
    rewrite zip_with_fmap_l, zip_with_fmap_r, zip_with_diag. reflexivity.
Qed.

Lemma rmapM_map_Ok {S U : Type} (f : S -> result U) (g : S -> U) (l : list S) :
  (forall x, x ∈ l -> f x = Ok (g x)) -> rmapM f l = Ok (map g l).
Proof.
  induction l as [|x l IH]; intros H; [reflexivity|].
  simpl. rewrite (H x) by (left). cbn [rbind].
  rewrite IH by (intros y Hy; apply H; now right). reflexivity.
Qed.

Lemma concat_imap_lookup {Q U V : Type} (h : Q -> U -> V) (qs : list Q) (xrow : list U) :
  concat (imap (fun i q => from_option (fun x => [h q x]) [] (xrow !! i)) qs)
  = zip_with h qs xrow.
Proof.
  revert xrow. induction qs as [|q qs IH]; intros xrow; [reflexivity|].
  rewrite imap_cons. cbn [concat].
  rewrite (imap_ext _ (fun i q => from_option (fun x => [h q x]) [] (tail xrow !! i)))
    by (intros i x _; destruct xrow; reflexivity).
  rewrite IH. destruct xrow as [|x xs]; [|reflexivity].
  simpl. now destruct qs.
Qed.

Lemma length_concat_const {S U : Type} (g : S -> list U) (c : nat) (l : list S) :
  Forall (fun x => length (g x) = c) l ->
  length (concat (map g l)) = (length l * c)%nat.
Proof.
  induction 1 as [|x l Hx _ IH]; [reflexivity|].
  simpl. rewrite length_app, Hx, IH. reflexivity.
Qed.

Section LossProperties.
Context {T R : Type} `{LEng : LossEngine T R}.

Lemma QuantileLoss_errors (target : list T) (col : list R) :
  (rs <~ broadcast_zip (broadcast_zip Lsub) (map (fun t => [Lfloat t]) target) [col] ;;
   rmapM id rs)
  = Ok (map (fun t => map (Lsub (Lfloat t)) col) target).
Proof.
  rewrite broadcast_zip_single. cbn [rbind].
  rewrite map_map.
  rewrite (map_ext _ (fun t => Ok (map (Lsub (Lfloat t)) col)))
    by (intros t; apply broadcast_zip_single_l).
  apply rmapM_id_Ok.
Qed.

Lemma QuantileLoss_forward_eq (self : QuantileLoss) (input : Batch R) (target : list T) :
  wf_batch input ->
  length (rows input) = length target ->
  n_features input = length (ql_quantiles self) ->
  ql_quantiles self <> [] ->
  QuantileLoss_forward self input target
  = Ok (Lmean (concat (concat
         (map (fun t => map (quantile_row (ql_quantiles self) t) (rows input))
              target)))).
Proof.
  intros Hwf Hn Hq Hne. unfold QuantileLoss_forward.
  rewrite Hn, Hq, !Nat.eqb_refl. cbn [andb negb].
  set (qs := ql_quantiles self) in *.
  rewrite (rmapM_map_Ok _
             (fun iq : nat * PyFloat =>
                map (fun t =>
                       map (fun xrow : list R =>
                              from_option
                                (fun x => [quantile_term iq.2 (Lsub (Lfloat t) x)])
                                [] (xrow !! iq.1))
                           (rows input)) target)).
  2:{ intros [i q] Hiq. cbn [fst snd].
      apply list_elem_of_lookup in Hiq as [j Hj].
      rewrite list_lookup_imap in Hj.
      destruct (qs !! j) as [q'|] eqn:Hqj; [|discriminate].
      injection Hj as <- <-.
      destruct (select_col_wf input j Hwf) as (col & Hcol & Hrel).
      { rewrite Hq. eapply lookup_lt_Some; eauto. }
      rewrite Hcol. cbn [rbind]. rewrite QuantileLoss_errors. cbn [rbind].
      f_equal. rewrite map_map. apply map_ext. intros t. rewrite map_map.
      clear -Hrel. induction Hrel as [|r c rs cs Hrc _ IH]; [reflexivity|].
      simpl. rewrite Hrc, IH. reflexivity. }
  cbn [rbind].
  rewrite (cat_dim2_pointwise
             (fun (iq : nat * PyFloat) (t : T) (xrow : list R) =>
                from_option (fun x => [quantile_term iq.2 (Lsub (Lfloat t) x)])
                  [] (xrow !! iq.1))).
  2:{ intros Himap. apply (f_equal length) in Himap.
      rewrite length_imap in Himap. destruct qs; [congruence|discriminate]. }
  cbn [rbind]. do 4 f_equal. apply map_ext. intros t. apply map_ext. intros xrow.
  unfold quantile_row.
  rewrite <- (concat_imap_lookup (fun q x => quantile_term q (Lsub (Lfloat t) x))).
  f_equal. change (map ?g (imap pair qs)) with (g <$> imap pair qs).
  rewrite fmap_imap. reflexivity.
Qed.

(** X19. The quantile loss pairs every target value with every row of
    predictions.  For an input of shape (N, Q), a target of N values and a
    non-empty list of Q quantiles, the forward pass returns the mean of the
    N*N*Q terms max((q_i - 1) * e, q_i * e) with e = target_n - input_m,i,
    for all n and m, including n different from m. *)
Theorem QuantileLoss_all_pairs (self : QuantileLoss) (input : Batch R) (target : list T)
    (Hwf : wf_batch input)
    (Hn : length (rows input) = length target)
    (Hq : n_features input = length (ql_quantiles self))
    (Hne : ql_quantiles self <> []) :
  let terms :=
    concat (concat
      (map (fun t => map (quantile_row (ql_quantiles self) t) (rows input)) target)) in
  QuantileLoss_forward self input target = Ok (Lmean terms)
  /\ length terms
     = (length target * (length target * length (ql_quantiles self)))%nat.
Proof.
  split; [now apply QuantileLoss_forward_eq|].
  change (concat (map ?g target)) with (concat (map g target)).
  rewrite <- Hn at 2.
  rewrite <- (length_map (fun t => concat (map (quantile_row (ql_quantiles self) t)
                                              (rows input))) target) at 1.
  assert (Hrow : forall t,
            length (concat (map (quantile_row (ql_quantiles self) t) (rows input)))
            = (length (rows input) * length (ql_quantiles self))%nat).
  { intros t. apply length_concat_const.
    eapply Forall_impl; [exact Hwf|]. intros r Hr. cbv beta in Hr.
    unfold quantile_row. rewrite length_zip_with, Hr, Hq. lia. }
  rewrite length_map.
  transitivity (length (concat (map (fun t => concat (map (quantile_row (ql_quantiles self) t)
                                              (rows input))) target))).
  { f_equal. clear. induction target as [|t l IH]; [reflexivity|].
    simpl. rewrite concat_app, IH. reflexivity. }
  apply length_concat_const. apply Forall_forall. intros t _. apply Hrow.
Qed.

(** X20. For a well-formed input the quantile loss returns a value exactly
    when the input has shape (N, Q) for the N target values and the Q
    quantiles and Q is not zero.  A wrong shape raises AssertionError; an
    empty list of quantiles with an input of shape (N, 0) raises
    ValueError. *)
Theorem QuantileLoss_returns_iff (self : QuantileLoss) (input : Batch R) (target : list T)
    (Hwf : wf_batch input) :
  (is_ok (QuantileLoss_forward self input target) = true
   <-> (length (rows input) = length target
        /\ n_features input = length (ql_quantiles self)
        /\ ql_quantiles self <> []))
  /\ ((length (rows input) <> length target
       \/ n_features input <> length (ql_quantiles self)) ->
      QuantileLoss_forward self input target = Raise AssertionError)
  /\ (length (rows input) = length target ->
      n_features input = 0%nat -> ql_quantiles self = [] ->
      QuantileLoss_forward self input target = Raise ValueError).
Proof.
  assert (Hbad : length (rows input) <> length target
                 \/ n_features input <> length (ql_quantiles self) ->
                 QuantileLoss_forward self input target = Raise AssertionError).
  { intros Hs. unfold QuantileLoss_forward.
    destruct Hs as [Hs | Hs]; apply Nat.eqb_neq in Hs; rewrite Hs;
      rewrite ?andb_false_r; reflexivity. }
  assert (Hempty : length (rows input) = length target ->
                   n_features input = 0%nat -> ql_quantiles self = [] ->
                   QuantileLoss_forward self input target = Raise ValueError).
  { intros Hn Hf Hqs. unfold QuantileLoss_forward.
    rewrite Hn, Hf, Hqs, Nat.eqb_refl. reflexivity. }
  split; [|split; assumption].
  split.
  - intros Hok.
    destruct (Nat.eq_dec (length (rows input)) (length target)) as [Hn|Hn].
    2:{ rewrite Hbad in Hok by (now left). discriminate. }
    destruct (Nat.eq_dec (n_features input) (length (ql_quantiles self))) as [Hq|Hq].
    2:{ rewrite Hbad in Hok by (now right). discriminate. }
    repeat split; try assumption. intros Hqs.
    rewrite Hempty in Hok; [discriminate|assumption| |assumption].
    rewrite Hq, Hqs. reflexivity.
  - intros (Hn & Hq & Hne). rewrite QuantileLoss_forward_eq by assumption. reflexivity.
Qed.

End LossProperties.

(** * Worked examples

    The theorems above, applied over the integer engine to explicit
    specs and batches. *)

Lemma SharedEmbeddings_frac_check_witness :
  SharedEmbeddings_init (Eng := Z_engine) "emb_layer_a" 4 8 float_0_1 false false float_one
  = Raise AssertionError
  /\ SharedEmbeddings_init (Eng := Z_engine) "emb_layer_a" 4 8 float_0_1 false false float_0_25
     <> Raise AssertionError
  /\ is_ok (SameSizeCatEmbeddings_init (Eng := Z_engine) 8 demo_column_idx
              [("a", 3); ("b", 3)] float_0_1 false true false float_one (Some true)).2
     = false.
Proof.
  split; [|split].
  - apply (proj1 (SharedEmbeddings_frac_check "emb_layer_a" 4 8 float_0_1 false false
                    float_one)).
    vm_compute. reflexivity.
  - apply (proj1 (proj2 (SharedEmbeddings_frac_check "emb_layer_a" 4 8 float_0_1 false
                           false float_0_25))).
    vm_compute. reflexivity.
  - apply (proj2 (proj2 (SharedEmbeddings_frac_check "emb_layer_a" 4 8 float_0_1 false
                           false float_one))).
    vm_compute. reflexivity.
Defined.

Lemma SameSizeCatEmbeddings_shared_bias_ignored_witness :
  (SameSizeCatEmbeddings_init (Eng := Z_engine) 4 demo_column_idx [("a", 3); ("b", 3)]
     float_0_1 false true false float_0_5 (Some true)).1 = [bias_warning]
  /\ is_ok (SameSizeCatEmbeddings_init (Eng := Z_engine) 4 demo_column_idx
              [("a", 3); ("b", 3)] float_0_1 false true false float_0_5 (Some true)).2
     = true
  /\ (SameSizeCatEmbeddings_init (Eng := Z_engine) 0 demo_column_idx []
        float_0_1 false true false float_0_5 (Some true)).1
     = [zero_element_warning; bias_warning].
Proof.
  split; [|split].
  - refine (proj1 (SameSizeCatEmbeddings_shared_bias_ignored 4 demo_column_idx
                     [("a", 3); ("b", 3)] float_0_1 false false float_0_5 [0; 1]
                     [[1; 2; 3; 4]; [2; 3; 4; 5]] _ _)).
    + vm_compute. reflexivity.
    + vm_compute. reflexivity.
  - refine (eq_trans (proj1 (proj2 (SameSizeCatEmbeddings_shared_bias_ignored 4
                                      demo_column_idx [("a", 3); ("b", 3)] float_0_1
                                      false false float_0_5 [0; 1]
                                      [[1; 2; 3; 4]; [2; 3; 4; 5]] _ _))) _).
    + vm_compute. reflexivity.
    + vm_compute. reflexivity.
    + vm_compute. reflexivity.
  - refine (proj1 (SameSizeCatEmbeddings_shared_bias_ignored 0 demo_column_idx
                     [] float_0_1 false false float_0_5 [] [] _ _)).
    + vm_compute. reflexivity.
    + vm_compute. reflexivity.
Defined.


Lemma ContEmbeddings_forward_formula_witness :
  exists m,
    ContEmbeddings_init (Eng := Z_engine) 2 3 float_0_1 true (Some "relu") = Ok m
    /\ ContEmbeddings_forward (ContEmbeddings_train false m) [[3; -4]; [5; 6]]
       = Ok (cont_formula m [[3; -4]; [5; 6]])
    /\ cont_formula m [[3; -4]; [5; 6]]
       = [[[4; 8; 12]; [0; 0; 0]]; [[6; 12; 18]; [14; 21; 28]]].
Proof.
  eexists. split; [reflexivity|]. split.
  - refine (proj1 (ContEmbeddings_forward_formula 2 3 float_0_1 true (Some "relu")
                     _ [[3; -4]; [5; 6]] eq_refl _ _)).
    + vm_compute. reflexivity.
    + repeat constructor.
  - vm_compute. reflexivity.
Defined.

Lemma SharedEmbeddings_overwrite_mode_witness :
  exists m shared_width lookup out,
    SharedEmbeddings_init (Eng := Z_engine) "emb_layer_a" 4 8 float_0_1 false false
      float_0_25 = Ok m
    /\ shared_width = 2
    /\ Embedding_forward1 (se_embed m) [1; 3; 0] = Ok lookup
    /\ SharedEmbeddings_forward (SharedEmbeddings_train false m) [1; 3; 0] = Ok out
    /\ forall n row,
         out !! n = Some row ->
         exists e, lookup !! n = Some e
                   /\ length row = 8%nat
                   /\ take (Z.to_nat shared_width) row = se_shared_embed m
                   /\ drop (Z.to_nat shared_width) row = drop (Z.to_nat shared_width) e.
Proof.
  destruct (SharedEmbeddings_overwrite_mode (Eng := Z_engine) "emb_layer_a" 4 8
              float_0_1 false float_0_25 _ [1; 3; 0]
              (or_intror (or_introl eq_refl)) eq_refl (fun _ => eq_refl))
    as (k & lookup & out & Hk & _ & _ & Hl & Hout & _ & Hrows).
  - repeat constructor; lia.
  - eexists _, k, lookup, out. split; [reflexivity|].
    split; [vm_compute in Hk; congruence|].
    split; [exact Hl|]. split; [exact Hout|]. exact Hrows.
Defined.


Lemma demo_codes_in_range :
  codes_in_range (Eng := Z_engine) demo_column_idx demo_cat_spec demo_batch.
Proof.
  intros e He. unfold demo_cat_spec in He.
  apply elem_of_cons in He as [-> | He];
    [|apply elem_of_cons in He as [-> | He]; [|inversion He]].
  - exists 0, [1; 3]. split; [reflexivity|]. split; [reflexivity|].
    repeat constructor; vm_compute; discriminate.
  - exists 1, [2; 0]. split; [reflexivity|]. split; [reflexivity|].
    repeat constructor; vm_compute; discriminate.
Defined.

Lemma demo_cat_NoDup : NoDup (map col_of demo_cat_spec).
Proof. apply (bool_decide_unpack _). vm_compute. reflexivity. Defined.

Lemma DiffSizeCatEmbeddings_lookups_in_bounds_witness :
  exists m out,
    DiffSizeCatEmbeddings_init (Eng := Z_engine) demo_column_idx demo_cat_spec float_0_1
    = Ok m
    /\ DiffSizeCatEmbeddings_forward (DiffSizeCatEmbeddings_train false m) demo_batch
       = Ok out
    /\ length out = 2%nat
    /\ DiffSizeCatEmbeddings_forward (DiffSizeCatEmbeddings_train true m) demo_batch
       <> Raise IndexError.
Proof.
  destruct (DiffSizeCatEmbeddings_lookups_in_bounds (Eng := Z_engine) demo_column_idx
              demo_cat_spec float_0_1 _ demo_batch eq_refl
              demo_codes_in_range) as (_ & _ & Hno & Hok).
  destruct (Hok ltac:(discriminate) eq_refl false) as (out & Hout & Hlen).
  eexists _, out. split; [reflexivity|]. split; [exact Hout|].
  split; [exact Hlen|]. apply Hno.
Defined.

Lemma demo_batch_ok :
  batch_ok (Eng := Z_engine) demo_column_idx (Some demo_cat_spec) (Some ["c"])
    demo_batch.
Proof.
  split; [repeat constructor|]. split.
  - intros ei [= <-]. exact demo_codes_in_range.
  - intros cols [= <-] c Hc. apply elem_of_cons in Hc as [-> | Hc]; [|inversion Hc].
    exists 2. split; reflexivity.
Defined.

Lemma demo_cat_spec_ok : cat_spec_ok (Some demo_cat_spec).
Proof.
  intros ei [= <-]. split; [discriminate|]. split; [exact demo_cat_NoDup|].
  vm_compute. discriminate.
Defined.

Lemma DiffSizeCatAndContEmbeddings_output_dim_witness :
  exists m x_cat x_cont,
    DiffSizeCatAndContEmbeddings_init (Eng := Z_engine) demo_column_idx
      (Some demo_cat_spec) float_0_1 (Some ["c"]) true 2 float_0_1 (Some "relu") true
      (Some "batchnorm") = Ok m
    /\ getattr (DiffSizeCatAndContEmbeddings_dict m) "output_dim" = Ok (VInt 7)
    /\ DiffSizeCatAndContEmbeddings_forward
         (DiffSizeCatAndContEmbeddings_train true m) demo_batch
       = Ok (Some x_cat, Some x_cont)
    /\ has_width 5 x_cat /\ has_width 2 x_cont.
Proof.
  destruct (DiffSizeCatAndContEmbeddings_output_dim (Eng := Z_engine) demo_column_idx
              (Some demo_cat_spec) float_0_1 (Some ["c"]) true 2 float_0_1
              (Some "relu") true (Some "batchnorm") _ demo_batch true eq_refl
              demo_cat_spec_ok (fun _ => eq_refl) (fun _ _ => eq_refl) demo_batch_ok)
    as (Hattr & (x_cat & x_cont & wc & wn & Hfwd & Hwc & Hwn & _ & _ & _) & _).
  - intros _ _. vm_compute. discriminate.
  - vm_compute in Hfwd. injection Hfwd as <- <-.
    eexists _, _, _. split; [reflexivity|]. split; [exact Hattr|].
    split; [vm_compute; reflexivity|].
    split; repeat constructor.
Defined.

Lemma SameSizeCatAndContEmbeddings_no_output_dim :
  exists m,
    SameSizeCatAndContEmbeddings_init (Eng := Z_engine) 4 demo_column_idx
      (Some [("a", 3); ("b", 3)]) float_0_1 false false false float_0_25 (Some true)
      (Some ["c"]) true float_0_1 None true None = ([], Ok m)
    /\ is_ok (SameSizeCatAndContEmbeddings_forward m demo_batch) = true
    /\ getattr (SameSizeCatAndContEmbeddings_dict m) "output_dim"
       = Raise AttributeError.
Proof.
  eexists. split; [reflexivity|]. split; vm_compute; reflexivity.
Defined.

(** ** Worked examples for the further properties *)

Lemma DiffSizeCatEmbeddings_eval_rows_witness :
  exists m out,
    DiffSizeCatEmbeddings_init (Eng := Z_engine) demo_column_idx demo_cat_spec float_0_1
    = Ok m
    /\ DiffSizeCatEmbeddings_forward (DiffSizeCatEmbeddings_train false m) demo_batch
       = Ok out
    /\ out !! 0%nat = Some [2; 3; 3; 4; 5]
    /\ out !! 1%nat = Some [4; 5; 0; 0; 0].
Proof.
  destruct (DiffSizeCatEmbeddings_eval_rows (Eng := Z_engine) demo_column_idx
              demo_cat_spec float_0_1 _ demo_batch eq_refl eq_refl demo_cat_NoDup
              ltac:(discriminate) demo_codes_in_range) as (out & Hout & _ & Hrows).
  eexists _, out. split; [reflexivity|]. split; [exact Hout|]. split.
  - rewrite (Hrows 0%nat [1; 2; 7] eq_refl). vm_compute. reflexivity.
  - rewrite (Hrows 1%nat [3; 0; 9] eq_refl). vm_compute. reflexivity.
Defined.

Lemma padding_codes_in_range :
  codes_in_range (Eng := Z_engine) demo_column_idx demo_cat_spec
    {| n_features := 3; rows := [[0; 0; 7]; [1; 2; 9]] |}.
Proof.
  intros e He. unfold demo_cat_spec in He.
  apply elem_of_cons in He as [-> | He];
    [|apply elem_of_cons in He as [-> | He]; [|inversion He]].
  - exists 0, [0; 1]. split; [reflexivity|]. split; [reflexivity|].
    repeat constructor; vm_compute; discriminate.
  - exists 1, [0; 2]. split; [reflexivity|]. split; [reflexivity|].
    repeat constructor; vm_compute; discriminate.
Defined.

Lemma DiffSizeCatEmbeddings_padding_codes_witness :
  exists m out,
    DiffSizeCatEmbeddings_init (Eng := Z_engine) demo_column_idx demo_cat_spec float_0_1
    = Ok m
    /\ DiffSizeCatEmbeddings_forward (DiffSizeCatEmbeddings_train false m)
         {| n_features := 3; rows := [[0; 0; 7]; [1; 2; 9]] |} = Ok out
    /\ out !! 0%nat = Some [0; 0; 0; 0; 0].
Proof.
  destruct (DiffSizeCatEmbeddings_padding_codes (Eng := Z_engine) demo_column_idx
              demo_cat_spec float_0_1 _
              {| n_features := 3; rows := [[0; 0; 7]; [1; 2; 9]] |} 0%nat [0; 0; 7]
              eq_refl eq_refl demo_cat_NoDup ltac:(discriminate) padding_codes_in_range
              eq_refl)
    as (out & Hout & Hrow).
  - intros e He. unfold demo_cat_spec in He.
    apply elem_of_cons in He as [-> | He];
      [|apply elem_of_cons in He as [-> | He]; [|inversion He]].
    + exists 0, 0%nat, 0. repeat split.
    + exists 1, 1%nat, 0. repeat split.
  - eexists _, out. split; [reflexivity|]. split; [exact Hout|]. exact Hrow.
Defined.

Lemma DiffSizeCatEmbeddings_missing_column_witness :
  exists m,
    DiffSizeCatEmbeddings_init (Eng := Z_engine) {[ "a" := 0 ]} demo_cat_spec float_0_1
    = Ok m
    /\ is_ok (DiffSizeCatEmbeddings_forward (DiffSizeCatEmbeddings_train false m)
                demo_batch) = false.
Proof.
  eexists. split; [reflexivity|].
  refine (proj1 (proj2 (DiffSizeCatEmbeddings_missing_column (Eng := Z_engine)
                          {[ "a" := 0 ]} demo_column_idx demo_cat_spec float_0_1 _
                          ("b", 3, 3) eq_refl _ _) false demo_batch)).
  - repeat constructor.
  - reflexivity.
Defined.

Lemma SameSizeCatEmbeddings_missing_column_witness :
  SameSizeCatEmbeddings_init (Eng := Z_engine) 4 {[ "a" := 0 ]} [("a", 3); ("b", 3)]
    float_0_1 false false false float_0_25 (Some true)
  = ([], Raise KeyError).
Proof.
  refine (SameSizeCatEmbeddings_missing_column (Eng := Z_engine) 4 {[ "a" := 0 ]}
            [("a", 3); ("b", 3)] float_0_1 false false false float_0_25 (Some true)
            ("b", 3) _ _).
  - repeat constructor.
  - reflexivity.
Defined.

Lemma DiffSizeCatAndContEmbeddings_empty_list_witness :
  exists m,
    DiffSizeCatAndContEmbeddings_init (Eng := Z_engine) demo_column_idx (Some [])
      float_0_1 None false 2 float_0_1 None true (Some "batchnorm") = Ok m
    /\ dcc_output_dim m = 0
    /\ DiffSizeCatAndContEmbeddings_forward
         (DiffSizeCatAndContEmbeddings_train false m) demo_batch = Raise ValueError.
Proof.
  destruct (DiffSizeCatAndContEmbeddings_empty_list (Eng := Z_engine) demo_column_idx
              float_0_1 false 2 float_0_1 None true (Some "batchnorm"))
    as (m & Hm & Hdim & Hfwd).
  - vm_compute. reflexivity.
  - exists m. split; [exact Hm|]. split; [exact Hdim|]. apply Hfwd.
Defined.

Lemma DiffSizeCatEmbeddings_duplicate_column_witness :
  exists m layer,
    DiffSizeCatEmbeddings_init (Eng := Z_engine) demo_column_idx
      [("a", 5, 2); ("a", 3, 2)] float_0_1 = Ok m
    /\ dce_embed_layers m !! layer_key "a" = Some layer
    /\ length (emb_weight layer) = 4%nat
    /\ embedding_lookup layer 5 = Raise IndexError.
Proof.
  destruct (DiffSizeCatEmbeddings_duplicate_column (Eng := Z_engine) demo_column_idx
              [("a", 5, 2)] [] ("a", 3, 2) float_0_1 _ eq_refl)
    as (layer & Hl & Hlen & _ & Hearlier).
  - intros H. inversion H.
  - eexists _, layer. split; [reflexivity|]. split; [exact Hl|].
    split; [exact Hlen|].
    apply (proj2 (Hearlier ("a", 5, 2) ltac:(repeat constructor) eq_refl)).
    vm_compute. reflexivity.
Defined.

Lemma ContEmbeddings_dropout_checked_late_witness :
  exists m,
    ContEmbeddings_init (Eng := Z_engine) 2 3 float_2 true (Some "relu") = Ok m
    /\ ContEmbeddings_forward (ContEmbeddings_train false m) [[3; -4]; [5; 6]]
       = Raise ValueError.
Proof.
  eexists. split; [reflexivity|].
  refine (proj2 (ContEmbeddings_dropout_checked_late (Eng := Z_engine) 2 3 float_2
                   float_0_1 true (Some "relu") _ eq_refl _) false [[3; -4]; [5; 6]] _).
  - vm_compute. reflexivity.
  - repeat constructor.
Defined.

Lemma ContEmbeddings_single_column_broadcast_witness :
  exists m,
    ContEmbeddings_init (Eng := Z_engine) 2 3 float_0_1 true (Some "relu") = Ok m
    /\ ContEmbeddings_forward (ContEmbeddings_train false m) [[3]; [5]]
       = ContEmbeddings_forward (ContEmbeddings_train false m) [[3; 3]; [5; 5]].
Proof.
  eexists. split; [reflexivity|].
  refine (proj1 (ContEmbeddings_single_column_broadcast (Eng := Z_engine) 2 3 float_0_1
                   true (Some "relu") _ [[3]; [5]] false eq_refl _)).
  repeat constructor.
Defined.

Lemma ContEmbeddings_width_mismatch_witness :
  exists m,
    ContEmbeddings_init (Eng := Z_engine) 2 3 float_0_1 true (Some "relu") = Ok m
    /\ ContEmbeddings_forward (ContEmbeddings_train false m) [[1; 2; 3]]
       = Raise RuntimeError.
Proof.
  eexists. split; [reflexivity|].
  refine (ContEmbeddings_width_mismatch (Eng := Z_engine) 2 3 float_0_1 true
            (Some "relu") _ [1; 2; 3] [] false eq_refl _ _ _).
  - vm_compute. discriminate.
  - vm_compute. discriminate.
  - lia.
Defined.

Lemma SharedEmbeddings_full_dropout_training_witness :
  exists m,
    SharedEmbeddings_init (Eng := Z_engine) "emb_layer_a" 4 8 float_0_1 true false
      float_0_25 = Ok m
    /\ SharedEmbeddings_forward m [1; 3; 0] = Raise AttributeError.
Proof.
  eexists. split; [reflexivity|].
  refine (proj2 (SharedEmbeddings_full_dropout_training (Eng := Z_engine) "emb_layer_a"
                   4 8 float_0_1 false float_0_25 _ [1; 3; 0] eq_refl) _).
  repeat constructor; lia.
Defined.

Lemma SameSizeCatEmbeddings_full_dropout_training_witness :
  exists m,
    SameSizeCatEmbeddings_init (Eng := Z_engine) 4 demo_column_idx [("a", 3); ("b", 3)]
      float_0_1 true false false float_0_25 (Some true) = ([], Ok m)
    /\ is_ok (SameSizeCatEmbeddings_forward m demo_batch) = false.
Proof.
  eexists. split; [reflexivity|].
  exact (SameSizeCatEmbeddings_full_dropout_training (Eng := Z_engine) 4
           demo_column_idx [("a", 3); ("b", 3)] float_0_1 false false float_0_25
           (Some true) [] _ demo_batch eq_refl).
Defined.

Lemma SameSizeCatEmbeddings_single_table_eval_witness :
  exists m,
    SameSizeCatEmbeddings_init (Eng := Z_engine) 4 demo_column_idx [("a", 3); ("b", 3)]
      float_0_1 false false false float_0_25 (Some true) = ([], Ok m)
    /\ ssc_n_tokens m = 6
    /\ SameSizeCatEmbeddings_forward (SameSizeCatEmbeddings_train false m) demo_batch
       = Ok [[[3; 5; 7; 9]; [5; 7; 9; 11]]; [[5; 7; 9; 11]; [2; 3; 4; 5]]].
Proof.
  edestruct (SameSizeCatEmbeddings_single_table_eval (Eng := Z_engine) 4
               demo_column_idx [("a", 3); ("b", 3)] float_0_1 false false float_0_25
               true [] _ demo_batch [[1; 2]; [3; 0]] eq_refl (fun _ => eq_refl)
               eq_refl)
    as (table & b & Htable & Hb & Hn & _ & Hfwd & _).
  - repeat constructor; vm_compute; discriminate.
  - eexists. split; [reflexivity|]. split; [exact Hn|].
    rewrite Hfwd. injection Htable as <-. injection Hb as <-.
    vm_compute. reflexivity.
Defined.

Lemma SameSizeCatEmbeddings_shared_tables_witness :
  exists m d layer,
    SameSizeCatEmbeddings_init (Eng := Z_engine) 4
      (<["cls_token" := 3]> demo_column_idx)
      [("cls_token", 1); ("a", 3)] float_0_1 false true true float_0_25 None
    = ([], Ok m)
    /\ ssc_embed m = SSE_Dict d
    /\ d !! layer_key "cls_token" = Some layer
    /\ length (emb_weight (se_embed layer)) = 1%nat
    /\ embedding_lookup (se_embed layer) 1 = Raise IndexError.
Proof.
  edestruct (SameSizeCatEmbeddings_shared_tables (Eng := Z_engine) 4
               (<["cls_token" := 3]> demo_column_idx)
               [("cls_token", 1); ("a", 3)] float_0_1 false true float_0_25 None [])
    as (d & Hd & Hlayers).
  - vm_compute. reflexivity.
  - apply (bool_decide_unpack _). vm_compute. reflexivity.
  - destruct (Hlayers ("cls_token", 1) ltac:(repeat constructor))
      as (layer & Hl & Hlen & _ & Hcls & _).
    eexists _, d, layer. split; [reflexivity|]. split; [exact Hd|].
    split; [exact Hl|]. split; [exact Hlen|]. apply Hcls. reflexivity.
Defined.

Lemma DiffSizeCatAndContEmbeddings_raw_continuous_witness :
  exists m,
    DiffSizeCatAndContEmbeddings_init (Eng := Z_engine) demo_column_idx None float_0_1
      (Some ["c"; "a"]) false 2 float_0_1 None true None = Ok m
    /\ DiffSizeCatAndContEmbeddings_forward
         (DiffSizeCatAndContEmbeddings_train true m) demo_batch
       = Ok (None, Some [[7; 1]; [9; 3]])
    /\ dcc_output_dim m = 2.
Proof.
  destruct (DiffSizeCatAndContEmbeddings_raw_continuous (Eng := Z_engine)
              demo_column_idx float_0_1 ["c"; "a"] 2 float_0_1 None true None _
              demo_batch true eq_refl ltac:(discriminate) ltac:(discriminate))
    as (idx & sel & Hidx & Hsel & Hfwd & Hdim).
  - repeat constructor.
  - intros c Hc.
    apply elem_of_cons in Hc as [-> | Hc];
      [|apply elem_of_cons in Hc as [-> | Hc]; [|inversion Hc]].
    + exists 2. split; reflexivity.
    + exists 0. split; reflexivity.
  - eexists. split; [reflexivity|]. split; [|exact Hdim].
    rewrite Hfwd. vm_compute in Hidx. injection Hidx as <-.
    vm_compute in Hsel. injection Hsel as <-. reflexivity.
Defined.

Lemma DiffSizeCatAndContEmbeddings_batchnorm_single_row_witness :
  exists m,
    DiffSizeCatAndContEmbeddings_init (Eng := Z_engine) demo_column_idx None float_0_1
      (Some ["c"]) false 2 float_0_1 None true (Some "batchnorm") = Ok m
    /\ DiffSizeCatAndContEmbeddings_forward m
         {| n_features := 3; rows := [[1; 2; 7]] |} = Raise ValueError.
Proof.
  eexists. split; [reflexivity|].
  refine (proj1 (DiffSizeCatAndContEmbeddings_batchnorm_single_row (Eng := Z_engine)
                   demo_column_idx float_0_1 ["c"] false 2 float_0_1 None true _
                   {| n_features := 3; rows := [[1; 2; 7]] |} eq_refl _ _ eq_refl)).
  - repeat constructor.
  - intros c Hc. apply elem_of_cons in Hc as [-> | Hc]; [|inversion Hc].
    exists 2. split; reflexivity.
Defined.

Lemma DiffSizeCatEmbeddings_dotted_column_witness :
  DiffSizeCatEmbeddings_init (Eng := Z_engine) demo_column_idx
    [("a", 3, 2); ("b.1", 3, 3)] float_0_1 = Raise KeyError.
Proof.
  refine (DiffSizeCatEmbeddings_dotted_column (Eng := Z_engine) demo_column_idx
            [("a", 3, 2); ("b.1", 3, 3)] float_0_1 ("b.1", 3, 3) _ _ _).
  - repeat constructor.
  - reflexivity.
  - repeat constructor.
Defined.

Lemma SameSizeCatAndContEmbeddings_token_layout_witness :
  exists m x_cat x_cont,
    SameSizeCatAndContEmbeddings_init (Eng := Z_engine) 4 demo_column_idx
      (Some [("a", 3); ("b", 3)]) float_0_1 false false false float_0_25 (Some true)
      (Some ["c"]) true float_0_1 None true None = ([], Ok m)
    /\ SameSizeCatAndContEmbeddings_forward
         (SameSizeCatAndContEmbeddings_train false m) demo_batch
       = Ok (Some x_cat, Some (Rank3 x_cont))
    /\ has_shape3 2 2 4 x_cat
    /\ has_shape3 2 1 4 x_cont.
Proof.
  destruct (SameSizeCatAndContEmbeddings_token_layout (Eng := Z_engine) 4
              demo_column_idx [("a", 3); ("b", 3)] float_0_1 false false float_0_25
              true ["c"] float_0_1 None true None [] _ demo_batch eq_refl
              (fun _ => eq_refl) eq_refl)
    as (x_cat & x_cont & Hfwd & Hcat & Hcont).
  - repeat constructor.
  - intros c Hc. apply elem_of_cons in Hc as [-> | Hc]; [|inversion Hc].
    exists 2. split; reflexivity.
  - intros idx Hidx. vm_compute in Hidx. injection Hidx as <-.
    exists [[1; 2]; [3; 0]]. split; [reflexivity|].
    repeat constructor; vm_compute; discriminate.
  - eexists _, x_cat, x_cont. split; [reflexivity|]. split; [exact Hfwd|].
    split; [exact Hcat | exact Hcont].
Defined.

Lemma SameSizeCatEmbeddings_shared_additive_eval_witness :
  exists m out,
    SameSizeCatEmbeddings_init (Eng := Z_engine) 4 demo_column_idx [("a", 3); ("b", 3)]
      float_0_1 false true true float_0_25 None = ([], Ok m)
    /\ SameSizeCatEmbeddings_forward (SameSizeCatEmbeddings_train false m) demo_batch
       = Ok out
    /\ has_shape3 2 2 4 out
    /\ out !! 1%nat = Some [[3; 4; 5; 6]; [1; 2; 3; 4]].
Proof.
  destruct (SameSizeCatEmbeddings_shared_additive_eval (Eng := Z_engine) 4
              demo_column_idx [("a", 3); ("b", 3)] float_0_1 false float_0_25 None []
              _ demo_batch eq_refl (fun _ => eq_refl))
    as (d & out & Hd & Hout & Hshape & Hrows).
  - apply (bool_decide_unpack _). vm_compute. reflexivity.
  - discriminate.
  - intros e He.
    apply elem_of_cons in He as [-> | He];
      [|apply elem_of_cons in He as [-> | He]; [|inversion He]].
    + exists 0, [1; 3]. split; [reflexivity|]. split; [reflexivity|].
      repeat constructor; vm_compute; discriminate.
    + exists 1, [2; 0]. split; [reflexivity|]. split; [reflexivity|].
      repeat constructor; vm_compute; discriminate.
  - eexists _, out. split; [reflexivity|]. split; [exact Hout|].
    split; [exact Hshape|].
    rewrite (Hrows 1%nat [3; 0; 9] eq_refl). injection Hd as <-.
    vm_compute. reflexivity.
Defined.

Lemma QuantileLoss_all_pairs_witness :
  QuantileLoss_forward (LEng := F64_loss_engine)
    (QuantileLoss_init [float_0_25; float_0_5])
    {| n_features := 2; rows := [[float_one; float_zero]; [float_0_5; float_one]] |}
    [1; 0]
  = Ok (S754_finite false 5066549580791808 (-54))
  /\ length
       (concat (concat
          (map (fun t =>
                  map (quantile_row (LEng := F64_loss_engine)
                         [float_0_25; float_0_5] t)
                    [[float_one; float_zero]; [float_0_5; float_one]])
               [1; 0]))) = 8%nat.
Proof.
  destruct (QuantileLoss_all_pairs (LEng := F64_loss_engine)
              (QuantileLoss_init [float_0_25; float_0_5])
              {| n_features := 2;
                 rows := [[float_one; float_zero]; [float_0_5; float_one]] |}
              [1; 0]) as [Hfwd Hlen].
  - repeat constructor.
  - reflexivity.
  - reflexivity.
  - discriminate.
  - split; [rewrite Hfwd; vm_compute; reflexivity | exact Hlen].
Defined.

Lemma QuantileLoss_returns_iff_witness :
  QuantileLoss_forward (LEng := F64_loss_engine)
    (QuantileLoss_init [float_0_25; float_0_5])
    {| n_features := 2; rows := [[float_one; float_zero]; [float_0_5; float_one]] |}
    [1; 0; 1]
  = Raise AssertionError
  /\ QuantileLoss_forward (LEng := F64_loss_engine) (QuantileLoss_init [])
       {| n_features := 0; rows := [[]; []] |} [1; 0]
     = Raise ValueError.
Proof.
  split.
  - refine (proj1 (proj2 (QuantileLoss_returns_iff (LEng := F64_loss_engine)
                            (QuantileLoss_init [float_0_25; float_0_5])
                            {| n_features := 2;
                               rows := [[float_one; float_zero]; [float_0_5; float_one]] |}
                            [1; 0; 1] _)) _).
    + repeat constructor.
    + left. vm_compute. discriminate.
  - refine (proj2 (proj2 (QuantileLoss_returns_iff (LEng := F64_loss_engine)
                            (QuantileLoss_init [])
                            {| n_features := 0; rows := [[]; []] |} [1; 0] _))
              eq_refl eq_refl eq_refl).
    repeat constructor.
Defined.

Lemma ContEmbeddings_dropout_nan_witness :
  exists m,
    ContEmbeddings_init (Eng := Z_engine) 2 3 S754_nan true (Some "relu") = Ok m
    /\ ContEmbeddings_forward (ContEmbeddings_train false m) [[3; -4]; [5; 6]]
       = Raise RuntimeError
    /\ ContEmbeddings_forward m [[3; -4]; [5; 6]] = Raise RuntimeError.
Proof.
  eexists. split; [reflexivity|]. split.
  - refine (proj2 (ContEmbeddings_dropout_nan (Eng := Z_engine) 2 3 true
                     (Some "relu") _ [[3; -4]; [5; 6]] false eq_refl _)).
    repeat constructor.
  - vm_compute. reflexivity.
Defined.
